(** * Malawi DHIS2 pipeline: indicator matcher, payload assembler and
      file-change tracker

    A shallow embedding of the OpenFn job code

    - [generate-dhis2-payload.js] (reports-data-upload workflow) and its
      sibling for the SFTP workflow: [generatePayload], [findFuzzyMatch];
    - [check-sftp-files.js]: the listing callback that classifies files;
    - [update-file-tracking.js]: the tracking update;
    - [process-excel-data.js]: [parseExcelData] and [validateExcelData],
      [generateOrgUnit], and the job that parses every downloaded file
      with retries;
    - [download-sftp-files.js] and the processing job of the SFTP
      workflow, between the check and the tracking update;
    - the shared utilities [validateExcelData], [generateDataValueSets]
      and [validateDataValueSet].

    Modelling conventions.

    - A JavaScript string is a [string]; characters are 7-bit ASCII, so
      [toLowerCase] maps [A-Z] to [a-z] and the regular-expression class
      [\s] is tab, line feed, vertical tab, form feed, carriage return and
      space.
    - A JavaScript object used as a dictionary whose enumeration order is
      observable ([Object.keys(indicatorValues)]) is an insertion-ordered
      association list; keys are assumed not to be canonical array indices
      and not to shadow members of [Object.prototype].  Dictionaries whose
      order is not observable (the tracking maps) are [gmap string _].
    - JavaScript numbers that hold indicator values are kept abstract (a
      type [num] with the operations the code applies to them); the fuzzy
      score, a quotient of two small naturals, is an exact rational.
    - The wall clock ([new Date()]) is an explicit argument.  So is, in
      [updateFileTrackingAt], the date thirty local calendar days before
      it; [updateFileTracking] is that job where local time has no
      daylight-saving change, thirty days being then 30 times 24 hours.
    - What a call to the outside does (an SFTP download, a read of the
      file system) is a parameter indexed by the call or by the state of
      the world at the call, so that two calls on the same file may
      differ. *)

From Stdlib Require Import Ascii String List QArith.
From stdpp Require Import base strings list gmap fin_maps pretty.

Local Open Scope string_scope.
#[local] Set Default Proof Using "Type".

(** ** JavaScript string primitives *)

Module Js.

Definition lower_ascii (c : ascii) : ascii :=
  let n := nat_of_ascii c in
  if (65 <=? n)%nat && (n <=? 90)%nat then ascii_of_nat (n + 32) else c.

(** [s.toLowerCase()] *)
Fixpoint toLowerCase (s : string) : string :=
  match s with
  | EmptyString => EmptyString
  | String c s' => String (lower_ascii c) (toLowerCase s')
  end.

(** the class [\s] *)
Definition is_space (c : ascii) : bool :=
  let n := nat_of_ascii c in
  ((9 <=? n)%nat && (n <=? 13)%nat) || (n =? 32)%nat.

Fixpoint trimStart (s : string) : string :=
  match s with
  | EmptyString => EmptyString
  | String c s' => if is_space c then trimStart s' else s
  end.

Definition rev_string (s : string) : string :=
  string_of_list_ascii (rev (list_ascii_of_string s)).

(** [s.trim()] *)
Definition trim (s : string) : string :=
  rev_string (trimStart (rev_string (trimStart s))).

(** [s.startsWith(p)] *)
Fixpoint startsWith (s p : string) : bool :=
  match p, s with
  | EmptyString, _ => true
  | String _ _, EmptyString => false
  | String a p', String b s' => Ascii.eqb a b && startsWith s' p'
  end.

(** [s.includes(t)] *)
Fixpoint includes (s t : string) : bool :=
  startsWith s t ||
  match s with
  | EmptyString => false
  | String _ s' => includes s' t
  end.

(** [s.endsWith(t)]: some suffix of [s] is [t] *)
Fixpoint endsWith (s t : string) : bool :=
  String.eqb s t ||
  match s with
  | EmptyString => false
  | String _ s' => endsWith s' t
  end.

(** the class [[\s\-_]] *)
Definition is_separator (c : ascii) : bool :=
  is_space c || Ascii.eqb c "-" || Ascii.eqb c "_".

(** [s.split(/[\s\-_]+/)].  [cur] is the token being read, reversed;
    [in_sep] says that the previous character was a separator.  As in
    JavaScript a leading or trailing run of separators yields an empty
    first or last token, and the empty string splits into [[""]]. *)
Fixpoint split_from (s : string) (cur : list ascii) (in_sep : bool)
  : list string :=
  match s with
  | EmptyString => [string_of_list_ascii (rev cur)]
  | String c s' =>
      if is_separator c then
        if in_sep then split_from s' [] true
        else string_of_list_ascii (rev cur) :: split_from s' [] true
      else split_from s' (c :: cur) false
  end.

Definition split (s : string) : list string := split_from s [] false.

(** [s.lastIndexOf(".")], [None] for -1 *)
Fixpoint lastIndexOf_dot (s : string) : option nat :=
  match s with
  | EmptyString => None
  | String c s' =>
      match lastIndexOf_dot s' with
      | Some i => Some (S i)
      | None => if Ascii.eqb c "." then Some 0%nat else None
      end
  end.

(** [s.substring(i)] *)
Fixpoint substring_from (i : nat) (s : string) : string :=
  match i, s with
  | O, _ => s
  | S i', String _ s' => substring_from i' s'
  | S _, EmptyString => EmptyString
  end.



(** truthiness of a string: only [""] is falsy *)
Definition truthy (s : string) : bool := negb (String.eqb s "").

(** *** Cutting at separators, in the words of the specification *)





End Js.

(** ** Fuzzy matching: [findFuzzyMatch] *)

Module Fuzzy.

(** the body of the two nested [forEach] loops: [score += 2] on an
    exact word match, [score += 1] on a containment *)
Definition add_pair (targetWord : string) (score : nat)
    (candidateWord : string) : nat :=
  if String.eqb targetWord candidateWord then score + 2
  else if Js.includes targetWord candidateWord
          || Js.includes candidateWord targetWord
  then score + 1
  else score.

Definition score (targetWords candidateWords : list string) : nat :=
  fold_left
    (fun score targetWord =>
       fold_left (add_pair targetWord) candidateWords score)
    targetWords 0%nat.

Definition words (s : string) : list string :=
  Js.split (Js.toLowerCase s).

(** [score / Math.max(targetWords.length, candidateWords.length)] *)
Definition normalizedScore (target candidate : string) : Q :=
  let targetWords := words target in
  let candidateWords := words candidate in
  Z.of_nat (score targetWords candidateWords)
    # Pos.of_nat (Nat.max (length targetWords) (length candidateWords)).

Definition Qgtb (x y : Q) : bool := negb (Qle_bool x y).

(** one iteration of [candidates.forEach] on the pair
    [(bestMatch, bestScore)] *)
Definition step (target : string) (best : option string * Q)
    (candidate : string) : option string * Q :=
  let normalized := normalizedScore target candidate in
  if Qgtb normalized (snd best) && Qgtb normalized (1 # 2)
  then (Some candidate, normalized)
  else best.

Definition findFuzzyMatch (target : string) (candidates : list string)
  : option string :=
  fst (fold_left (step target) candidates (None, 0%Q)).

(** *** The scoring rule in the words of the specification *)

(** +2 for an exact token match, +1 when one token contains the other *)
Definition pair_points (t c : string) : nat :=
  if String.eqb t c then 2
  else if Js.includes t c || Js.includes c t then 1
  else 0.

(** the sum over all token pairs *)
Definition spec_score (ts cs : list string) : nat :=
  list_sum (map (fun p => pair_points (fst p) (snd p)) (list_prod ts cs)).

(** What the loop has established after a prefix of the candidates. *)
Definition best_so_far (target : string) (seen : list string)
    (best : option string * Q) : Prop :=
  match fst best with
  | None =>
      (snd best == 0)%Q /\
      forall c, In c seen -> (normalizedScore target c <= 1 # 2)%Q
  | Some b =>
      snd best = normalizedScore target b /\
      (1 # 2 < normalizedScore target b)%Q /\
      exists i,
        nth_error seen i = Some b /\
        (forall c, In c seen ->
                   (normalizedScore target c <= normalizedScore target b)%Q) /\
        (forall j c, (j < i)%nat -> nth_error seen j = Some c ->
                     (normalizedScore target c < normalizedScore target b)%Q)
  end.

End Fuzzy.

(** ** The indicator matcher and payload assembler: [generatePayload] *)

(** JavaScript values found in a value cell. *)
Inductive jsval (num : Type) : Type :=
| VUndefined
| VString (s : string)
| VNumber (n : num).
Arguments VUndefined {num}.
Arguments VString {num} s.
Arguments VNumber {num} n.

Inductive matchType : Set :=
| none | exact | exact_case_insensitive | partial | fuzzy | default.

Record matchingStats : Set := mkStats {
  exactMatches : nat;
  partialMatches : nat;
  noMatches : nat;
  defaultValues : nat
}.

Record reportConfig : Set := mkConfig {
  catAttrCombo : string;
  dataSet : string;
  period : string;
  orgUnit : string;
  (** [Object.entries(hivStagesReportMapping)] *)
  hivStagesReportMapping : list (string * string)
}.

Module Matcher.
Section WithNumbers.

Context {num : Type}.
(** the number [0] *)
Variable zero : num.
(** falsy numbers: [0], [-0] and [NaN] *)
Variable falsy : num -> bool.
(** [parseFloat(v)] *)
Variable parseFloat : jsval num -> num.

(** *** Value cells *)

Definition truthy (v : jsval num) : bool :=
  match v with
  | VUndefined => false
  | VString s => Js.truthy s
  | VNumber n => negb (falsy n)
  end.

(** [a || b] *)
Definition or_val (a b : jsval num) : jsval num :=
  if truthy a then a else b.

Definition truthy_name (o : option string) : bool :=
  match o with
  | Some s => Js.truthy s
  | None => false
  end.

(** [a || b] on optional text cells *)
Definition or_name (a b : option string) : option string :=
  if truthy_name a then a else b.

(** [value !== undefined && value !== ''] *)
Definition has_value (v : jsval num) : bool :=
  match v with
  | VUndefined => false
  | VString s => Js.truthy s
  | VNumber _ => true
  end.

(** [parseFloat(value) || 0] *)
Definition numericValue (v : jsval num) : num :=
  let n := parseFloat v in if falsy n then zero else n.

(** *** The object [indicatorValues] *)

Definition index : Type := list (string * num).

(** [indicatorValues[key]] *)
Fixpoint get (m : index) (key : string) : option num :=
  match m with
  | [] => None
  | (k, v) :: m' => if String.eqb k key then Some v else get m' key
  end.

(** [indicatorValues[key] = v]: an existing property keeps its place in
    the enumeration order, a new one goes last *)
Fixpoint set (m : index) (key : string) (v : num) : index :=
  match m with
  | [] => [(key, v)]
  | (k, w) :: m' =>
      if String.eqb k key then (k, v) :: m' else (k, w) :: set m' key v
  end.

Definition hasOwnProperty (m : index) (key : string) : bool :=
  match get m key with Some _ => true | None => false end.

(** [Object.keys(indicatorValues)] *)
Definition keys (m : index) : list string := map fst m.

(** *** One vocabulary entry *)

Definition count_exact (s : matchingStats) : matchingStats :=
  mkStats (S (exactMatches s)) (partialMatches s) (noMatches s)
          (defaultValues s).
Definition count_partial (s : matchingStats) : matchingStats :=
  mkStats (exactMatches s) (S (partialMatches s)) (noMatches s)
          (defaultValues s).
Definition count_none (s : matchingStats) : matchingStats :=
  mkStats (exactMatches s) (partialMatches s) (S (noMatches s))
          (defaultValues s).

(** the state [(value, matchType, matchingStats)] of one iteration;
    [value = None] is [undefined] *)
Definition attempt : Type := option num * matchType * matchingStats.

(** [if (found) { value = indicatorValues[found]; matchType = mt; ... }],
    where [found] is the result of [find] or of [findFuzzyMatch]: a
    missing result and the empty string are both falsy *)
Definition take (indicatorValues : index) (found : option string)
    (mt : matchType) (count : matchingStats -> matchingStats)
    (a : attempt) : attempt :=
  match found with
  | Some key =>
      if Js.truthy key
      then (get indicatorValues key, mt, count (snd a))
      else a
  | None => a
  end.

(** Strategy 1: exact match *)
Definition strategy1 (indicatorValues : index) (indicatorKey : string)
    (a : attempt) : attempt :=
  if hasOwnProperty indicatorValues indicatorKey
  then (get indicatorValues indicatorKey, exact, count_exact (snd a))
  else a.

(** Strategy 2: case-insensitive exact match *)
Definition strategy2 (indicatorValues : index) (indicatorKey : string)
    (a : attempt) : attempt :=
  match fst (fst a) with
  | Some _ => a
  | None =>
      let exactMatch :=
        find (fun key =>
                String.eqb (Js.toLowerCase key) (Js.toLowerCase indicatorKey))
             (keys indicatorValues) in
      take indicatorValues exactMatch exact_case_insensitive count_exact a
  end.

(** Strategy 3: partial matching (contains) *)
Definition strategy3 (indicatorValues : index) (indicatorKey : string)
    (a : attempt) : attempt :=
  match fst (fst a) with
  | Some _ => a
  | None =>
      let partialMatch :=
        find (fun key =>
                Js.includes (Js.toLowerCase key) (Js.toLowerCase indicatorKey)
                || Js.includes (Js.toLowerCase indicatorKey)
                               (Js.toLowerCase key))
             (keys indicatorValues) in
      take indicatorValues partialMatch partial count_partial a
  end.

(** Strategy 4: fuzzy matching *)
Definition strategy4 (indicatorValues : index) (indicatorKey : string)
    (a : attempt) : attempt :=
  match fst (fst a) with
  | Some _ => a
  | None =>
      let fuzzyMatch :=
        Fuzzy.findFuzzyMatch indicatorKey (keys indicatorValues) in
      take indicatorValues fuzzyMatch fuzzy count_partial a
  end.

(** Default to 0 if no value found *)
Definition orDefault (a : attempt) : num * matchType * matchingStats :=
  match fst (fst a) with
  | Some value => (value, snd (fst a), snd a)
  | None => (zero, default, count_none (snd a))
  end.

Definition resolve (indicatorValues : index) (indicatorKey : string)
    (stats : matchingStats) : num * matchType * matchingStats :=
  orDefault
    (strategy4 indicatorValues indicatorKey
       (strategy3 indicatorValues indicatorKey
          (strategy2 indicatorValues indicatorKey
             (strategy1 indicatorValues indicatorKey
                (None, none, stats))))).

Record dataValue : Type := mkDataValue {
  dataElement : string;
  dv_period : string;
  dv_orgUnit : string;
  categoryOptionCombo : string;
  attributeOptionCombo : string;
  value : num;
  dv_matchType : matchType;
  originalIndicator : string
}.

(** the body of [Object.entries(hivStagesReportMapping).forEach]; the
    accumulator is [(dataValues, matchingStats)] *)
Definition matchEntry (cfg : reportConfig) (indicatorValues : index)
    (acc : list dataValue * matchingStats) (entry : string * string)
  : list dataValue * matchingStats :=
  let '(indicatorKey, dhis2DataElement) := entry in
  let '(v, mt, stats) := resolve indicatorValues indicatorKey (snd acc) in
  ((fst acc ++
      [mkDataValue dhis2DataElement (period cfg) (orgUnit cfg)
         (catAttrCombo cfg) (catAttrCombo cfg) v mt indicatorKey])%list,
   stats).

Definition matchAll (cfg : reportConfig) (indicatorValues : index)
  : list dataValue * matchingStats :=
  fold_left (matchEntry cfg indicatorValues) (hivStagesReportMapping cfg)
    ([], mkStats 0 0 0 0).

(** *** When a vocabulary key has no matching observed value, in the
    words of the specification: no observed key is equal to it, equal to
    it up to case, a substring of it or contains it (up to case), or
    scores above one half against it *)
Definition matches (indicatorKey key : string) : bool :=
  String.eqb key indicatorKey
  || String.eqb (Js.toLowerCase key) (Js.toLowerCase indicatorKey)
  || Js.includes (Js.toLowerCase key) (Js.toLowerCase indicatorKey)
  || Js.includes (Js.toLowerCase indicatorKey) (Js.toLowerCase key)
  || Fuzzy.Qgtb (Fuzzy.normalizedScore indicatorKey key) (1 # 2).

(** *** Ties: where the enumeration order of the observed keys decides *)

(** the test of the containment strategy *)
Definition contains (indicatorKey key : string) : bool :=
  Js.includes (Js.toLowerCase key) (Js.toLowerCase indicatorKey)
  || Js.includes (Js.toLowerCase indicatorKey) (Js.toLowerCase key).

(** two observed keys between which one strategy would have to choose for
    the vocabulary key: both equal to it up to case, both in a containment
    relation with it, or both with the same score above one half *)
Definition tie (indicatorKey k1 k2 : string) : bool :=
  (String.eqb (Js.toLowerCase k1) (Js.toLowerCase indicatorKey)
   && String.eqb (Js.toLowerCase k2) (Js.toLowerCase indicatorKey))
  || (contains indicatorKey k1 && contains indicatorKey k2)
  || (Fuzzy.Qgtb (Fuzzy.normalizedScore indicatorKey k1) (1 # 2)
      && Qeq_bool (Fuzzy.normalizedScore indicatorKey k1)
                  (Fuzzy.normalizedScore indicatorKey k2)).

(** no two distinct observed keys tie for the vocabulary key *)
Definition tie_free (observed : list string) (indicatorKey : string)
  : bool :=
  forallb
    (fun k1 =>
       forallb
         (fun k2 => String.eqb k1 k2 || negb (tie indicatorKey k1 k2))
         observed)
    observed.

(** *** Building [indicatorValues] (reports-data-upload workflow) *)

(** A row of a sheet: the columns the job reads.  Text columns are
    [None] when the property is absent. *)
Record row : Type := mkRow {
  row_Indicator : option string;       (* row['Indicator'] *)
  row_Indicator_Name : option string;  (* row['Indicator Name'] *)
  row_indicator : option string;       (* row['indicator'] *)
  row_Value : jsval num;               (* row['Value'] *)
  row_Count : jsval num;               (* row['Count'] *)
  row_Total : jsval num;               (* row['Total'] *)
  row_value : jsval num;               (* row['value'] *)
  row_Site : option string;            (* row['Site'] *)
  row_site : option string             (* row['site'] *)
}.

Record sheetData : Type := mkSheetData {
  recordCount : nat;
  data : list row
}.

Record indicatorRecord : Type := mkIndicatorRecord {
  ind_indicator : option string;
  ind_rowIndex : nat;
  ind_value : jsval num
}.

(** an element of [file.queries] or of [file.sites] *)
Record siteRecord : Type := mkSiteRecord {
  sr_site : string;
  sr_indicator : string;
  sr_value : jsval num
}.

Record processedFile : Type := mkProcessedFile {
  fileName : string;
  indicators : option (list indicatorRecord);
  queries : option (list siteRecord);
  sites : option (list siteRecord)
}.

Record inputData : Type := mkInputData {
  source : option string;
  (** [Object.entries(inputData.sheets)] *)
  sheets : option (list (string * sheetData));
  processedData : option (list row);
  processedFiles : option (list processedFile)
}.

(** the callback of [sheetData.data.forEach] in the SFTP Excel branch *)
Definition sftpRow (indicatorValues : index) (r : row) : index :=
  let indicatorName := or_name (row_Indicator r) (row_indicator r) in
  let value := or_val (row_Value r) (row_value r) in
  let site := or_name (row_Site r) (row_site r) in
  match indicatorName with
  | Some name =>
      if Js.truthy name && has_value value then
        let indicatorKey :=
          match site with
          | Some st => if Js.truthy st then st ++ "_" ++ name else name
          | None => name
          end in
        set indicatorValues (Js.trim indicatorKey) (numericValue value)
      else indicatorValues
  | None => indicatorValues
  end.

Definition sftpSheets (sh : list (string * sheetData)) : index :=
  fold_left
    (fun indicatorValues entry =>
       fold_left sftpRow (data (snd entry)) indicatorValues)
    sh [].

(** the callback of [inputData.processedData.forEach] *)
Definition googleRow (indicatorValues : index) (r : row) : index :=
  let indicatorName :=
    or_name (or_name (row_Indicator r) (row_Indicator_Name r))
            (row_indicator r) in
  let value :=
    or_val (or_val (or_val (row_Value r) (row_Count r)) (row_Total r))
           (row_value r) in
  match indicatorName with
  | Some name =>
      if Js.truthy name && has_value value then
        set indicatorValues (Js.trim name) (numericValue value)
      else indicatorValues
  | None => indicatorValues
  end.

(** key and value written for an element of [file.indicators] *)
Definition indicatorWrite (file : processedFile) (i : indicatorRecord)
  : string * num :=
  let key :=
    match ind_indicator i with
    | Some name =>
        if Js.truthy name then name
        else fileName file ++ "_" ++ pretty (ind_rowIndex i)
    | None => fileName file ++ "_" ++ pretty (ind_rowIndex i)
    end in
  (Js.trim key, numericValue (ind_value i)).

(** key and value written for an element of [file.queries] or
    [file.sites] *)
Definition siteWrite (q : siteRecord) : string * num :=
  let key := sr_site q ++ "_" ++ sr_indicator q in
  (Js.trim key, numericValue (sr_value q)).

Definition rawIndicator (file : processedFile) (indicatorValues : index)
    (i : indicatorRecord) : index :=
  set indicatorValues (fst (indicatorWrite file i))
    (snd (indicatorWrite file i)).

Definition rawSite (indicatorValues : index) (q : siteRecord) : index :=
  set indicatorValues (fst (siteWrite q)) (snd (siteWrite q)).

Definition each {A : Type} (f : index -> A -> index)
    (l : option (list A)) (indicatorValues : index) : index :=
  match l with
  | Some xs => fold_left f xs indicatorValues
  | None => indicatorValues
  end.

(** the callback of [inputData.processedFiles.forEach] *)
Definition rawFile (indicatorValues : index) (file : processedFile)
  : index :=
  each rawSite (sites file)
    (each rawSite (queries file)
       (each (rawIndicator file) (indicators file) indicatorValues)).

(** [(indicatorValues, dataSource)] *)
Definition extract (input : option inputData) : index * string :=
  match input with
  | None => ([], "unknown")
  | Some d =>
      if bool_decide (source d = Some "sftp_excel") then
        (match sheets d with Some sh => sftpSheets sh | None => [] end,
         "SFTP Excel")
      else
        match processedData d with
        | Some rows => (fold_left googleRow rows [], "Google Sheets")
        | None =>
            match processedFiles d with
            | Some files => (fold_left rawFile files [], "Raw Excel")
            | None => ([], "unknown")
            end
        end
  end.

Record payload : Type := mkPayload {
  p_dataSet : string;
  p_period : string;
  p_orgUnit : string;
  dataValues : list dataValue;
  dataSource : string;
  generatedAt : string;
  p_matchingStats : matchingStats
}.

(** [generatePayload(inputData, reportConfig)]; [now] is what
    [new Date().toISOString()] returns *)
Definition generatePayload (now : string) (input : option inputData)
    (cfg : reportConfig) : payload :=
  let '(indicatorValues, source) := extract input in
  let '(values, stats) := matchAll cfg indicatorValues in
  mkPayload (dataSet cfg) (period cfg) (orgUnit cfg) values source now
    stats.

(** *** The SFTP workflow's [generatePayload(processedFiles, reportConfig)] *)

(** [a < b] on numbers *)
Variable less : num -> num -> bool.

Record excelIndicator : Type := mkExcelIndicator {
  ei_indicator : string;
  ei_value : jsval num
}.

Record excelData : Type := mkExcelData {
  ed_type : string;
  ed_indicators : option (list excelIndicator);
  ed_queries : option (list siteRecord)
}.

Record excelFile : Type := mkExcelFile {
  ef_fileName : string;
  ef_excelData : excelData
}.

(** the accumulator is [(indicatorValues, totalRecords)] *)
Definition excelIndicatorStep (acc : index * nat) (i : excelIndicator)
  : index * nat :=
  let key := Js.trim (ei_indicator i) in
  let v := numericValue (ei_value i) in
  let stored := get (fst acc) key in
  let replace :=
    match stored with
    | None => true
    | Some old => falsy old || less old v
    end in
  (if replace then set (fst acc) key v else fst acc, S (snd acc)).

Definition excelQueryStep (acc : index * nat) (q : siteRecord)
  : index * nat :=
  let key := Js.trim (sr_site q ++ "_" ++ sr_indicator q) in
  (set (fst acc) key (numericValue (sr_value q)), S (snd acc)).

Definition each_counted {A : Type} (f : index * nat -> A -> index * nat)
    (l : option (list A)) (acc : index * nat) : index * nat :=
  match l with
  | Some xs => fold_left f xs acc
  | None => acc
  end.

Definition excelFileStep (acc : index * nat) (file : excelFile)
  : index * nat :=
  each_counted excelQueryStep (ed_queries (ef_excelData file))
    (each_counted excelIndicatorStep (ed_indicators (ef_excelData file))
       acc).

Definition excelIndex (files : list excelFile) : index * nat :=
  fold_left excelFileStep files ([], 0%nat).

Record excelPayload : Type := mkExcelPayload {
  base : payload;
  totalRecords : nat;
  uniqueIndicators : nat
}.

Definition generateExcelPayload (now : string) (files : list excelFile)
    (cfg : reportConfig) : excelPayload :=
  let '(indicatorValues, total) := excelIndex files in
  let '(values, stats) := matchAll cfg indicatorValues in
  mkExcelPayload
    (mkPayload (dataSet cfg) (period cfg) (orgUnit cfg) values
       "SFTP Excel" now stats)
    total (length (keys indicatorValues)).

(** *** Derived views used to state the properties *)

(** value and match type found for a key, whatever the statistics *)
Definition resolved (indicatorValues : index) (indicatorKey : string)
  : num * matchType :=
  fst (resolve indicatorValues indicatorKey (mkStats 0 0 0 0)).

(** the [dataValues] element pushed for one vocabulary pair *)
Definition entryFor (cfg : reportConfig) (indicatorValues : index)
    (entry : string * string) : dataValue :=
  mkDataValue (snd entry) (period cfg) (orgUnit cfg)
    (catAttrCombo cfg) (catAttrCombo cfg)
    (fst (resolved indicatorValues (fst entry)))
    (snd (resolved indicatorValues (fst entry)))
    (fst entry).

(** the entry of a key resolved to the default *)
Definition defaultEntry (cfg : reportConfig) (entry : string * string)
  : dataValue :=
  mkDataValue (snd entry) (period cfg) (orgUnit cfg)
    (catAttrCombo cfg) (catAttrCombo cfg) zero default (fst entry).

(** the entry of a key resolved exactly to [v] *)
Definition exactEntry (cfg : reportConfig) (entry : string * string)
    (v : num) : dataValue :=
  mkDataValue (snd entry) (period cfg) (orgUnit cfg)
    (catAttrCombo cfg) (catAttrCombo cfg) v exact (fst entry).

(** The cardinality invariant: [dvs] has one entry per vocabulary pair,
    in order, and a pair whose key matches no observed key has the
    default entry. *)
Definition one_entry_per_key (cfg : reportConfig)
    (indicatorValues : index) (dvs : list dataValue) : Prop :=
  length dvs = length (hivStagesReportMapping cfg) /\
  map originalIndicator dvs = map fst (hivStagesReportMapping cfg) /\
  map dataElement dvs = map snd (hivStagesReportMapping cfg) /\
  forall (i : nat) (entry : string * string),
    nth_error (hivStagesReportMapping cfg) i = Some entry ->
    (forall key, In key (keys indicatorValues) ->
                 matches (fst entry) key = false) ->
    nth_error dvs i = Some (defaultEntry cfg entry).

(** The writes [indicatorValues[key] = v] of the three branches, in the
    order in which the loops perform them. *)
Definition sftpWrite (r : row) : list (string * num) :=
  sftpRow [] r.
Definition googleWrite (r : row) : list (string * num) :=
  googleRow [] r.
Definition written {A : Type} (w : A -> string * num)
    (l : option (list A)) : list (string * num) :=
  match l with
  | Some xs => map w xs
  | None => []
  end.
Definition rawWrites (file : processedFile) : list (string * num) :=
  (written (indicatorWrite file) (indicators file)
   ++ written siteWrite (queries file)
   ++ written siteWrite (sites file))%list.

Definition writes (input : option inputData) : list (string * num) :=
  match input with
  | None => []
  | Some d =>
      if bool_decide (source d = Some "sftp_excel") then
        match sheets d with
        | Some sh =>
            flat_map (fun entry => flat_map sftpWrite (data (snd entry))) sh
        | None => []
        end
      else
        match processedData d with
        | Some rows => flat_map googleWrite rows
        | None =>
            match processedFiles d with
            | Some files => flat_map rawWrites files
            | None => []
            end
        end
  end.

(** performing a sequence of writes on an object *)
Definition replay (ws : list (string * num)) (m : index) : index :=
  fold_left (fun m w => set m (fst w) (snd w)) ws m.

End WithNumbers.
End Matcher.

(** ** The file-change tracker: [check-sftp-files.js] and
       [update-file-tracking.js] *)

Module Tracker.

(** Primitive values of the [size] and [modifiedTime] properties; [!==]
    on them is inequality of the values. *)
Inductive prim : Set :=
| PUndefined
| PNull
| PNumber (n : Z)
| PText (s : string).

#[global] Instance prim_eq_dec : EqDecision prim.
Proof. solve_decision. Defined.

(** [a !== b] *)
Definition strict_ne (a b : prim) : bool := negb (bool_decide (a = b)).

Definition SFTP_DIRECTORY : string := "/uploads/hiv-indicators/".
Definition SUPPORTED_EXTENSIONS : list string := [".xlsx"; ".xls"].

(** an element of the directory listing [state.data] *)
Record listingEntry : Set := mkEntry {
  le_type : string;
  le_name : string;
  le_size : prim;
  le_modifiedTime : prim
}.

Record fileInfo : Set := mkFileInfo {
  name : string;
  size : prim;
  modifiedTime : prim;
  path : string
}.

Record dhis2Summary : Set := mkDhis2Summary {
  imported : Z;
  updated : Z;
  ignored : Z
}.

(** a value of the [fileTracking] object; time stamps are milliseconds
    since the epoch, [None] when the property is absent *)
Record trackingInfo : Set := mkTrackingInfo {
  ti_name : string;
  ti_size : prim;
  ti_modifiedTime : prim;
  ti_path : string;
  processedAt : option Z;
  lastChecked : option Z;
  status : string;
  uploadStatus : option string;
  ti_dhis2Summary : option dhis2Summary
}.

(** an element of [state.processedFiles], as far as the tracker reads it *)
Record processedFile : Set := mkProcessed {
  pf_name : string;
  pf_size : prim;
  pf_modifiedTime : prim;
  pf_path : string
}.

Record uploadSummary : Set := mkUploadSummary {
  us_status : option string;
  us_imported : Z;
  us_updated : Z;
  us_ignored : Z
}.

Record trackingSummary : Set := mkTrackingSummary {
  totalTrackedFiles : nat;
  newlyProcessed : nat;
  lastUpdated : Z;
  cleanupPerformed : bool
}.

(** the properties of the job state that the two jobs read or write *)
Record state : Type := mkState {
  data : list listingEntry;
  fileTracking : option (gmap string trackingInfo);
  newFilesFound : bool;
  newFiles : list fileInfo;
  currentFileList : option (gmap string fileInfo);
  st_lastChecked : option Z;
  processedFiles : option (list processedFile);
  (** truthiness of [state.uploadCompleted] *)
  uploadCompleted : bool;
  st_uploadSummary : option uploadSummary;
  st_trackingSummary : option trackingSummary;
  workflowCompleted : bool;
  completedAt : option Z
}.

(** [state.fileTracking || {}] *)
Definition orEmpty {A : Type} (o : option (gmap string A))
  : gmap string A :=
  match o with
  | Some m => m
  | None => ∅
  end.

(** *** [check-sftp-files.js] *)

(** [file.name.toLowerCase().substring(file.name.lastIndexOf('.'))]; a
    negative start index counts as 0 *)
Definition extension (fileName : string) : string :=
  Js.substring_from
    (match Js.lastIndexOf_dot fileName with Some i => i | None => 0%nat end)
    (Js.toLowerCase fileName).

(** [SUPPORTED_EXTENSIONS.includes(extension)] *)
Definition supported (ext : string) : bool :=
  existsb (String.eqb ext) SUPPORTED_EXTENSIONS.

(** the entries that the listing callback looks at *)
Definition eligible (file : listingEntry) : bool :=
  String.eqb (le_type file) "file" && supported (extension (le_name file)).

Definition infoOf (file : listingEntry) : fileInfo :=
  mkFileInfo (le_name file) (le_size file) (le_modifiedTime file)
    (SFTP_DIRECTORY ++ le_name file).

(** [!previousFile || previousFile.modifiedTime !== fileInfo.modifiedTime
     || previousFile.size !== fileInfo.size] *)
Definition newOrChanged (previousFile : option trackingInfo)
    (info : fileInfo) : bool :=
  match previousFile with
  | None => true
  | Some previous =>
      strict_ne (ti_modifiedTime previous) (modifiedTime info)
      || strict_ne (ti_size previous) (size info)
  end.

(** [(currentFiles, newFilesFound, newFiles)] *)
Definition findings : Type := gmap string fileInfo * bool * list fileInfo.

(** the callback of [state.data.forEach] *)
Definition checkFile (previousFiles : gmap string trackingInfo)
    (acc : findings) (file : listingEntry) : findings :=
  let '(currentFiles, found, new) := acc in
  if String.eqb (le_type file) "file" then
    if supported (extension (le_name file)) then
      let fileKey := le_name file in
      let info := infoOf file in
      let currentFiles := <[fileKey := info]> currentFiles in
      if newOrChanged (previousFiles !! fileKey) info
      then (currentFiles, true, (new ++ [info])%list)
      else (currentFiles, found, new)
    else acc
  else acc.

Definition classify (previousFiles : gmap string trackingInfo)
    (listing : list listingEntry) : findings :=
  fold_left (checkFile previousFiles) listing (∅, false, []).

(** the callback given to [list(SFTP_DIRECTORY, ...)]; [now] is the
    reading of the clock *)
Definition checkSftpFiles (now : Z) (st : state) : state :=
  let previousFiles := orEmpty (fileTracking st) in
  let '(currentFiles, found, new) := classify previousFiles (data st) in
  mkState (data st) (fileTracking st) found new (Some currentFiles)
    (Some now) (processedFiles st) (uploadCompleted st)
    (st_uploadSummary st) (st_trackingSummary st) (workflowCompleted st)
    (completedAt st).

(** [download-sftp-files.js], run after the check: [state.newFiles] when
    it is not empty; [state.data] is then the listing, which has no
    [filePath], so that nothing else is chosen *)
Definition filesToDownload (st : state) : list fileInfo :=
  if (0 <? length (newFiles st))%nat then newFiles st else [].

(** [list] stores the directory listing in [state.data] before it calls
    the callback *)
Definition withListing (listing : list listingEntry) (st : state) : state :=
  mkState listing (fileTracking st) (newFilesFound st) (newFiles st)
    (currentFileList st) (st_lastChecked st) (processedFiles st)
    (uploadCompleted st) (st_uploadSummary st) (st_trackingSummary st)
    (workflowCompleted st) (completedAt st).

(** *** [update-file-tracking.js] *)

Definition trackingInfoOf (now : Z) (st : state) (file : processedFile)
  : trackingInfo :=
  mkTrackingInfo (pf_name file) (pf_size file) (pf_modifiedTime file)
    (pf_path file) (Some now) None "processed"
    (Some (match st_uploadSummary st with
           | Some u =>
               match us_status u with
               | Some s => if Js.truthy s then s else "unknown"
               | None => "unknown"
               end
           | None => "unknown"
           end))
    (Some (match st_uploadSummary st with
           | Some u =>
               mkDhis2Summary (us_imported u) (us_updated u) (us_ignored u)
           | None => mkDhis2Summary 0 0 0
           end)).

(** the callback of [state.processedFiles.forEach] *)
Definition trackProcessed (now : Z) (st : state)
    (newFileTracking : gmap string trackingInfo) (file : processedFile)
  : gmap string trackingInfo :=
  <[pf_name file := trackingInfoOf now st file]> newFileTracking.

(** [{...fileInfo, lastChecked: now, status: 'checked'}] *)
Definition checkedInfo (now : Z) (info : fileInfo) : trackingInfo :=
  mkTrackingInfo (name info) (size info) (modifiedTime info) (path info)
    None (Some now) "checked" None None.

(** the callback of [Object.entries(state.currentFileList).forEach] *)
Definition markChecked (now : Z) (fileKey : string) (info : fileInfo)
    (newFileTracking : gmap string trackingInfo)
  : gmap string trackingInfo :=
  match newFileTracking !! fileKey with
  | Some _ => newFileTracking
  | None => <[fileKey := checkedInfo now info]> newFileTracking
  end.

(** thirty days of 24 hours, in milliseconds *)
Definition thirtyDays : Z := 30 * 24 * 60 * 60 * 1000.

(** [new Date(fileInfo.processedAt || fileInfo.lastChecked || 0)] *)
Definition fileDate (info : trackingInfo) : Z :=
  match processedAt info with
  | Some t => t
  | None => match lastChecked info with Some t => t | None => 0 end
  end.

(** the entries that survive the clean-up loop, which deletes every key
    whose [fileDate] is before [thirtyDaysAgo] *)
Definition cleanUp (thirtyDaysAgo : Z)
    (newFileTracking : gmap string trackingInfo)
  : gmap string trackingInfo :=
  filter (fun entry => ¬ (fileDate (snd entry) < thirtyDaysAgo)%Z)
         newFileTracking.

(** the job; [now] is the reading of the clock and [thirtyDaysAgo] the
    date that [setDate(getDate() - 30)] makes of it in the local
    calendar *)
Definition updateFileTrackingAt (thirtyDaysAgo now : Z) (st : state)
  : state :=
  if negb (uploadCompleted st) then st
  else
    let currentFileTracking := orEmpty (fileTracking st) in
    let newFileTracking := currentFileTracking in
    let newFileTracking :=
      match processedFiles st with
      | Some files =>
          if (0 <? length files)%nat
          then fold_left (trackProcessed now st) files newFileTracking
          else newFileTracking
      | None => newFileTracking
      end in
    let newFileTracking :=
      match currentFileList st with
      | Some current => map_fold (markChecked now) newFileTracking current
      | None => newFileTracking
      end in
    let newFileTracking := cleanUp thirtyDaysAgo newFileTracking in
    let summary :=
      mkTrackingSummary (stdpp.base.size newFileTracking)
        (match processedFiles st with
         | Some files => length files
         | None => 0%nat
         end)
        now true in
    mkState (data st) (Some newFileTracking) (newFilesFound st)
      (newFiles st) (currentFileList st) (st_lastChecked st)
      (processedFiles st) (uploadCompleted st) (st_uploadSummary st)
      (Some summary) true (Some now).

(** the job where local time has no daylight-saving change (UTC, or
    Central Africa Time): thirty calendar days are then 30 times 24
    hours *)
Definition updateFileTracking (now : Z) (st : state) : state :=
  updateFileTrackingAt (now - thirtyDays) now st.

(** the state at the start of a run: the tracking map persisted by the
    previous run and the directory listing *)
Definition startOfRun (tracking : option (gmap string trackingInfo))
    (listing : list listingEntry) : state :=
  mkState listing tracking false [] None None None false None None false
    None.

(** the state after the download, processing and upload jobs *)
Definition afterPipeline (st : state) (files : list processedFile)
    (uploaded : bool) : state :=
  mkState (data st) (fileTracking st) (newFilesFound st) (newFiles st)
    (currentFileList st) (st_lastChecked st) (Some files) uploaded
    (if uploaded then Some (mkUploadSummary (Some "SUCCESS") 1 0 0)
     else None)
    (st_trackingSummary st) (workflowCompleted st) (completedAt st).

(** the file of the specification's scenario 5 and its tracking record *)
Definition aXlsx (fileSize : Z) : listingEntry :=
  mkEntry "file" "a.xlsx" (PNumber fileSize) (PText "2025-06-01T08:00:00Z").

Definition aXlsxKnown : gmap string trackingInfo :=
  {[ "a.xlsx" :=
       mkTrackingInfo "a.xlsx" (PNumber 100) (PText "2025-06-01T08:00:00Z")
         "/uploads/hiv-indicators/a.xlsx" (Some 1748764800000%Z) None
         "processed" (Some "SUCCESS") (Some (mkDhis2Summary 12 0 0)) ]}.

Definition aXlsxProcessed : processedFile :=
  mkProcessed "a.xlsx" (PNumber 100) (PText "2025-06-01T08:00:00Z")
    "/uploads/hiv-indicators/a.xlsx".

(** *** The classification rule in the words of the specification *)

(** the name is absent from the tracking map, or the size or the
    modification time differs from the stored record *)
Definition absent_or_differs (knownFiles : gmap string trackingInfo)
    (file : listingEntry) : Prop :=
  knownFiles !! le_name file = None \/
  exists known,
    knownFiles !! le_name file = Some known /\
    (ti_size known <> le_size file \/
     ti_modifiedTime known <> le_modifiedTime file).

(** the name ends, up to case, in [.xlsx] or [.xls] *)
Definition excel_name (fileName : string) : bool :=
  Js.endsWith (Js.toLowerCase fileName) ".xlsx"
  || Js.endsWith (Js.toLowerCase fileName) ".xls".

End Tracker.

(** ** The spreadsheet normalizer: [process-excel-data.js]
       (reports-data-upload workflow) *)

Module Excel.

(** a call returns a value or throws an [Error] with a message *)
Inductive outcome (A : Type) : Type :=
| Returned (a : A)
| Thrown (message : string).
Arguments Returned {A} a.
Arguments Thrown {A} message.

Record schema : Set := mkSchema {
  requiredColumns : list string;
  optionalColumns : list string
}.

Definition validationSchemas : list (string * schema) :=
  [("hiv_indicators",
    mkSchema ["indicator"; "value"; "period"; "orgUnit"]
             ["target"; "comment"; "dataElement"]);
   ("direct_queries",
    mkSchema ["site"; "indicator"; "value"; "period"]
             ["orgUnit"; "target"; "comment"]);
   ("dq_sites",
    mkSchema ["site"; "indicator"; "value"; "period"]
             ["orgUnit"; "score"; "completeness"])].

(** [validationSchemas[dataType]] *)
Fixpoint schemaOf (table : list (string * schema)) (dataType : string)
  : option schema :=
  match table with
  | [] => None
  | (k, sc) :: table' =>
      if String.eqb k dataType then Some sc else schemaOf table' dataType
  end.

Record validation : Set := mkValidation {
  isValid : bool;
  warnings : list string;
  errors : list string
}.

(** [/w1|w2|.../i.test(s)] for literal alternatives *)
Definition mentions (alternatives : list string) (s : string) : bool :=
  existsb (Js.includes (Js.toLowerCase s)) alternatives.

Definition is_line_terminator (c : ascii) : bool :=
  Ascii.eqb c "010" || Ascii.eqb c "013".

(** [s] begins with [.*t] *)
Fixpoint any_then (t s : string) : bool :=
  Js.startsWith s t ||
  match s with
  | EmptyString => false
  | String c s' => if is_line_terminator c then false else any_then t s'
  end.

(** [/data.*quality/i.test(s)] *)
Fixpoint data_any_quality_from (s : string) : bool :=
  (Js.startsWith s "data" && any_then "quality" (Js.substring_from 4 s)) ||
  match s with
  | EmptyString => false
  | String _ s' => data_any_quality_from s'
  end.

(** position of the first element that satisfies [test] *)
Fixpoint findIndex {A : Type} (test : A -> bool) (l : list A) : option nat :=
  match l with
  | [] => None
  | x :: l' =>
      if test x then Some 0%nat
      else match findIndex test l' with
           | Some i => Some (S i)
           | None => None
           end
  end.

(** [l.map((row, index) => f(row, index)).filter(item => item !== null)] *)
Fixpoint mapFilter {A B : Type} (f : A -> nat -> option B) (index : nat)
    (l : list A) : list B :=
  match l with
  | [] => []
  | x :: l' =>
      match f x index with
      | Some y => y :: mapFilter f (S index) l'
      | None => mapFilter f (S index) l'
      end
  end.

Section WithLibrary.

Context {num : Type}.

(** a row of [sheet_to_json(worksheet, { header: 1 })] *)
Definition rawRow : Type := list (jsval num).

(** *** The spreadsheet library and the file system *)

Context {worksheet : Type}.
(** a row object of [XLSX.utils.sheet_to_json(worksheet)] *)
Context {jsonRow : Type}.
(** [XLSX.utils.sheet_to_json(worksheet)]; the worksheet is [None] when
    [workbook.Sheets[sheetName]] is undefined *)
Variable sheet_to_json : option worksheet -> list jsonRow.
(** [XLSX.utils.sheet_to_json(worksheet, { header: 1 })] *)
Variable sheet_to_rows : option worksheet -> list rawRow.

Record workbook : Type := mkWorkbook {
  SheetNames : list string;
  Sheets : list (string * worksheet)
}.

Variable existsSync : string -> bool.
(** [XLSX.readFile(filePath)] *)
Variable readFile : string -> outcome workbook.

(** *** The callbacks that turn a row into a record

    Each is the body of a [map] callback, including its [try]/[catch]
    (a caught error yields [None], the [null] that the following
    [filter] drops).  For the queries and the sites the first argument
    is the header row. *)

Context {record : Type}.
Variable indicatorOfRow : jsonRow -> nat -> option record.
Variable queryOfRow : rawRow -> rawRow -> nat -> option record.
Variable siteOfRow : rawRow -> rawRow -> nat -> option record.
(** the warnings that the [forEach] body of [validateExcelData] pushes
    for one item *)
Variable itemWarnings : schema -> record -> nat -> list string.

(** [workbook.Sheets[sheetName]] *)
Fixpoint sheetNamed (sheets : list (string * worksheet)) (sheetName : string)
  : option worksheet :=
  match sheets with
  | [] => None
  | (n, ws) :: sheets' =>
      if String.eqb n sheetName then Some ws else sheetNamed sheets' sheetName
  end.

(** [workbook.Sheets[workbook.SheetNames[0]]] *)
Definition firstSheet (wb : workbook) : option worksheet :=
  match SheetNames wb with
  | [] => None
  | sheetName :: _ => sheetNamed (Sheets wb) sheetName
  end.

Record sheetDump : Type := mkSheetDump {
  sheetName : string;
  sd_data : list jsonRow;
  rowCount : nat
}.

(** the object a parser returns, spread into the result *)
Record parsedData : Type := mkParsedData {
  pd_type : option string;
  pd_indicators : option (list record);
  pd_queries : option (list record);
  pd_sites : option (list record);
  pd_sheets : option (list sheetDump);
  pd_totalRows : option nat
}.

Definition parseHIVIndicators (wb : workbook) : parsedData :=
  let jsonData := sheet_to_json (firstSheet wb) in
  let indicators := mapFilter indicatorOfRow 0 jsonData in
  mkParsedData None (Some indicators) None None None None.

(** the test of the header search of [parseDirectQueries] *)
Definition hasCommonHeaders (row : rawRow) : bool :=
  existsb
    (fun cell =>
       match cell with
       | VString s =>
           Js.truthy s &&
           (mentions ["facility"; "site"; "query"; "indicator"; "value";
                      "result"; "count"; "total"] s
            || mentions ["period"; "month"; "quarter"; "year"; "date"] s
            || mentions ["org"; "unit"; "district"; "region"] s)
       | _ => false
       end)
    row.

(** the test of the header search of [parseDQSites] *)
Definition hasDataQualityHeaders (row : rawRow) : bool :=
  existsb
    (fun cell =>
       match cell with
       | VString s =>
           Js.truthy s &&
           (mentions ["site"; "facility"; "clinic"] s
            || mentions ["quality"; "score"; "completeness"; "timeliness"] s
            || mentions ["dq"] s
            || data_any_quality_from (Js.toLowerCase s))
       | _ => false
       end)
    row.

(** the loop [for (let i = 0; i < Math.min(10, rawData.length); i++)] *)
Definition headerRowIndex (test : rawRow -> bool) (rawData : list rawRow)
  : nat :=
  match findIndex test (firstn 10 rawData) with
  | Some i => i
  | None => 0%nat
  end.

(** [rawData.slice(headerRowIndex + 1)] *)
Definition dataRowsOf (test : rawRow -> bool) (rawData : list rawRow)
  : list rawRow :=
  skipn (headerRowIndex test rawData + 1) rawData.

(** the records of a sheet with a header row; an empty row is skipped
    before the callback reads it *)
Definition recordsBelowHeader (test : rawRow -> bool)
    (ofRow : rawRow -> rawRow -> nat -> option record)
    (rawData : list rawRow) : list record :=
  let headers := nth (headerRowIndex test rawData) rawData [] in
  mapFilter
    (fun row index =>
       match row with
       | [] => None
       | _ => ofRow headers row index
       end)
    0 (dataRowsOf test rawData).

Definition parseDirectQueries (wb : workbook) : parsedData :=
  let rawData := sheet_to_rows (firstSheet wb) in
  if (length rawData =? 0)%nat then
    mkParsedData None None (Some []) None None None
  else
    mkParsedData None None
      (Some (recordsBelowHeader hasCommonHeaders queryOfRow rawData))
      None None None.

Definition parseDQSites (wb : workbook) : parsedData :=
  let rawData := sheet_to_rows (firstSheet wb) in
  if (length rawData =? 0)%nat then
    mkParsedData None None None (Some []) None None
  else
    mkParsedData None None None
      (Some (recordsBelowHeader hasDataQualityHeaders siteOfRow rawData))
      None None.

Definition parseGenericExcel (wb : workbook) : parsedData :=
  let allData :=
    map (fun n =>
           let jsonData := sheet_to_json (sheetNamed (Sheets wb) n) in
           mkSheetDump n jsonData (length jsonData))
        (SheetNames wb) in
  mkParsedData (Some "generic") None None None (Some allData)
    (Some (fold_left (fun sum sheet => (sum + rowCount sheet)%nat)
                     allData 0%nat)).

(** [data.indicators || data.queries || data.sites || []]: an array,
    even an empty one, is truthy *)
Definition dataArrayOf (data : parsedData) : list record :=
  match pd_indicators data with
  | Some l => l
  | None =>
      match pd_queries data with
      | Some l => l
      | None =>
          match pd_sites data with
          | Some l => l
          | None => []
          end
      end
  end.

Fixpoint eachItem (sc : schema) (index : nat) (items : list record)
  : list string :=
  match items with
  | [] => []
  | item :: items' =>
      (itemWarnings sc item index ++ eachItem sc (S index) items')%list
  end.

Definition validateExcelData (data : parsedData) (dataType : string)
  : validation :=
  match schemaOf validationSchemas dataType with
  | None =>
      mkValidation true
        ["No validation schema for data type: " ++ dataType] []
  | Some sc =>
      let dataArray := dataArrayOf data in
      let empty := (length dataArray =? 0)%nat in
      mkValidation (negb empty)
        (eachItem sc 0 dataArray)
        (if empty then ["No data found in Excel file"] else [])
  end.

(** what [parseExcelData] returns:
    [{ type, fileName, sheetNames, ...parsedData, validation }] *)
Record parsedFile : Type := mkParsedFile {
  pf_type : string;
  pf_fileName : string;
  pf_sheetNames : list string;
  pf_data : parsedData;
  pf_validation : validation
}.

(** the data type chosen from the file name *)
Definition dataTypeOf (fileName : string) : string :=
  if Js.includes fileName "DHIS2_HIV Indicators" then "hiv_indicators"
  else if Js.includes fileName "Direct Queries" then "direct_queries"
  else if Js.includes fileName "Q2FY25_DQ" then "dq_sites"
  else "unknown".

Definition parserOf (fileName : string) : workbook -> parsedData :=
  if Js.includes fileName "DHIS2_HIV Indicators" then parseHIVIndicators
  else if Js.includes fileName "Direct Queries" then parseDirectQueries
  else if Js.includes fileName "Q2FY25_DQ" then parseDQSites
  else parseGenericExcel.

Definition parseExcelData (filePath fileName : string)
  : outcome parsedFile :=
  let rethrown message :=
    Thrown ("Failed to parse Excel file " ++ fileName ++ ": " ++ message) in
  if negb (existsSync filePath) then
    rethrown ("File not found: " ++ filePath)
  else
    match readFile filePath with
    | Thrown message => rethrown message
    | Returned wb =>
        let dataType := dataTypeOf fileName in
        let parsed := parserOf fileName wb in
        let validation := validateExcelData parsed dataType in
        Returned
          (mkParsedFile
             (match pd_type parsed with Some t => t | None => dataType end)
             fileName (SheetNames wb) parsed validation)
    end.

(** *** Workbooks without data rows *)

(** Every sheet converts to no row object, and the first sheet has at
    most its header row. *)
Definition zeroDataRows (wb : workbook) : Prop :=
  sheet_to_json (firstSheet wb) = [] /\
  (forall n, In n (SheetNames wb) ->
             sheet_to_json (sheetNamed (Sheets wb) n) = []) /\
  (length (sheet_to_rows (firstSheet wb)) <= 1)%nat.

(** Zero data rows, as the parser that the file name selects sees the
    workbook: no row object in the first sheet (HIV indicators); below
    the header row that the parser finds, only blank rows, if any (direct
    queries, DQ sites); no row object in any sheet (any other name). *)
Definition noDataRows (fileName : string) (wb : workbook) : Prop :=
  if Js.includes fileName "DHIS2_HIV Indicators" then
    sheet_to_json (firstSheet wb) = []
  else if Js.includes fileName "Direct Queries" then
    List.Forall (fun row => row = [])
      (dataRowsOf hasCommonHeaders (sheet_to_rows (firstSheet wb)))
  else if Js.includes fileName "Q2FY25_DQ" then
    List.Forall (fun row => row = [])
      (dataRowsOf hasDataQualityHeaders (sheet_to_rows (firstSheet wb)))
  else
    forall n, In n (SheetNames wb) ->
              sheet_to_json (sheetNamed (Sheets wb) n) = [].

(** the validation of a file of a known type without records, and of a
    file of unknown type *)
Definition noDataValidation : validation :=
  mkValidation false [] ["No data found in Excel file"].
Definition noSchemaValidation : validation :=
  mkValidation true ["No validation schema for data type: unknown"] [].

End WithLibrary.
End Excel.

(** ** An instance of the numbers: integer-valued cells

    Numbers are integers or [NaN] ([None]); [parseFloat] reads an optional
    sign and a run of decimal digits after leading white space.  The
    instance serves to run the functions on concrete sheets whose cells are
    integers. *)

Module IntNum.

Definition num : Type := option Z.

(** *** A spreadsheet library on plain grids

    A worksheet is a grid of cells; with [header: 1] the rows are
    returned as they are, otherwise the first row names the properties of
    the row objects made from the rows below it.  The record callbacks
    keep the row, and the per-item validation pushes nothing. *)

Definition grid : Type := list (list (jsval num)).

Definition rowObject : Type := list (string * jsval num).

Definition columnName (cell : jsval num) : string :=
  match cell with
  | VString s => s
  | _ => ""
  end.

Definition sheet_to_rows (ws : option grid) : list (list (jsval num)) :=
  match ws with
  | Some rows => rows
  | None => []
  end.

Definition sheet_to_json (ws : option grid) : list rowObject :=
  match ws with
  | Some (header :: rows) =>
      map (fun row => combine (map columnName header) row) rows
  | _ => []
  end.

(** a workbook with one sheet that holds only a header row *)
Definition headerOnly : @Excel.workbook grid :=
  Excel.mkWorkbook ["Sheet1"]
    [("Sheet1", [[VString "Site"; VString "Indicator"; VString "Value"]])].

(** a file system in which every path holds that workbook *)
Definition parseExcelData : string -> string -> Excel.outcome _ :=
  Excel.parseExcelData sheet_to_json sheet_to_rows
    (fun _ => true) (fun _ => Excel.Returned headerOnly)
    (fun row _ => Some row)
    (fun header row _ => Some (combine (map columnName header) row))
    (fun header row _ => Some (combine (map columnName header) row))
    (fun _ _ _ => []).

(** a workbook with one sheet that holds a title row, a header row and
    two blank rows *)
Definition titledSheet : @Excel.workbook grid :=
  Excel.mkWorkbook ["Export"]
    [("Export",
      [[VString "Malawi"];
       [VString "Site"; VString "Indicator"; VString "Value"];
       [];
       []])].

(** a file system in which every path holds that workbook *)
Definition parseTitled : string -> string -> Excel.outcome _ :=
  Excel.parseExcelData sheet_to_json sheet_to_rows
    (fun _ => true) (fun _ => Excel.Returned titledSheet)
    (fun row _ => Some row)
    (fun header row _ => Some (combine (map columnName header) row))
    (fun header row _ => Some (combine (map columnName header) row))
    (fun _ _ _ => []).

Definition zero : num := Some 0%Z.

Definition falsy (n : num) : bool :=
  match n with
  | Some z => Z.eqb z 0
  | None => true
  end.

Fixpoint digits (s : string) (acc : option Z) : option Z :=
  match s with
  | EmptyString => acc
  | String c s' =>
      let n := nat_of_ascii c in
      if (48 <=? n)%nat && (n <=? 57)%nat then
        digits s'
          (Some (10 * match acc with Some a => a | None => 0 end
                 + Z.of_nat (n - 48))%Z)
      else acc
  end.

Definition parseFloat (v : jsval num) : num :=
  match v with
  | VUndefined => None
  | VNumber n => n
  | VString s =>
      match Js.trimStart s with
      | String "-" s' => option_map Z.opp (digits s' None)
      | s' => digits s' None
      end
  end.

Definition lt (a b : num) : bool :=
  match a, b with
  | Some x, Some y => Z.ltb x y
  | _, _ => false
  end.

Definition generatePayload :=
  Matcher.generatePayload zero falsy parseFloat.

Definition generateExcelPayload :=
  Matcher.generateExcelPayload zero falsy parseFloat lt.

Definition excelIndex :=
  Matcher.excelIndex zero falsy parseFloat lt.

(** a row with an indicator name, a value and possibly a site *)
Definition simpleRow (name : string) (v : jsval num)
    (site : option string) : @Matcher.row num :=
  Matcher.mkRow (Some name) None None v VUndefined VUndefined VUndefined
    site None.

(** the vocabulary of the specification's scenarios *)
Definition txNewConfig : reportConfig :=
  mkConfig "HllvX50cXC0" "BfMAe6Itzgt" "202506" "rXoaHGAXWy9"
    [("TX_NEW", "dwEq7wi6nXV")].

Definition googleInput (rows : list (@Matcher.row num))
  : option (@Matcher.inputData num) :=
  Some (Matcher.mkInputData None None (Some rows) None).

Definition sftpInput (rows : list (@Matcher.row num))
  : option (@Matcher.inputData num) :=
  Some (Matcher.mkInputData (Some "sftp_excel")
          (Some [("HIV INDICATORS", Matcher.mkSheetData (length rows) rows)])
          None None).

End IntNum.

(** ** Views of the matcher's result used to state further properties *)

Module MatcherViews.
Section WithNumbers.

Context {num : Type}.
Variable zero : num.

(** What a match type says about the entry of [indicatorKey] with value
    [v]: which observed key the value was read from. *)
Definition justified (m : @Matcher.index num) (indicatorKey : string)
    (v : num) (mt : matchType) : Prop :=
  match mt with
  | none => False
  | exact => Matcher.get m indicatorKey = Some v
  | exact_case_insensitive =>
      Matcher.get m indicatorKey = None /\
      exists key,
        In key (Matcher.keys m) /\
        Js.toLowerCase key = Js.toLowerCase indicatorKey /\
        Matcher.get m key = Some v
  | partial =>
      Matcher.get m indicatorKey = None /\
      exists key,
        In key (Matcher.keys m) /\ key <> "" /\
        (Js.includes (Js.toLowerCase key) (Js.toLowerCase indicatorKey) = true
         \/ Js.includes (Js.toLowerCase indicatorKey) (Js.toLowerCase key)
            = true) /\
        Matcher.get m key = Some v
  | fuzzy =>
      Matcher.get m indicatorKey = None /\
      exists key,
        In key (Matcher.keys m) /\ key <> "" /\
        (1 # 2 < Fuzzy.normalizedScore indicatorKey key)%Q /\
        (forall other, In other (Matcher.keys m) ->
           (Fuzzy.normalizedScore indicatorKey other
            <= Fuzzy.normalizedScore indicatorKey key)%Q) /\
        Matcher.get m key = Some v
  | default => Matcher.get m indicatorKey = None /\ v = zero
  end.

(** the counter that a match type increments *)
Definition tallyOf (mt : matchType) (s : matchingStats) : matchingStats :=
  match mt with
  | exact | exact_case_insensitive => Matcher.count_exact s
  | partial | fuzzy => Matcher.count_partial s
  | default => Matcher.count_none s
  | none => s
  end.

Definition tally (mts : list matchType) (s : matchingStats) : matchingStats :=
  fold_left (fun s mt => tallyOf mt s) mts s.

Definition is_exact (mt : matchType) : bool :=
  match mt with exact | exact_case_insensitive => true | _ => false end.
Definition is_partial (mt : matchType) : bool :=
  match mt with partial | fuzzy => true | _ => false end.
Definition is_default (mt : matchType) : bool :=
  match mt with default => true | _ => false end.

(** number of entries whose match type satisfies [test] *)
Definition tagged (test : matchType -> bool)
    (dvs : list (@Matcher.dataValue num)) : nat :=
  length (List.filter (fun dv => test (Matcher.dv_matchType dv)) dvs).

(** the statistics [st] are the tally of the match types of [dvs], whose
    number is [n] *)
Definition tallied (n : nat) (dvs : list (@Matcher.dataValue num))
    (st : matchingStats) : Prop :=
  exactMatches st = tagged is_exact dvs /\
  partialMatches st = tagged is_partial dvs /\
  noMatches st = tagged is_default dvs /\
  defaultValues st = 0%nat /\
  (exactMatches st + partialMatches st + noMatches st = n)%nat.

(** number of indicator and query records of the processed files *)
Definition recordsIn (files : list (@Matcher.excelFile num)) : nat :=
  list_sum
    (map (fun file =>
            (match Matcher.ed_indicators (Matcher.ef_excelData file) with
             | Some l => length l
             | None => 0
             end
             + match Matcher.ed_queries (Matcher.ef_excelData file) with
               | Some l => length l
               | None => 0
               end)%nat)
         files).

(** a loop on [(indicatorValues, totalRecords)] whose steps count one
    record each and write at most one key *)
Definition counted_index (acc : @Matcher.index num * nat) : Prop :=
  List.NoDup (Matcher.keys (fst acc)) /\
  (length (Matcher.keys (fst acc)) <= snd acc)%nat /\
  (snd acc = 0%nat <-> fst acc = []).

(** the value of the last write to [key] in a sequence of writes *)
Fixpoint lastWrite (ws : list (string * num)) (key : string) : option num :=
  match ws with
  | [] => None
  | (k, v) :: ws' =>
      match lastWrite ws' key with
      | Some later => Some later
      | None => if String.eqb k key then Some v else None
      end
  end.

End WithNumbers.
End MatcherViews.

(** ** Views of the tracker used to state further properties *)

Module TrackerViews.
Import Tracker.

(** the second step of [check-sftp-files.js]: the state and whether the
    step has set [workflowComplete] *)
Definition stopIfNoNewFiles (st : state) : state * bool :=
  if negb (newFilesFound st) then (st, true) else (st, false).

(** the last processed file of a given name *)
Fixpoint lastProcessed (files : list processedFile) (key : string)
  : option processedFile :=
  match files with
  | [] => None
  | f :: files' =>
      match lastProcessed files' key with
      | Some later => Some later
      | None => if String.eqb (pf_name f) key then Some f else None
      end
  end.

(** [state.processedFiles], empty when absent *)
Definition processedOf (st : state) : list processedFile :=
  match processedFiles st with
  | Some files => files
  | None => []
  end.

(** the entry of [key] before the clean-up: the record of the last
    processed file of that name, else the entry already tracked, else the
    listed file marked as checked *)
Definition candidateEntry (now : Z) (st : state) (key : string)
  : option trackingInfo :=
  match lastProcessed (processedOf st) key with
  | Some f => Some (trackingInfoOf now st f)
  | None =>
      match orEmpty (fileTracking st) !! key with
      | Some info => Some info
      | None =>
          option_map (checkedInfo now) (orEmpty (currentFileList st) !! key)
      end
  end.

End TrackerViews.

(** ** The rest of [process-excel-data.js]: organisation-unit ids and the
       job that parses the downloaded files *)

Module ExcelJob.
Import Excel.

(** *** [generateOrgUnit] *)

(** the class [[a-zA-Z0-9]] *)
Definition is_alphanumeric (c : ascii) : bool :=
  let n := nat_of_ascii c in
  ((97 <=? n)%nat && (n <=? 122)%nat)
  || ((65 <=? n)%nat && (n <=? 90)%nat)
  || ((48 <=? n)%nat && (n <=? 57)%nat).

(** [s.replace(/[^a-zA-Z0-9]/g, '_')] *)
Fixpoint replaceNonAlphanumeric (s : string) : string :=
  match s with
  | EmptyString => EmptyString
  | String c s' =>
      String (if is_alphanumeric c then c else "_"%char)
             (replaceNonAlphanumeric s')
  end.

Definition upper_ascii (c : ascii) : ascii :=
  let n := nat_of_ascii c in
  if (97 <=? n)%nat && (n <=? 122)%nat then ascii_of_nat (n - 32) else c.

(** [s.toUpperCase()] *)
Fixpoint toUpperCase (s : string) : string :=
  match s with
  | EmptyString => EmptyString
  | String c s' => String (upper_ascii c) (toUpperCase s')
  end.

(** [s.substring(0, n)] *)
Fixpoint substring_to (n : nat) (s : string) : string :=
  match n, s with
  | S n', String c s' => String c (substring_to n' s')
  | _, _ => EmptyString
  end.

(** the site name is a text cell, or absent ([None]) *)
Definition generateOrgUnit (siteName : option string) : string :=
  match siteName with
  | Some s =>
      if negb (Js.truthy s) then "MW_DEFAULT"
      else
        let cleanName := toUpperCase (replaceNonAlphanumeric s) in
        "MW_" ++ substring_to 10 cleanName
  | None => "MW_DEFAULT"
  end.

(** a character of [[A-Z0-9_]] *)
Definition is_id_char (c : ascii) : bool :=
  let n := nat_of_ascii c in
  ((65 <=? n)%nat && (n <=? 90)%nat)
  || ((48 <=? n)%nat && (n <=? 57)%nat)
  || Ascii.eqb c "_".

(** *** The job: every downloaded file is parsed, with retries *)

Section WithFileSystem.

Context {num worksheet jsonRow record : Type}.
(** the file system and the clock at the time of a call *)
Context {world : Type}.
(** the world after a call of [parseExcelData] *)
Variable next : world -> world.
(** [new Date()] *)
Variable clock : world -> Z.
Variable sheet_to_json : option worksheet -> list jsonRow.
Variable sheet_to_rows : option worksheet -> list (@rawRow num).
Variable existsSync : world -> string -> bool.
Variable readFile : world -> string -> outcome (@workbook worksheet).
Variable indicatorOfRow : jsonRow -> nat -> option record.
Variables queryOfRow siteOfRow :
  @rawRow num -> @rawRow num -> nat -> option record.
Variable itemWarnings : schema -> record -> nat -> list string.

(** [parseExcelData(filePath, fileName)] called in the world [w] *)
Definition parseIn (w : world) (filePath fileName : string)
  : outcome (@parsedFile jsonRow record) :=
  parseExcelData sheet_to_json sheet_to_rows (existsSync w) (readFile w)
    indicatorOfRow queryOfRow siteOfRow itemWarnings filePath fileName.

(** a row of the Google Sheets format *)
Context {sheetRow : Type}.
(** the three [map] callbacks of [transformToGoogleSheetsFormat] *)
Variables indicatorSheetRow querySheetRow siteSheetRow : record -> sheetRow.

Record sheetsFormat : Type := mkSheetsFormat {
  gf_type : string;
  gf_fileName : string;
  gf_data : list sheetRow
}.

Definition transformToGoogleSheetsFormat
    (parsed : @parsedFile jsonRow record) : sheetsFormat :=
  mkSheetsFormat (pf_type parsed) (pf_fileName parsed)
    match pd_indicators (pf_data parsed) with
    | Some indicators => map indicatorSheetRow indicators
    | None =>
        match pd_queries (pf_data parsed) with
        | Some queries => map querySheetRow queries
        | None =>
            match pd_sites (pf_data parsed) with
            | Some sites => map siteSheetRow sites
            | None => []
            end
        end
    end.

(** an element of [state.sftpData.downloadedFiles] *)
Record downloadedFile : Set := mkDownloadedFile {
  df_name : string;
  df_localPath : string
}.

(** an element of [processedData] *)
Record processedEntry : Type := mkProcessedEntry {
  pe_source : string;
  pe_fileName : string;
  pe_filePath : string;
  pe_parsed : @parsedFile jsonRow record;
  googleSheetsFormat : sheetsFormat;
  pe_processedAt : Z
}.

(** an element of [errors] *)
Record errorEntry : Set := mkErrorEntry {
  ee_fileName : string;
  ee_error : string;
  attempts : nat
}.

Definition maxRetries : nat := 3.

(** [(processedData, errors)] and the world *)
Definition progress : Type :=
  list processedEntry * list errorEntry * world.

(** the loop [while (!processed && retryCount < maxRetries)] for one
    file, entered with [processed] false; [fuel] bounds the number of
    iterations *)
Fixpoint attempt (fuel retryCount : nat) (file : downloadedFile)
    (acc : progress) : progress :=
  let '(processedData, errors, w) := acc in
  match fuel with
  | O => acc
  | S fuel' =>
      if (retryCount <? maxRetries)%nat then
        match parseIn w (df_localPath file) (df_name file) with
        | Returned parsedData =>
            let transformedData :=
              transformToGoogleSheetsFormat parsedData in
            ((processedData
              ++ [mkProcessedEntry "sftp" (df_name file)
                    (df_localPath file) parsedData transformedData
                    (clock (next w))])%list,
             errors, next w)
        | Thrown message =>
            let retryCount := S retryCount in
            if (maxRetries <=? retryCount)%nat then
              attempt fuel' retryCount file
                (processedData,
                 (errors
                  ++ [mkErrorEntry (df_name file) message retryCount])%list,
                 next w)
            else attempt fuel' retryCount file (processedData, errors, next w)
        end
      else acc
  end.

(** the callback of [state.sftpData.downloadedFiles.forEach] *)
Definition processFile (acc : progress) (file : downloadedFile) : progress :=
  attempt maxRetries 0 file acc.

(** the loop over the downloaded files, from empty [processedData] and
    [errors] *)
Definition processFiles (w : world) (files : list downloadedFile)
  : progress :=
  fold_left processFile files ([], [], w).

End WithFileSystem.
End ExcelJob.

(** ** The SFTP workflow between the check and the tracking update:
       [download-sftp-files.js] and the job of [process-excel-data.js]
       (SFTP workflow) *)

Module Pipeline.
Import Tracker.

Definition LOCAL_DOWNLOAD_PATH : string := "/tmp/openfn-downloads/".

(** [l.map((x, index) => f(index, x))] *)
Fixpoint mapIndexed {A B : Type} (f : nat -> A -> B) (index : nat)
    (l : list A) : list B :=
  match l with
  | [] => []
  | x :: l' => f index x :: mapIndexed f (S index) l'
  end.

(** an element of [results]: the properties of the file, spread, and
    the ones that the callback adds *)
Record downloadResult : Set := mkDownloadResult {
  dr_file : fileInfo;
  dr_localPath : option string;
  dr_downloadTime : option Z;
  dr_status : string;
  dr_error : option string
}.

Section WithSftp.

(** [await get(file.path, localPath)] in the callback of index [index]:
    [None] when the promise resolves, the message of the error when it
    rejects *)
Variable get : nat -> string -> string -> option string.
(** the reading of the clock in the callback of index [index] *)
Variable clock : nat -> Z.

(** the callback of [state.filesToDownload.map] *)
Definition downloadFile (index : nat) (file : fileInfo) : downloadResult :=
  let localPath := LOCAL_DOWNLOAD_PATH ++ name file in
  match get index (path file) localPath with
  | None =>
      mkDownloadResult file (Some localPath) (Some (clock index))
        "downloaded" None
  | Some message => mkDownloadResult file None None "failed" (Some message)
  end.

(** [(downloadedFiles, failedDownloads)] *)
Definition download (filesToDownload : list fileInfo)
  : list downloadResult * list downloadResult :=
  let results := mapIndexed downloadFile 0 filesToDownload in
  let successfulDownloads :=
    List.filter (fun f => String.eqb (dr_status f) "downloaded") results in
  let failedDownloads :=
    List.filter (fun f => String.eqb (dr_status f) "failed") results in
  (successfulDownloads, failedDownloads).

(** *** The processing job of the SFTP workflow *)

Context {excelData : Type}.
(** [parseExcelData(file.localPath, file.name)] of the SFTP workflow in
    the callback of index [index]; what it returns or throws is left
    open *)
Variable parseExcelData :
  nat -> option string -> string -> Excel.outcome excelData.
Variable processingClock : nat -> Z.

(** an element of [processedFiles]:
    [{...file, excelData, processedAt, status: 'processed'}] *)
Record processedResult : Type := mkProcessedResult {
  pr_file : downloadResult;
  pr_excelData : excelData;
  pr_processedAt : Z;
  pr_status : string
}.

Record processingError : Set := mkProcessingError {
  pe_fileName : string;
  pe_error : string
}.

(** the callback of [state.downloadedFiles.forEach], with the index of
    the element *)
Definition processOne
    (acc : list processedResult * list processingError * nat)
    (file : downloadResult)
  : list processedResult * list processingError * nat :=
  let '(processedFiles, processingErrors, index) := acc in
  match parseExcelData index (dr_localPath file) (name (dr_file file)) with
  | Excel.Returned data =>
      ((processedFiles
        ++ [mkProcessedResult file data (processingClock index)
              "processed"])%list,
       processingErrors, S index)
  | Excel.Thrown message =>
      (processedFiles,
       (processingErrors
        ++ [mkProcessingError (name (dr_file file)) message])%list,
       S index)
  end.

(** what the job adds to the state *)
Record processingState : Type := mkProcessingState {
  ps_processedFiles : list processedResult;
  ps_processingErrors : option (list processingError);
  ps_processingCompleted : bool;
  ps_error : option string;
  ps_data : option excelData
}.

(** [downloadedFiles] is [None] when the property is absent *)
Definition processDownloaded (downloadedFiles : option (list downloadResult))
  : processingState :=
  let nothing :=
    mkProcessingState [] None false
      (Some "No downloaded files to process") None in
  match downloadedFiles with
  | None => nothing
  | Some files =>
      if (length files =? 0)%nat then nothing
      else
        let '(processedFiles, processingErrors, _) :=
          fold_left processOne files ([], [], 0%nat) in
        mkProcessingState processedFiles (Some processingErrors) true None
          (match processedFiles with
           | first :: _ => Some (pr_excelData first)
           | [] => None
           end)
  end.

(** a processed file as [update-file-tracking.js] reads it *)
Definition tracked (file : processedResult) : processedFile :=
  mkProcessed (name (dr_file (pr_file file))) (size (dr_file (pr_file file)))
    (modifiedTime (dr_file (pr_file file))) (path (dr_file (pr_file file))).

End WithSftp.
End Pipeline.

(** ** The shared utilities: Excel validation and DHIS2 data value sets *)

Module Shared.
Import Excel.

Section Validator.

Context {value : Type}.

(** a parsed row: the properties it has; a property that holds [null] is
    [Some None] *)
Definition row : Type := gmap string (option value).

(** [row[column] !== undefined && row[column] !== null] *)
Definition present (r : row) (column : string) : bool :=
  match r !! column with
  | Some (Some _) => true
  | _ => false
  end.

(** the parsed data, as far as the validator reads it *)
Record parsed : Type := mkParsed {
  sd_indicators : option (list row);
  sd_queries : option (list row);
  sd_sites : option (list row)
}.

Record verdict : Set := mkVerdict {
  sv_isValid : bool;
  sv_warnings : list string
}.

(** the chain that chooses the data array by the type *)
Definition dataArrayFor (data : parsed) (dataType : string) : list row :=
  match String.eqb dataType "hiv_indicators", sd_indicators data with
  | true, Some indicators => indicators
  | _, _ =>
      match String.eqb dataType "direct_queries", sd_queries data with
      | true, Some queries => queries
      | _, _ =>
          match String.eqb dataType "dq_sites", sd_sites data with
          | true, Some sites => sites
          | _, _ => []
          end
      end
  end.

Definition missingColumn (column : string) : string :=
  "Required column '" ++ column ++ "' appears to be missing or empty".

(** the callback of [schema.requiredColumns.forEach] *)
Definition checkColumn (sampleRows : list row) (column : string)
  : list string :=
  let hasColumn := existsb (fun r => present r column) sampleRows in
  if negb hasColumn then [missingColumn column] else [].

Definition validateExcelData (data : parsed) (dataType : string) : verdict :=
  match schemaOf validationSchemas dataType with
  | None =>
      mkVerdict true ["No validation schema for data type: " ++ dataType]
  | Some sc =>
      let dataArray := dataArrayFor data dataType in
      let empty := (length dataArray =? 0)%nat in
      let sampleRows := firstn 5 dataArray in
      mkVerdict (negb empty)
        ((if empty then ["No data found in the parsed Excel file"] else [])
         ++ flat_map (checkColumn sampleRows) (requiredColumns sc))%list
  end.

End Validator.

(** *** [generateDataValueSets] and [validateDataValueSet] *)

Section DataValueSets.

(** a value that is neither [null] nor [undefined] *)
Context {value : Type}.

(** an indicator; a property is [None] when it is absent or [null] *)
Record indicator : Type := mkIndicator {
  i_dataElement : option string;
  i_indicator : option string;
  i_value : option value;
  i_period : option string;
  i_orgUnit : option string;
  i_comment : option string
}.

(** truthiness of a string that may be absent *)
Definition truthy (o : option string) : bool :=
  match o with
  | Some s => Js.truthy s
  | None => false
  end.

(** [a || b] *)
Definition or_ (a b : option string) : option string :=
  if truthy a then a else b.

Record dataValue : Type := mkDataValue {
  dv_dataElement : option string;
  dv_value : option value;
  dv_period : option string;
  dv_orgUnit : option string;
  dv_comment : option string
}.

Record dataValueSet : Type := mkDataValueSet {
  dataValues : list dataValue;
  dvs_period : option string;
  dvs_orgUnit : option string;
  completeDate : Z
}.

(** the [map] callback *)
Definition toDataValue (orgUnit period : option string) (i : indicator)
  : dataValue :=
  mkDataValue (or_ (i_dataElement i) (i_indicator i)) (i_value i)
    (or_ period (i_period i)) (or_ orgUnit (i_orgUnit i))
    (or_ (i_comment i) None).

(** the [filter] callback *)
Definition complete (dv : dataValue) : bool :=
  truthy (dv_dataElement dv)
  && match dv_value dv with Some _ => true | None => false end.

Definition generateDataValueSets (now : Z) (indicators : list indicator)
    (orgUnit period : option string) : dataValueSet :=
  mkDataValueSet
    (List.filter complete (map (toDataValue orgUnit period) indicators))
    period orgUnit now.

Record validity : Set := mkValidity {
  vs_isValid : bool;
  vs_errors : list string
}.

Definition missing (index : nat) (property : string) : string :=
  "Data value at index " ++ pretty index ++ " missing " ++ property.

(** the callback of [dataValueSet.dataValues.forEach] *)
Definition checkDataValue (index : nat) (dv : dataValue) : list string :=
  ((if negb (truthy (dv_dataElement dv))
    then [missing index "dataElement"] else [])
   ++ (match dv_value dv with
       | None => [missing index "value"]
       | Some _ => []
       end)
   ++ (if negb (truthy (dv_period dv)) then [missing index "period"] else [])
   ++ (if negb (truthy (dv_orgUnit dv))
       then [missing index "orgUnit"] else []))%list.

Fixpoint checkDataValues (index : nat) (l : list dataValue) : list string :=
  match l with
  | [] => []
  | dv :: l' => (checkDataValue index dv ++ checkDataValues (S index) l')%list
  end.

(** [dataValues] is [None] when the property is absent or not an array *)
Definition validateDataValueSet (dataValues : option (list dataValue))
  : validity :=
  match dataValues with
  | None => mkValidity false ["dataValues must be an array"]
  | Some l =>
      if (length l =? 0)%nat then
        mkValidity false ["dataValues array cannot be empty"]
      else
        let errors := checkDataValues 0 l in
        mkValidity (length errors =? 0)%nat errors
  end.

End DataValueSets.
End Shared.

(** ** Properties of the fuzzy matcher *)

Section FuzzyFacts.
Import Fuzzy.

Lemma add_pair_points t s c : add_pair t s c = (s + pair_points t c)%nat.
Proof.
  unfold add_pair, pair_points.
  destruct (String.eqb t c); [reflexivity|].
  destruct (Js.includes t c || Js.includes c t); lia.
Qed.

Lemma inner_loop_sum t cs s :
  fold_left (add_pair t) cs s
  = (s + list_sum (map (pair_points t) cs))%nat.
Proof.
  revert s. induction cs as [|c cs IH]; intros s; simpl; [lia|].
  rewrite IH, add_pair_points. lia.
Qed.

Lemma outer_loop_sum ts cs s :
  fold_left (fun score t => fold_left (add_pair t) cs score) ts s
  = (s + spec_score ts cs)%nat.
Proof.
  unfold spec_score. revert s.
  induction ts as [|t ts IH]; intros s; simpl; [lia|].
  rewrite IH, inner_loop_sum, map_app, list_sum_app, map_map. simpl.
  symmetry. apply Nat.add_assoc.
Qed.

Lemma score_spec ts cs : score ts cs = spec_score ts cs.
Proof. unfold score. now rewrite outer_loop_sum. Qed.

Lemma split_from_nonempty s cur b : (1 <= length (Js.split_from s cur b))%nat.
Proof.
  revert cur b. induction s as [|c s IH]; intros cur b; simpl; [lia|].
  destruct (Js.is_separator c); [destruct b|]; simpl; auto with lia.
Qed.

Lemma words_nonempty s : (1 <= length (words s))%nat.
Proof. apply split_from_nonempty. Qed.







Lemma Qgtb_lt x y : Qgtb x y = true <-> (y < x)%Q.
Proof.
  unfold Qgtb. rewrite negb_true_iff, <- not_true_iff_false, Qle_bool_iff.
  split; [apply Qnot_le_lt | apply Qlt_not_le].
Qed.

Lemma Qgtb_le x y : Qgtb x y = false <-> (x <= y)%Q.
Proof.
  unfold Qgtb. rewrite negb_false_iff. apply Qle_bool_iff.
Qed.

Lemma normalizedScore_nonneg t c : (0 <= normalizedScore t c)%Q.
Proof. unfold normalizedScore, Qle. simpl. lia. Qed.

Lemma best_so_far_step target seen best c :
  best_so_far target seen best ->
  best_so_far target (seen ++ [c]) (step target best c).
Proof.
  destruct best as [bm bs]. unfold best_so_far, step. simpl.
  destruct (Qgtb (normalizedScore target c) bs) eqn:Hbs; simpl.
  - apply Qgtb_lt in Hbs.
    destruct (Qgtb (normalizedScore target c) (1 # 2)) eqn:Hhalf; simpl.
    + apply Qgtb_lt in Hhalf.
      intros Hinv. split; [reflexivity|]. split; [assumption|].
      exists (length seen). split.
      { rewrite nth_error_app2, Nat.sub_diag by lia. reflexivity. }
      split.
      * intros c' [Hin|[->|[]]]%in_app_or; [|apply Qle_refl].
        destruct bm as [b|].
        -- destruct Hinv as (-> & _ & i & _ & Hmax & _).
           eapply Qle_trans; [apply Hmax, Hin|]. now apply Qlt_le_weak.
        -- destruct Hinv as (_ & Hlow).
           eapply Qle_trans; [apply Hlow, Hin|]. now apply Qlt_le_weak.
      * intros j c' Hj Hnth. rewrite nth_error_app1 in Hnth by lia.
        apply nth_error_In in Hnth.
        destruct bm as [b|].
        -- destruct Hinv as (-> & _ & i & _ & Hmax & _).
           eapply Qle_lt_trans; [apply Hmax, Hnth|]. assumption.
        -- destruct Hinv as (_ & Hlow).
           eapply Qle_lt_trans; [apply Hlow, Hnth|]. assumption.
    + apply Qgtb_le in Hhalf.
      destruct bm as [b|].
      * intros (-> & Hb & _). exfalso.
        apply (Qlt_irrefl (1 # 2)).
        eapply Qlt_le_trans; [apply Hb|].
        eapply Qle_trans; [apply Qlt_le_weak, Hbs | apply Hhalf].
      * intros (Hz & Hlow). split; [assumption|].
        intros c' [Hin|[->|[]]]%in_app_or; auto.
  - apply Qgtb_le in Hbs.
    destruct bm as [b|].
    + intros (-> & Hb & i & Hnth & Hmax & Hfirst).
      split; [reflexivity|]. split; [assumption|].
      exists i. split.
      { rewrite nth_error_app1; [assumption|].
        apply nth_error_Some. congruence. }
      split.
      * intros c' [Hin|[->|[]]]%in_app_or; auto.
      * intros j c' Hj Hc'. apply (Hfirst j c' Hj).
        rewrite nth_error_app1 in Hc'; [assumption|].
        assert (i < length seen)%nat by (apply nth_error_Some; congruence).
        lia.
    + intros (Hz & Hlow). split; [assumption|].
      intros c' [Hin|[->|[]]]%in_app_or; auto.
      eapply Qle_trans; [apply Hbs|]. rewrite Hz. discriminate.
Qed.

Lemma best_so_far_loop target candidates :
  best_so_far target candidates
    (fold_left (step target) candidates (None, 0%Q)).
Proof.
  induction candidates as [|c cs IH] using rev_ind.
  - simpl. split; [reflexivity|]. intros c [].
  - rewrite fold_left_app. simpl. now apply best_so_far_step.
Qed.

End FuzzyFacts.

(** ** Properties of the matcher *)

Section MatcherFacts.
Import Matcher.
Context {num : Type}.
Variable zero : num.
Variable falsy : num -> bool.
Variable parseFloat : jsval num -> num.
Variable less : num -> num -> bool.

Local Abbreviation index := (@index num).
Local Abbreviation resolve := (resolve zero).
Local Abbreviation resolved := (resolved zero).
Local Abbreviation entryFor := (entryFor zero).
Local Abbreviation matchEntry := (matchEntry zero).
Local Abbreviation matchAll := (matchAll zero).

Lemma get_set_same (m : index) k v : get (set m k v) k = Some v.
Proof.
  induction m as [|[k' w] m IH]; simpl.
  - now rewrite String.eqb_refl.
  - destruct (String.eqb k' k) eqn:E; simpl; rewrite E; auto.
Qed.

Lemma get_set_other (m : index) k k' v :
  k <> k' -> get (set m k v) k' = get m k'.
Proof.
  intros Hne. induction m as [|[k0 w] m IH]; simpl.
  - destruct (String.eqb_spec k k'); congruence.
  - destruct (String.eqb_spec k0 k) as [->|]; simpl.
    + destruct (String.eqb_spec k k'); congruence.
    + destruct (String.eqb_spec k0 k'); auto.
Qed.

Lemma get_Some_keys (m : index) k v : get m k = Some v -> In k (keys m).
Proof.
  induction m as [|[k0 w] m IH]; simpl; [discriminate|].
  destruct (String.eqb_spec k0 k); auto.
Qed.

Lemma find_none_all {A} (f : A -> bool) l :
  (forall x, In x l -> f x = false) -> find f l = None.
Proof.
  induction l as [|a l IH]; simpl; intros H; [reflexivity|].
  rewrite (H a) by auto. apply IH. auto.
Qed.

Lemma take_value_indep (m : index) found mt count a a' :
  fst a = fst a' ->
  fst (take m found mt count a) = fst (take m found mt count a').
Proof.
  intros H. unfold take. destruct found as [key|]; [|assumption].
  destruct (Js.truthy key); simpl; auto.
Qed.

Lemma strategy1_value_indep (m : index) key a a' :
  fst a = fst a' -> fst (strategy1 m key a) = fst (strategy1 m key a').
Proof.
  intros H. unfold strategy1. destruct (hasOwnProperty m key); auto.
Qed.

Lemma strategy2_value_indep (m : index) key a a' :
  fst a = fst a' -> fst (strategy2 m key a) = fst (strategy2 m key a').
Proof.
  intros H. unfold strategy2. rewrite <- H.
  destruct (fst (fst a)); [assumption|]. now apply take_value_indep.
Qed.

Lemma strategy3_value_indep (m : index) key a a' :
  fst a = fst a' -> fst (strategy3 m key a) = fst (strategy3 m key a').
Proof.
  intros H. unfold strategy3. rewrite <- H.
  destruct (fst (fst a)); [assumption|]. now apply take_value_indep.
Qed.

Lemma strategy4_value_indep (m : index) key a a' :
  fst a = fst a' -> fst (strategy4 m key a) = fst (strategy4 m key a').
Proof.
  intros H. unfold strategy4. rewrite <- H.
  destruct (fst (fst a)); [assumption|]. now apply take_value_indep.
Qed.

Lemma orDefault_value_indep (a a' : attempt) :
  fst a = fst a' -> fst (orDefault zero a) = fst (orDefault zero a').
Proof.
  intros H. unfold orDefault. rewrite <- H.
  destruct (fst (fst a)); reflexivity.
Qed.

Lemma resolve_stats_indep (m : index) key st st' :
  fst (resolve m key st) = fst (resolve m key st').
Proof.
  unfold Matcher.resolve.
  apply orDefault_value_indep, strategy4_value_indep,
    strategy3_value_indep, strategy2_value_indep, strategy1_value_indep.
  reflexivity.
Qed.

Lemma matchEntry_fst cfg (m : index) acc entry :
  fst (matchEntry cfg m acc entry) = (fst acc ++ [entryFor cfg m entry])%list.
Proof.
  destruct entry as [key de].
  unfold Matcher.matchEntry, Matcher.entryFor, Matcher.resolved. simpl.
  rewrite (resolve_stats_indep m key (mkStats 0 0 0 0) (snd acc)).
  destruct (resolve m key (snd acc)) as [[v mt] st]. reflexivity.
Qed.

Lemma matchLoop_fst cfg (m : index) l acc :
  fst (fold_left (matchEntry cfg m) l acc)
  = (fst acc ++ map (entryFor cfg m) l)%list.
Proof.
  revert acc. induction l as [|e l IH]; intros acc; simpl.
  - now rewrite app_nil_r.
  - rewrite IH, matchEntry_fst, <- app_assoc. reflexivity.
Qed.

Lemma matchAll_fst cfg (m : index) :
  fst (matchAll cfg m) = map (entryFor cfg m) (hivStagesReportMapping cfg).
Proof. unfold Matcher.matchAll. now rewrite matchLoop_fst. Qed.

(** a key that matches nothing falls through the four strategies *)
Lemma resolved_no_match (m : index) key :
  (forall k, In k (keys m) -> matches key k = false) ->
  resolved m key = (zero, default).
Proof.
  intros Hno. unfold Matcher.resolved, Matcher.resolve.
  assert (Hget : get m key = None).
  { destruct (get m key) as [v|] eqn:E; [|reflexivity].
    apply get_Some_keys, Hno in E. unfold matches in E.
    rewrite String.eqb_refl in E. discriminate. }
  unfold strategy1, hasOwnProperty. rewrite Hget.
  unfold strategy2. simpl fst.
  rewrite find_none_all.
  2:{ intros k Hk. apply Hno in Hk. unfold matches in Hk.
      repeat (apply orb_false_elim in Hk as [Hk ?]). assumption. }
  unfold strategy3. simpl.
  rewrite find_none_all.
  2:{ intros k Hk. apply Hno in Hk. unfold matches in Hk.
      repeat (apply orb_false_elim in Hk as [Hk ?]).
      apply orb_false_intro; assumption. }
  unfold strategy4. simpl.
  pose proof (best_so_far_loop key (keys m)) as Hbest.
  unfold Fuzzy.findFuzzyMatch.
  destruct (fold_left (Fuzzy.step key) (keys m) (None, 0%Q)) as [[b|] bs];
    unfold Fuzzy.best_so_far in Hbest; simpl in *.
  - exfalso. destruct Hbest as (_ & Hhalf & i & Hnth & _).
    apply nth_error_In, Hno in Hnth. unfold matches in Hnth.
    apply orb_false_elim in Hnth as [_ Hq].
    apply Qgtb_le in Hq. apply (Qlt_irrefl (1 # 2)).
    eapply Qlt_le_trans; eassumption.
  - reflexivity.
Qed.

(** a key present in the index is resolved by strategy 1 *)
Lemma resolved_exact (m : index) key v :
  get m key = Some v -> resolved m key = (v, exact).
Proof.
  intros Hget. unfold Matcher.resolved, Matcher.resolve.
  unfold strategy1, hasOwnProperty. rewrite Hget.
  unfold strategy2, strategy3, strategy4, orDefault. reflexivity.
Qed.

Lemma one_entry_per_key_matchAll cfg (m : index) :
  one_entry_per_key zero cfg m (fst (matchAll cfg m)).
Proof.
  rewrite matchAll_fst. unfold one_entry_per_key.
  rewrite length_map, !map_map. simpl.
  repeat split; try reflexivity.
  intros i entry Hi Hno.
  rewrite nth_error_map, Hi. simpl. f_equal.
  unfold Matcher.entryFor, defaultEntry.
  now rewrite (resolved_no_match m (fst entry) Hno).
Qed.

(** *** The index as a replay of the writes *)

Local Abbreviation replay := (@replay num).
Local Abbreviation extract := (extract zero falsy parseFloat).
Local Abbreviation writes := (writes zero falsy parseFloat).
Local Abbreviation generatePayload := (generatePayload zero falsy parseFloat).
Local Abbreviation generateExcelPayload :=
  (generateExcelPayload zero falsy parseFloat less).
Local Abbreviation excelIndex := (excelIndex zero falsy parseFloat less).

Lemma replay_app ws ws' (m : index) :
  replay (ws ++ ws') m = replay ws' (replay ws m).
Proof. apply fold_left_app. Qed.

Lemma fold_left_replay {A} (f : index -> A -> index)
    (w : A -> list (string * num)) :
  (forall m x, f m x = replay (w x) m) ->
  forall l m, fold_left f l m = replay (flat_map w l) m.
Proof.
  intros Hf l. induction l as [|x l IH]; intros m; simpl; [reflexivity|].
  now rewrite replay_app, IH, Hf.
Qed.

Lemma sftpRow_replay m r :
  sftpRow zero falsy parseFloat m r
  = replay (sftpWrite zero falsy parseFloat r) m.
Proof.
  unfold sftpWrite, sftpRow.
  destruct (or_name (row_Indicator r) (row_indicator r)) as [name|];
    [|reflexivity].
  destruct (Js.truthy name && has_value _); reflexivity.
Qed.

Lemma googleRow_replay m r :
  googleRow zero falsy parseFloat m r
  = replay (googleWrite zero falsy parseFloat r) m.
Proof.
  unfold googleWrite, googleRow.
  destruct (or_name _ (row_indicator r)) as [name|]; [|reflexivity].
  destruct (Js.truthy name && has_value _); reflexivity.
Qed.

Lemma fold_left_map_replay {A} (f : index -> A -> index)
    (w : A -> string * num) :
  (forall m x, f m x = set m (fst (w x)) (snd (w x))) ->
  forall l m, fold_left f l m = replay (map w l) m.
Proof.
  intros Hf l. induction l as [|x l IH]; intros m; simpl; [reflexivity|].
  now rewrite IH, Hf.
Qed.

Lemma each_replay {A} (f : index -> A -> index) (w : A -> string * num) :
  (forall m x, f m x = set m (fst (w x)) (snd (w x))) ->
  forall l m, each f l m = replay (written w l) m.
Proof.
  intros Hf [xs|] m; [|reflexivity]. now apply fold_left_map_replay.
Qed.

Lemma rawFile_replay m file :
  rawFile zero falsy parseFloat m file
  = replay (rawWrites zero falsy parseFloat file) m.
Proof.
  unfold rawFile, rawWrites. rewrite !replay_app.
  rewrite (each_replay _ (siteWrite zero falsy parseFloat))
    by reflexivity.
  rewrite (each_replay _ (siteWrite zero falsy parseFloat))
    by reflexivity.
  rewrite (each_replay _ (indicatorWrite zero falsy parseFloat file))
    by reflexivity.
  reflexivity.
Qed.

Lemma extract_replay input : fst (extract input) = replay (writes input) [].
Proof.
  unfold Matcher.extract, Matcher.writes.
  destruct input as [d|]; [|reflexivity].
  destruct (bool_decide (source d = Some "sftp_excel")).
  - destruct (sheets d) as [sh|]; [|reflexivity]. simpl. unfold sftpSheets.
    apply fold_left_replay. intros m entry.
    apply fold_left_replay, sftpRow_replay.
  - destruct (processedData d) as [rows|]; simpl.
    + apply fold_left_replay, googleRow_replay.
    + destruct (processedFiles d) as [files|]; [|reflexivity]. simpl.
      apply fold_left_replay, rawFile_replay.
Qed.

Lemma get_replay_untouched ws (m : index) key :
  ~ In key (map fst ws) -> get (replay ws m) key = get m key.
Proof.
  revert m. induction ws as [|[k v] ws IH]; intros m Hnot; simpl in *.
  - reflexivity.
  - rewrite IH by (intros H; apply Hnot; right; exact H).
    apply get_set_other. intros ->. apply Hnot. left. reflexivity.
Qed.

(** the last write to a key decides what is stored under it *)
Lemma get_replay_last pre key v post (m : index) :
  ~ In key (map fst post) ->
  get (replay (pre ++ (key, v) :: post) m) key = Some v.
Proof.
  intros Hnot. rewrite replay_app. simpl.
  rewrite get_replay_untouched by assumption. apply get_set_same.
Qed.

Lemma dataValues_generatePayload now input cfg :
  dataValues (generatePayload now input cfg)
  = fst (matchAll cfg (fst (extract input))).
Proof.
  unfold Matcher.generatePayload.
  destruct (extract input) as [m src]. simpl.
  destruct (matchAll cfg m) as [values stats]. reflexivity.
Qed.

Lemma dataValues_generateExcelPayload now files cfg :
  dataValues (base (generateExcelPayload now files cfg))
  = fst (matchAll cfg (fst (excelIndex files))).
Proof.
  unfold Matcher.generateExcelPayload.
  destruct (excelIndex files) as [m total]. simpl.
  destruct (matchAll cfg m) as [values stats]. reflexivity.
Qed.

(** *** The claims about [generatePayload] *)

(** C1.  In both workflows the [dataValues] array of the payload has
    exactly one entry per vocabulary pair, in the order of the
    vocabulary, whatever the input records are; the entry of a key that
    matches no observed indicator name (by equality, equality up to
    case, containment up to case, or a fuzzy score above one half) has
    match type [default] and value 0. *)
Theorem dataValues_one_entry_per_key now input files cfg :
  one_entry_per_key zero cfg (fst (extract input))
    (dataValues (generatePayload now input cfg))
  /\
  one_entry_per_key zero cfg (fst (excelIndex files))
    (dataValues (base (generateExcelPayload now files cfg))).
Proof.
  rewrite dataValues_generatePayload, dataValues_generateExcelPayload.
  split; apply one_entry_per_key_matchAll.
Qed.

(** C2, amended.  If some record is written to the index under a key
    equal to the vocabulary key (the key is the trimmed indicator name,
    prefixed by the site and an underscore when the row carries a site)
    and no later record is written under that key, the entry of that
    vocabulary key has match type [exact] and the numeric value of that
    record. *)
Theorem exact_match_of_stored_key now input cfg i entry pre v post :
  nth_error (hivStagesReportMapping cfg) i = Some entry ->
  writes input = (pre ++ (fst entry, v) :: post)%list ->
  ~ In (fst entry) (map fst post) ->
  nth_error (dataValues (generatePayload now input cfg)) i
  = Some (exactEntry cfg entry v).
Proof.
  intros Hi Hw Hlast.
  rewrite dataValues_generatePayload, matchAll_fst, nth_error_map, Hi.
  simpl. f_equal. unfold Matcher.entryFor, exactEntry.
  rewrite (resolved_exact (fst (extract input)) (fst entry) v); [reflexivity|].
  rewrite extract_replay, Hw. now apply get_replay_last.
Qed.

End MatcherFacts.

(** ** The fuzzy matcher against its specification *)

(** *** The tokenizer cuts exactly at the maximal runs of separators *)










(** ** Properties of the file-change tracker *)

Section StringFacts.

Lemma endsWith_suffix s t :
  Js.endsWith s t = true <-> exists pre, s = pre ++ t.
Proof.
  split.
  - induction s as [|c s IH].
    + change (Js.endsWith "" t) with (String.eqb "" t || false).
      rewrite orb_false_r. intros ->%String.eqb_eq. now exists "".
    + change (Js.endsWith (String c s) t)
        with (String.eqb (String c s) t || Js.endsWith s t).
      intros [->%String.eqb_eq|H]%orb_true_iff; [now exists ""|].
      destruct (IH H) as [pre ->]. now exists (String c pre).
  - intros [pre ->]. induction pre as [|c pre IH].
    + destruct t as [|a t];
        [reflexivity
        |change (Js.endsWith ("" ++ String a t) (String a t))
           with (String.eqb (String a t) (String a t)
                 || Js.endsWith t (String a t));
         now rewrite String.eqb_refl].
    + change (Js.endsWith (String c pre ++ t) t)
        with (String.eqb (String c (pre ++ t)) t || Js.endsWith (pre ++ t) t).
      rewrite IH. apply orb_true_r.
Qed.

Lemma substring_from_suffix i s :
  exists pre, s = pre ++ Js.substring_from i s.
Proof.
  revert s. induction i as [|i IH]; intros s; simpl.
  - now exists "".
  - destruct s as [|c s]; [now exists ""|].
    destruct (IH s) as [pre Hpre]. exists (String c pre).
    change (String c s = String c (pre ++ Js.substring_from i s)).
    f_equal. exact Hpre.
Qed.

Lemma substring_from_app pre t :
  Js.substring_from (String.length pre) (pre ++ t) = t.
Proof.
  induction pre as [|c pre IH]; simpl; [now destruct t | assumption].
Qed.

Lemma lower_ascii_dot c :
  Ascii.eqb (Js.lower_ascii c) "." = Ascii.eqb c ".".
Proof.
  destruct c as [[] [] [] [] [] [] [] []]; reflexivity.
Qed.

Lemma lastIndexOf_dot_lower s :
  Js.lastIndexOf_dot (Js.toLowerCase s) = Js.lastIndexOf_dot s.
Proof.
  induction s as [|c s IH]; simpl; [reflexivity|].
  now rewrite IH, lower_ascii_dot.
Qed.

Lemma lastIndexOf_dot_app pre t :
  Js.lastIndexOf_dot t = Some 0%nat ->
  Js.lastIndexOf_dot (pre ++ t) = Some (String.length pre).
Proof.
  intros Ht. induction pre as [|c pre IH]; simpl; [assumption|].
  now rewrite IH.
Qed.

Lemma toLowerCase_length s :
  String.length (Js.toLowerCase s) = String.length s.
Proof. induction s; simpl; congruence. Qed.

(** the extension test of the job is the test that the name ends, up to
    case, in [.xlsx] or [.xls] *)
Lemma supported_extension fileName :
  Tracker.supported (Tracker.extension fileName)
  = Tracker.excel_name fileName.
Proof.
  apply eq_true_iff_eq.
  unfold Tracker.supported, Tracker.excel_name, Tracker.extension. simpl.
  rewrite orb_false_r, !orb_true_iff, !endsWith_suffix, !String.eqb_eq.
  split.
  - intros [H|H];
      destruct (substring_from_suffix
                  (match Js.lastIndexOf_dot fileName with
                   | Some i => i | None => 0%nat end)
                  (Js.toLowerCase fileName)) as [pre Hpre];
      rewrite H in Hpre; eauto.
  - intros [[pre H]|[pre H]].
    + left. rewrite <- lastIndexOf_dot_lower, H.
      rewrite (lastIndexOf_dot_app pre ".xlsx") by reflexivity.
      apply substring_from_app.
    + right. rewrite <- lastIndexOf_dot_lower, H.
      rewrite (lastIndexOf_dot_app pre ".xls") by reflexivity.
      apply substring_from_app.
Qed.

End StringFacts.

Section TrackerFacts.
Import Tracker.

Lemma strict_ne_true a b : strict_ne a b = true <-> a <> b.
Proof.
  unfold strict_ne. rewrite negb_true_iff, bool_decide_eq_false. tauto.
Qed.

Lemma newOrChanged_spec knownFiles file :
  newOrChanged (knownFiles !! le_name file) (infoOf file) = true
  <-> absent_or_differs knownFiles file.
Proof.
  unfold newOrChanged, absent_or_differs.
  destruct (knownFiles !! le_name file) as [known|]; simpl.
  - rewrite orb_true_iff, !strict_ne_true. split.
    + intros H. right. exists known. tauto.
    + intros [?|(k & [= <-] & H)]; [discriminate | tauto].
  - tauto.
Qed.

Lemma checkFile_new previousFiles acc file :
  snd (checkFile previousFiles acc file)
  = (snd acc ++
     if eligible file
        && newOrChanged (previousFiles !! le_name file) (infoOf file)
     then [infoOf file] else [])%list.
Proof.
  destruct acc as [[cur found] new]. unfold checkFile, eligible.
  destruct (String.eqb (le_type file) "file"); simpl;
    [|now rewrite app_nil_r].
  destruct (supported (extension (le_name file))); simpl;
    [|now rewrite app_nil_r].
  destruct (newOrChanged _ _); simpl; [reflexivity | now rewrite app_nil_r].
Qed.

Lemma classify_loop_new previousFiles listing acc :
  snd (fold_left (checkFile previousFiles) listing acc)
  = (snd acc ++
     map infoOf
       (List.filter
          (fun file =>
             eligible file
             && newOrChanged (previousFiles !! le_name file) (infoOf file))
          listing))%list.
Proof.
  revert acc. induction listing as [|file listing IH]; intros acc; simpl.
  - now rewrite app_nil_r.
  - rewrite IH, checkFile_new, <- app_assoc. f_equal.
    destruct (eligible file && _); reflexivity.
Qed.

Lemma newFiles_checkSftpFiles now st :
  newFiles (checkSftpFiles now st)
  = map infoOf
      (List.filter
         (fun file =>
            eligible file
            && newOrChanged (orEmpty (fileTracking st) !! le_name file)
                            (infoOf file))
         (data st)).
Proof.
  unfold checkSftpFiles, classify.
  pose proof (classify_loop_new (orEmpty (fileTracking st)) (data st)
                (∅, false, [])) as H.
  destruct (fold_left _ (data st) _) as [[cur found] new]. exact H.
Qed.

Lemma checkFile_current previousFiles acc file key info :
  fst (fst (checkFile previousFiles acc file)) !! key = Some info ->
  fst (fst acc) !! key = Some info \/
  (eligible file = true /\ key = le_name file /\ info = infoOf file).
Proof.
  destruct acc as [[cur found] new]. unfold checkFile, eligible.
  destruct (String.eqb (le_type file) "file"); simpl; [|auto].
  destruct (supported (extension (le_name file))); simpl; [|auto].
  destruct (newOrChanged _ _); simpl;
    (destruct (decide (le_name file = key)) as [<-|Hne];
     [rewrite lookup_insert_eq; intros [= <-]; auto
     |rewrite lookup_insert_ne by assumption; auto]).
Qed.

Lemma classify_loop_current previousFiles listing acc key info :
  fst (fst (fold_left (checkFile previousFiles) listing acc)) !! key
  = Some info ->
  fst (fst acc) !! key = Some info \/
  exists file,
    In file listing /\ eligible file = true /\
    key = le_name file /\ info = infoOf file.
Proof.
  revert acc. induction listing as [|file listing IH]; intros acc; simpl.
  - auto.
  - intros H. destruct (IH _ H) as [H'|(f & Hin & Hf)].
    + apply checkFile_current in H' as [H'|H']; [auto|].
      right. exists file. auto.
    + right. exists f. auto.
Qed.

Lemma currentFileList_checkSftpFiles now st key info :
  orEmpty (currentFileList (checkSftpFiles now st)) !! key = Some info ->
  exists file,
    In file (data st) /\ eligible file = true /\
    key = le_name file /\ info = infoOf file.
Proof.
  unfold checkSftpFiles, classify.
  pose proof (classify_loop_current (orEmpty (fileTracking st)) (data st)
                (∅, false, []) key info) as H.
  destruct (fold_left _ (data st) _) as [[cur found] new]. simpl in *.
  intros Hk. destruct (H Hk) as [Hempty|Hfile]; [|assumption].
  rewrite lookup_empty in Hempty. discriminate.
Qed.

Lemma eligible_spec file :
  eligible file = true
  <-> le_type file = "file" /\ excel_name (le_name file) = true.
Proof.
  unfold eligible.
  now rewrite andb_true_iff, String.eqb_eq, supported_extension.
Qed.

(** C6, amended.  For a listed entry of type [file] whose name ends, up
    to case, in [.xlsx] or [.xls]: the entry is put in the new-files set
    if and only if its name is absent from the tracking map, or its size
    or its modification time differs from the stored record. *)
Theorem classification_rule now st file :
  In file (data st) ->
  le_type file = "file" ->
  excel_name (le_name file) = true ->
  In (infoOf file) (newFiles (checkSftpFiles now st))
  <-> absent_or_differs (orEmpty (fileTracking st)) file.
Proof.
  intros Hin Htype Hname.
  assert (Hel : eligible file = true) by (apply eligible_spec; auto).
  rewrite newFiles_checkSftpFiles, in_map_iff, <- newOrChanged_spec.
  split.
  - intros (g & Hg & [_ Hcond]%filter_In).
    apply andb_true_iff in Hcond as [_ Hcond].
    assert (le_name g = le_name file) as Hn by (now injection Hg).
    now rewrite Hg, Hn in Hcond.
  - intros Hcond. exists file. split; [reflexivity|].
    apply filter_In. split; [assumption|]. now rewrite Hel, Hcond.
Qed.

(** *** The tracking update *)

Lemma trackProcessed_loop_other now st files m key :
  ~ In key (map pf_name files) ->
  fold_left (trackProcessed now st) files m !! key = m !! key.
Proof.
  revert m. induction files as [|f files IH]; intros m Hnot; simpl in *.
  - reflexivity.
  - rewrite IH by (intros H; apply Hnot; right; exact H).
    unfold trackProcessed. apply lookup_insert_ne.
    intros Heq. apply Hnot. left. exact Heq.
Qed.

Lemma trackProcessed_loop_last now st pre file post m :
  ~ In (pf_name file) (map pf_name post) ->
  fold_left (trackProcessed now st) (pre ++ file :: post) m !! pf_name file
  = Some (trackingInfoOf now st file).
Proof.
  intros Hnot. rewrite fold_left_app. simpl.
  rewrite trackProcessed_loop_other by assumption.
  unfold trackProcessed. apply lookup_insert_eq.
Qed.

Lemma markChecked_loop_keeps now (current : gmap string fileInfo)
    (m : gmap string trackingInfo) key info :
  m !! key = Some info ->
  map_fold (markChecked now) m current !! key = Some info.
Proof.
  intros Hm.
  apply (map_fold_weak_ind
           (fun (r : gmap string trackingInfo) (_ : gmap string fileInfo) =>
              r !! key = Some info)); [assumption|].
  intros k x cur r _ Hr. unfold markChecked.
  destruct (r !! k) eqn:Hk; [assumption|].
  rewrite lookup_insert_ne; [assumption|]. congruence.
Qed.

Lemma cleanUp_keeps_recent cutoff (m : gmap string trackingInfo) key info :
  m !! key = Some info ->
  (cutoff <= fileDate info)%Z ->
  cleanUp cutoff m !! key = Some info.
Proof.
  intros Hm Hdate. unfold cleanUp.
  apply map_lookup_filter_Some. split; [assumption|]. simpl.
  now apply Z.le_ngt.
Qed.

Lemma fileTracking_after_commit now st pre file post :
  uploadCompleted st = true ->
  processedFiles st = Some (pre ++ file :: post)%list ->
  ~ In (pf_name file) (map pf_name post) ->
  orEmpty (fileTracking (updateFileTracking now st)) !! pf_name file
  = Some (trackingInfoOf now st file).
Proof.
  intros Hup Hfiles Hlast. unfold updateFileTracking, updateFileTrackingAt.
  rewrite Hup, Hfiles. simpl.
  apply cleanUp_keeps_recent;
    [|change (fileDate (trackingInfoOf now st file)) with now;
      unfold thirtyDays; lia].
  assert (Hlen : (0 <? length (pre ++ file :: post))%nat = true).
  { apply Nat.ltb_lt. rewrite length_app. simpl. lia. }
  rewrite Hlen.
  destruct (currentFileList st) as [current|].
  - apply markChecked_loop_keeps.
    now apply trackProcessed_loop_last.
  - now apply trackProcessed_loop_last.
Qed.

(** C7.  After a tracking update that follows a completed upload and
    records the processed file [file], a classification of any listing in
    which the entries of that name have the recorded size and
    modification time does not put that file in the new-files set. *)
Theorem commit_then_classify now later st pre file post listing :
  uploadCompleted st = true ->
  processedFiles st = Some (pre ++ file :: post)%list ->
  ~ In (pf_name file) (map pf_name post) ->
  (forall entry,
      In entry listing -> le_name entry = pf_name file ->
      le_size entry = pf_size file /\
      le_modifiedTime entry = pf_modifiedTime file) ->
  forall info,
    In info
       (newFiles
          (checkSftpFiles later
             (withListing listing (updateFileTracking now st)))) ->
    name info <> pf_name file.
Proof.
  intros Hup Hfiles Hlast Hsame info.
  rewrite newFiles_checkSftpFiles, in_map_iff.
  intros (entry & <- & [Hin Hcond]%filter_In) Hname.
  apply andb_true_iff in Hcond as [_ Hcond].
  simpl in Hin, Hname, Hcond. rewrite Hname in Hcond.
  rewrite (fileTracking_after_commit now st pre file post Hup Hfiles Hlast)
    in Hcond.
  destruct (Hsame entry Hin Hname) as [Hsize Htime].
  simpl in Hcond. apply orb_true_iff in Hcond as [H|H];
    apply strict_ne_true in H; congruence.
Qed.

(** C8.  When the upload has not completed, the tracking update returns
    the state it was given: the tracking map is left as it was, no entry
    being added, changed or removed, and the next check of any listing
    finds the same new files as it would have found without the update. *)
Theorem no_commit_without_upload now st :
  uploadCompleted st = false ->
  updateFileTracking now st = st /\
  fileTracking (updateFileTracking now st) = fileTracking st /\
  forall later listing,
    newFiles (checkSftpFiles later
                (withListing listing (updateFileTracking now st)))
    = newFiles (checkSftpFiles later (withListing listing st)).
Proof.
  intros Hup.
  assert (H : updateFileTracking now st = st)
    by (unfold updateFileTracking, updateFileTrackingAt; now rewrite Hup).
  rewrite H. auto.
Qed.

Lemma trackProcessed_loop_origin now st files m key info :
  fold_left (trackProcessed now st) files m !! key = Some info ->
  m !! key = Some info \/ exists f, In f files /\ pf_name f = key.
Proof.
  revert m. induction files as [|f files IH]; intros m H; simpl in *.
  - auto.
  - destruct (IH _ H) as [Hm|(g & Hg & Hname)].
    + unfold trackProcessed in Hm.
      destruct (decide (pf_name f = key)) as [Heq|Hne].
      * right. exists f. auto.
      * rewrite lookup_insert_ne in Hm by assumption. auto.
    + right. exists g. auto.
Qed.

Lemma markChecked_loop_origin now (current : gmap string fileInfo)
    (m : gmap string trackingInfo) key info :
  map_fold (markChecked now) m current !! key = Some info ->
  m !! key = Some info \/ exists fi, current !! key = Some fi.
Proof.
  apply (map_fold_weak_ind
           (fun (r : gmap string trackingInfo) (cur : gmap string fileInfo) =>
              r !! key = Some info ->
              m !! key = Some info \/ exists fi, cur !! key = Some fi)).
  - auto.
  - intros k x cur r Hfresh IH Hr.
    destruct (decide (k = key)) as [->|Hne].
    + right. exists x. apply lookup_insert_eq.
    + rewrite lookup_insert_ne by assumption. apply IH.
      unfold markChecked in Hr. destruct (r !! k); [assumption|].
      now rewrite lookup_insert_ne in Hr by assumption.
Qed.

Lemma tracked_origin now st key info :
  orEmpty (fileTracking (updateFileTracking now st)) !! key = Some info ->
  orEmpty (fileTracking st) !! key = Some info \/
  (exists files f,
      processedFiles st = Some files /\ In f files /\ pf_name f = key) \/
  (exists fi, orEmpty (currentFileList st) !! key = Some fi).
Proof.
  unfold updateFileTracking, updateFileTrackingAt.
  destruct (uploadCompleted st); simpl; [|auto].
  unfold cleanUp. intros [H _]%map_lookup_filter_Some.
  assert (Hstep :
    forall m : gmap string trackingInfo,
      match currentFileList st with
      | Some current => map_fold (markChecked now) m current
      | None => m
      end !! key = Some info ->
      m !! key = Some info \/
      exists fi, orEmpty (currentFileList st) !! key = Some fi).
  { intros m. destruct (currentFileList st) as [current|]; simpl; [|auto].
    apply markChecked_loop_origin. }
  apply Hstep in H as [H|H]; [|auto].
  destruct (processedFiles st) as [files|]; [|auto].
  destruct (0 <? length files)%nat; [|auto].
  apply trackProcessed_loop_origin in H as [H|(f & Hf & Hname)]; [auto|].
  right. left. exists files, f. auto.
Qed.

(** C10.  Whatever the listing and the tracking state, every element of
    the new-files set and every value of the current-file map comes from
    a listed entry of type [file] whose name ends, up to case, in [.xlsx]
    or [.xls].  Hence a name with another ending is neither in the
    new-files set nor a key of the current-file map, no file of such a
    name is chosen for download, and when the processed files are among
    the downloaded ones the tracking update adds no entry under such a
    name. *)
Theorem only_excel_files_classified now st :
  let checked := checkSftpFiles now st in
  (forall info,
      In info (newFiles checked) ->
      exists file,
        In file (data st) /\ le_type file = "file" /\
        excel_name (le_name file) = true /\ info = infoOf file) /\
  (forall key info,
      orEmpty (currentFileList checked) !! key = Some info ->
      exists file,
        In file (data st) /\ le_type file = "file" /\
        excel_name (le_name file) = true /\
        key = le_name file /\ info = infoOf file) /\
  (forall other,
      excel_name other = false ->
      orEmpty (currentFileList checked) !! other = None /\
      (forall info, In info (newFiles checked) -> name info <> other) /\
      (forall info, In info (filesToDownload checked) -> name info <> other) /\
      (forall later done,
          currentFileList done = currentFileList checked ->
          (forall files f,
              processedFiles done = Some files -> In f files ->
              exists info,
                In info (filesToDownload checked) /\ name info = pf_name f) ->
          orEmpty (fileTracking (updateFileTracking later done)) !! other
          = None \/
          orEmpty (fileTracking (updateFileTracking later done)) !! other
          = orEmpty (fileTracking done) !! other)).
Proof.
  intros checked.
  assert (Hnew : forall info,
             In info (newFiles checked) ->
             exists file,
               In file (data st) /\ le_type file = "file" /\
               excel_name (le_name file) = true /\ info = infoOf file).
  { intros info. unfold checked.
    rewrite newFiles_checkSftpFiles, in_map_iff.
    intros (file & <- & [Hin Hcond]%filter_In).
    apply andb_true_iff in Hcond as [[Ht Hn]%eligible_spec _].
    exists file. auto. }
  assert (Hcur : forall key info,
             orEmpty (currentFileList checked) !! key = Some info ->
             exists file,
               In file (data st) /\ le_type file = "file" /\
               excel_name (le_name file) = true /\
               key = le_name file /\ info = infoOf file).
  { intros key info H.
    apply currentFileList_checkSftpFiles in H
      as (file & Hin & [Ht Hn]%eligible_spec & Hk & Hi).
    exists file. auto. }
  assert (Hnames : forall other info,
             excel_name other = false ->
             In info (newFiles checked) -> name info <> other).
  { intros other info Hother (file & _ & _ & Hn & ->)%Hnew Heq.
    simpl in Heq. congruence. }
  assert (Hdown : forall other info,
             excel_name other = false ->
             In info (filesToDownload checked) -> name info <> other).
  { intros other info Hother. unfold filesToDownload.
    destruct (0 <? length (newFiles checked))%nat; [|intros []].
    now apply Hnames. }
  assert (Hkey : forall other,
             excel_name other = false ->
             orEmpty (currentFileList checked) !! other = None).
  { intros other Hother.
    destruct (orEmpty (currentFileList checked) !! other) as [info|] eqn:E;
      [|reflexivity].
    apply Hcur in E as (file & _ & _ & Hn & -> & _). congruence. }
  split; [exact Hnew|]. split; [exact Hcur|].
  intros other Hother. split; [now apply Hkey|].
  split; [intros info; now apply Hnames|].
  split; [intros info; now apply Hdown|].
  intros later done Hsame Hprocessed.
  destruct (orEmpty (fileTracking (updateFileTracking later done)) !! other)
    as [info|] eqn:E; [|auto].
  right.
  pose proof E as Horigin.
  apply tracked_origin in Horigin
    as [Hold|[(files & f & Hfiles & Hf & Hname)|(fi & Hfi)]].
  - now rewrite Hold.
  - exfalso. destruct (Hprocessed files f Hfiles Hf) as (d & Hd & Hdn).
    apply (Hdown other d Hother Hd). congruence.
  - exfalso. rewrite Hsame, (Hkey other Hother) in Hfi. discriminate.
Qed.

End TrackerFacts.

(** ** Properties of the spreadsheet normalizer *)

Section ExcelFacts.
Import Excel.
Context {num : Type}.
Context {worksheet jsonRow record : Type}.
Variable sheet_to_json : option worksheet -> list jsonRow.
Variable sheet_to_rows : option worksheet -> list (@rawRow num).
Variable existsSync : string -> bool.
Variable readFile : string -> outcome (@workbook worksheet).
Variable indicatorOfRow : jsonRow -> nat -> option record.
Variables queryOfRow siteOfRow :
  @rawRow num -> @rawRow num -> nat -> option record.
Variable itemWarnings : schema -> record -> nat -> list string.

Local Abbreviation parseExcelData :=
  (parseExcelData sheet_to_json sheet_to_rows existsSync readFile
     indicatorOfRow queryOfRow siteOfRow itemWarnings).
Local Abbreviation zeroDataRows :=
  (zeroDataRows sheet_to_json sheet_to_rows).

Lemma recordsBelowHeader_short test
    (ofRow : @rawRow num -> @rawRow num -> nat -> option record) rawData :
  (length rawData <= 1)%nat ->
  recordsBelowHeader test ofRow rawData = [].
Proof.
  intros Hlen. unfold recordsBelowHeader, dataRowsOf, headerRowIndex.
  destruct rawData as [|row [|row' rest]]; simpl in *; [reflexivity| |lia].
  destruct (test row); reflexivity.
Qed.

Lemma totalRows_zero (names : list string) (f : string -> list jsonRow) :
  (forall n, In n names -> f n = []) ->
  forall acc,
    fold_left (fun sum sheet => (sum + rowCount sheet)%nat)
      (map (fun n => mkSheetDump n (f n) (length (f n))) names) acc
    = acc.
Proof.
  induction names as [|n names IH]; intros Hf acc; simpl; [reflexivity|].
  rewrite IH by (intros n' Hn'; apply Hf; right; exact Hn').
  rewrite (Hf n) by (left; reflexivity). simpl. lia.
Qed.

Lemma mapFilter_blank {A B} (f : list A -> nat -> option B) rows :
  List.Forall (fun row => row = []) rows ->
  forall index,
    mapFilter (fun row index =>
                 match row with
                 | [] => None
                 | _ :: _ => f row index
                 end)
              index rows
    = [].
Proof.
  induction 1 as [|row rows -> _ IH]; intros index; [reflexivity|].
  cbn [mapFilter]. apply IH.
Qed.

Lemma recordsBelowHeader_blank test
    (ofRow : @rawRow num -> @rawRow num -> nat -> option record) rawData :
  List.Forall (fun row => row = []) (dataRowsOf test rawData) ->
  recordsBelowHeader test ofRow rawData = [].
Proof.
  intros Hblank. unfold recordsBelowHeader.
  exact (mapFilter_blank
           (ofRow (nth (headerRowIndex test rawData) rawData []))
           _ Hblank 0%nat).
Qed.

(** A sheet whose rows end with the header row that the parser finds, or
    go on with blank rows only, has no data row: the rows above the
    header row do not count. *)
Lemma header_then_blank_rows (test : @rawRow num -> bool) above header
    blank :
  (forall row, In row above -> test row = false) ->
  test header = true ->
  (length above < 10)%nat ->
  List.Forall (fun row => row = []) blank ->
  List.Forall (fun row => row = [])
    (dataRowsOf test (above ++ header :: blank)).
Proof.
  intros Habove Hheader Hlen Hblank.
  assert (Hindex : headerRowIndex test (above ++ header :: blank)
                   = length above).
  { unfold headerRowIndex.
    assert (Hfound : forall l,
              findIndex test (above ++ header :: l) = Some (length above)).
    { intros l. clear Hlen.
      induction above as [|row above IH]; cbn [app findIndex length].
      - now rewrite Hheader.
      - rewrite (Habove row) by now left.
        rewrite IH by (intros r Hr; apply Habove; now right).
        reflexivity. }
    rewrite firstn_app.
    rewrite (firstn_all2 above) by lia.
    destruct (10 - length above)%nat as [|n] eqn:E; [lia|].
    cbn [firstn]. now rewrite Hfound. }
  unfold dataRowsOf. rewrite Hindex.
  replace (length above + 1)%nat with (length (above ++ [header]))
    by (rewrite length_app; reflexivity).
  replace (above ++ header :: blank)%list
    with ((above ++ [header]) ++ blank)%list
    by (now rewrite <- app_assoc).
  rewrite skipn_app, skipn_all, Nat.sub_diag. exact Hblank.
Qed.

(** The workbooks with at most a header row are among those without data
    rows, whatever the file name. *)
Lemma zeroDataRows_noDataRows fileName wb :
  zeroDataRows wb -> Excel.noDataRows sheet_to_json sheet_to_rows fileName wb.
Proof.
  intros (Hjson & Hall & Hrows). unfold Excel.noDataRows.
  assert (Hblank : forall test : @rawRow num -> bool,
            List.Forall (fun row => row = [])
              (dataRowsOf test (sheet_to_rows (firstSheet wb)))).
  { intros test. unfold dataRowsOf.
    rewrite skipn_all2 by lia. constructor. }
  destruct (Js.includes fileName "DHIS2_HIV Indicators"); [exact Hjson|].
  destruct (Js.includes fileName "Direct Queries"); [apply Hblank|].
  destruct (Js.includes fileName "Q2FY25_DQ"); [apply Hblank|].
  exact Hall.
Qed.

(** C9, amended.  For a file that exists and is read as a workbook
    without data rows (as the parser selected by the file name sees it:
    no row object, or only blank rows below the header row it finds,
    however many rows stand above that header row), [parseExcelData]
    throws nothing and returns no record; when the file name selects one
    of the three known types the warning list is empty, and the
    validation is marked invalid with the error [No data found in Excel
    file]; for any other file name the validation holds the warning that
    no schema exists for the type. *)
Theorem empty_workbook_normalized filePath fileName wb :
  existsSync filePath = true ->
  readFile filePath = Returned wb ->
  Excel.noDataRows sheet_to_json sheet_to_rows fileName wb ->
  exists parsed,
    parseExcelData filePath fileName = Returned parsed /\
    dataArrayOf (pf_data parsed) = [] /\
    ((dataTypeOf fileName <> "unknown" /\
      pf_validation parsed = noDataValidation)
     \/
     (dataTypeOf fileName = "unknown" /\
      pd_totalRows (pf_data parsed) = Some 0%nat /\
      pf_validation parsed = noSchemaValidation)).
Proof.
  intros Hexists Hread Hnone.
  unfold Excel.parseExcelData. rewrite Hexists, Hread. simpl.
  eexists. split; [reflexivity|]. simpl.
  unfold Excel.noDataRows in Hnone. unfold dataTypeOf, parserOf.
  destruct (Js.includes fileName "DHIS2_HIV Indicators").
  { unfold parseHIVIndicators. rewrite Hnone. simpl.
    split; [reflexivity|]. left. split; [discriminate|reflexivity]. }
  destruct (Js.includes fileName "Direct Queries").
  { unfold parseDirectQueries.
    rewrite recordsBelowHeader_blank by exact Hnone.
    destruct (length _ =? 0)%nat; simpl;
      (split; [reflexivity|]; left; split; [discriminate|reflexivity]). }
  destruct (Js.includes fileName "Q2FY25_DQ").
  { unfold parseDQSites.
    rewrite recordsBelowHeader_blank by exact Hnone.
    destruct (length _ =? 0)%nat; simpl;
      (split; [reflexivity|]; left; split; [discriminate|reflexivity]). }
  unfold parseGenericExcel. simpl.
  split; [reflexivity|]. right. split; [reflexivity|].
  split; [|reflexivity].
  now rewrite (totalRows_zero (SheetNames wb)
                 (fun n => sheet_to_json (sheetNamed (Sheets wb) n))).
Qed.

End ExcelFacts.

(** ** Concrete runs *)

Section Runs.
Import IntNum.

(** Scenario 1 of the specification: an exact match. *)
Example scenario_exact :
  map (fun dv => (Matcher.originalIndicator dv, Matcher.dv_matchType dv,
                  Matcher.value dv))
      (Matcher.dataValues
         (generatePayload "2025-06-30T00:00:00.000Z"
            (googleInput [simpleRow "TX_NEW" (VNumber (Some 85%Z)) None])
            txNewConfig))
  = [("TX_NEW", exact, Some 85%Z)].
Proof. vm_compute. reflexivity. Qed.

(** Scenario 2: a fuzzy match, score 4/3. *)
Example scenario_fuzzy :
  map (fun dv => (Matcher.originalIndicator dv, Matcher.dv_matchType dv,
                  Matcher.value dv))
      (Matcher.dataValues
         (generatePayload "2025-06-30T00:00:00.000Z"
            (googleInput [simpleRow "Tx New Patients" (VString "40") None])
            txNewConfig))
  = [("TX_NEW", fuzzy, Some 40%Z)]
  /\ Fuzzy.normalizedScore "TX_NEW" "Tx New Patients" = (4 # 3)%Q.
Proof. vm_compute. split; reflexivity. Qed.

(** The tokens of some names: a run of separators cuts once, and a name
    that begins or ends with one has an empty first or last token. *)
Example tokens_of_names :
  Fuzzy.words "TX_NEW" = ["tx"; "new"] /\
  Fuzzy.words "Tx New -- Patients_" = ["tx"; "new"; "patients"; ""] /\
  Fuzzy.words "-TX" = [""; "tx"] /\
  Fuzzy.words "" = [""].
Proof. vm_compute. repeat split; reflexivity. Qed.

(** Scenario 4: no record at all. *)
Example scenario_default :
  map (fun dv => (Matcher.originalIndicator dv, Matcher.dv_matchType dv,
                  Matcher.value dv))
      (Matcher.dataValues
         (generatePayload "2025-06-30T00:00:00.000Z" (googleInput [])
            txNewConfig))
  = [("TX_NEW", default, Some 0%Z)].
Proof. vm_compute. reflexivity. Qed.

(** C2 as stated fails: a row of the SFTP Excel format whose indicator
    name equals the vocabulary key, but which carries a site, is stored
    under ["Lilongwe_TX_NEW"]; the vocabulary key is then resolved by the
    containment strategy, with match type [partial]. *)
Lemma site_prefixed_record_is_not_exact :
  let r := simpleRow "TX_NEW" (VNumber (Some 85%Z)) (Some "Lilongwe") in
  Matcher.row_Indicator r = Some "TX_NEW" /\
  Matcher.writes zero falsy parseFloat (sftpInput [r])
  = [("Lilongwe_TX_NEW", Some 85%Z)] /\
  map (fun dv => (Matcher.originalIndicator dv, Matcher.dv_matchType dv,
                  Matcher.value dv))
      (Matcher.dataValues
         (generatePayload "2025-06-30T00:00:00.000Z" (sftpInput [r])
            txNewConfig))
  = [("TX_NEW", partial, Some 85%Z)].
Proof. vm_compute. repeat split; reflexivity. Qed.

(** Witness of the amended C2: the last of two records named as the
    vocabulary key decides the value. *)
Lemma exact_match_of_stored_key_witness :
  nth_error
    (Matcher.dataValues
       (generatePayload "2025-06-30T00:00:00.000Z"
          (googleInput [simpleRow "TX_NEW" (VNumber (Some 85%Z)) None;
                        simpleRow " TX_NEW " (VString "90") None])
          txNewConfig)) 0
  = Some (Matcher.exactEntry txNewConfig ("TX_NEW", "dwEq7wi6nXV")
            (Some 90%Z)).
Proof.
  apply (exact_match_of_stored_key zero falsy parseFloat
           "2025-06-30T00:00:00.000Z"
           (googleInput [simpleRow "TX_NEW" (VNumber (Some 85%Z)) None;
                         simpleRow " TX_NEW " (VString "90") None])
           txNewConfig 0 ("TX_NEW", "dwEq7wi6nXV")
           [("TX_NEW", Some 85%Z)] (Some 90%Z) []).
  - reflexivity.
  - vm_compute. reflexivity.
  - simpl. tauto.
Defined.

(** C3 fails in the SFTP workflow's indicator branch: of two records with
    the same indicator name the larger value is kept, not the later one
    (the comment above the guard announces the most recent value). *)
Lemma excel_indicator_keeps_largest :
  Matcher.get
    (fst (excelIndex
            [Matcher.mkExcelFile "DHIS2_HIV Indicators.xlsx"
               (Matcher.mkExcelData "hiv_indicators"
                  (Some [Matcher.mkExcelIndicator "TX_NEW"
                           (VNumber (Some 10%Z));
                         Matcher.mkExcelIndicator "TX_NEW"
                           (VNumber (Some 5%Z))])
                  None)]))
    "TX_NEW"
  = Some (Some 10%Z).
Proof. vm_compute. reflexivity. Qed.


End Runs.

Section TrackerRuns.
Import Tracker.

(** Scenario 5 of the specification. *)
Example scenario_unchanged_then_changed :
  newFiles (checkSftpFiles 1748768400000
              (startOfRun (Some aXlsxKnown) [aXlsx 100])) = []
  /\
  newFiles (checkSftpFiles 1748768400000
              (startOfRun (Some aXlsxKnown) [aXlsx 150]))
  = [infoOf (aXlsx 150)].
Proof. vm_compute. split; reflexivity. Qed.

(** C6 as stated fails: a file that is absent from the tracking map is
    not put in the new-files set when its name does not end in [.xlsx]
    or [.xls]. *)
Lemma csv_file_is_not_classified :
  let file := mkEntry "file" "report.csv" (PNumber 100)
                (PText "2025-06-01T08:00:00Z") in
  let st := startOfRun None [file] in
  In file (data st) /\
  absent_or_differs (orEmpty (fileTracking st)) file /\
  ~ In (infoOf file) (newFiles (checkSftpFiles 1748768400000 st)).
Proof.
  simpl. split; [auto|]. split.
  - left. reflexivity.
  - vm_compute. tauto.
Qed.

Lemma classification_rule_witness :
  In (infoOf (aXlsx 150))
     (newFiles (checkSftpFiles 1748768400000
                  (startOfRun (Some aXlsxKnown) [aXlsx 150])))
  <-> absent_or_differs aXlsxKnown (aXlsx 150).
Proof.
  apply (classification_rule 1748768400000
           (startOfRun (Some aXlsxKnown) [aXlsx 150]) (aXlsx 150)).
  - simpl. auto.
  - reflexivity.
  - vm_compute. reflexivity.
Defined.

Lemma commit_then_classify_witness :
  List.Forall (fun info => name info <> "a.xlsx")
    (newFiles
       (checkSftpFiles 1748769300000
          (withListing [aXlsx 100]
             (updateFileTracking 1748768400000
                (afterPipeline (startOfRun None [aXlsx 100])
                   [aXlsxProcessed] true))))).
Proof.
  apply List.Forall_forall.
  apply (commit_then_classify 1748768400000 1748769300000
           (afterPipeline (startOfRun None [aXlsx 100])
              [aXlsxProcessed] true)
           [] aXlsxProcessed [] [aXlsx 100]).
  - reflexivity.
  - reflexivity.
  - simpl. tauto.
  - intros entry [<-|[]] _. split; reflexivity.
Defined.

Lemma no_commit_without_upload_witness :
  let st :=
    afterPipeline (startOfRun (Some aXlsxKnown) [aXlsx 150])
      [mkProcessed "a.xlsx" (PNumber 150) (PText "2025-06-01T08:00:00Z")
         "/uploads/hiv-indicators/a.xlsx"]
      false in
  updateFileTracking 1748768400000 st = st /\
  fileTracking (updateFileTracking 1748768400000 st) = fileTracking st /\
  forall later listing,
    newFiles (checkSftpFiles later
                (withListing listing (updateFileTracking 1748768400000 st)))
    = newFiles (checkSftpFiles later (withListing listing st)).
Proof.
  apply (no_commit_without_upload 1748768400000
           (afterPipeline (startOfRun (Some aXlsxKnown) [aXlsx 150])
              [mkProcessed "a.xlsx" (PNumber 150)
                 (PText "2025-06-01T08:00:00Z")
                 "/uploads/hiv-indicators/a.xlsx"]
              false)).
  reflexivity.
Defined.

End TrackerRuns.

Section ExcelRuns.
Import Excel.

Lemma headerOnly_zeroDataRows :
  zeroDataRows IntNum.sheet_to_json IntNum.sheet_to_rows IntNum.headerOnly.
Proof.
  split; [reflexivity|]. split.
  - intros n [<-|[]]. reflexivity.
  - simpl. lia.
Qed.

(** C9 as stated fails: for a workbook without data rows whose file name
    matches none of the known patterns the warning list is not empty. *)
Lemma unknown_type_empty_workbook_warns :
  zeroDataRows IntNum.sheet_to_json IntNum.sheet_to_rows IntNum.headerOnly
  /\
  exists parsed,
    IntNum.parseExcelData "/tmp/facility-export.xlsx" "facility-export.xlsx"
    = Returned parsed /\
    dataArrayOf (pf_data parsed) = [] /\
    warnings (pf_validation parsed)
    = ["No validation schema for data type: unknown"].
Proof.
  split; [exact headerOnly_zeroDataRows|].
  eexists. split; [vm_compute; reflexivity|]. split; reflexivity.
Qed.

(** For a file of a known type the warning list is empty, but the
    validation records an error: a sheet with a title row above the
    header row and blank rows below it. *)
Lemma empty_workbook_normalized_witness :
  exists parsed,
    IntNum.parseTitled "/tmp/Direct Queries - Q2 FY25.xlsx"
      "Direct Queries - Q2 FY25.xlsx"
    = Returned parsed /\
    dataArrayOf (pf_data parsed) = [] /\
    ((dataTypeOf "Direct Queries - Q2 FY25.xlsx" <> "unknown" /\
      pf_validation parsed = noDataValidation)
     \/
     (dataTypeOf "Direct Queries - Q2 FY25.xlsx" = "unknown" /\
      pd_totalRows (pf_data parsed) = Some 0%nat /\
      pf_validation parsed = noSchemaValidation)).
Proof.
  apply (empty_workbook_normalized
           IntNum.sheet_to_json IntNum.sheet_to_rows
           (fun _ => true) (fun _ => Returned IntNum.titledSheet)
           (fun row _ => Some row)
           (fun header row _ =>
              Some (combine (map IntNum.columnName header) row))
           (fun header row _ =>
              Some (combine (map IntNum.columnName header) row))
           (fun _ _ _ => [])
           "/tmp/Direct Queries - Q2 FY25.xlsx"
           "Direct Queries - Q2 FY25.xlsx" IntNum.titledSheet).
  - reflexivity.
  - reflexivity.
  - vm_compute. repeat constructor.
Defined.

(** The header row of that sheet is its second row, and the two rows
    below it are the data rows that the parser skips. *)
Example titled_sheet_rows :
  headerRowIndex hasCommonHeaders
    (IntNum.sheet_to_rows (firstSheet IntNum.titledSheet)) = 1%nat
  /\ dataRowsOf hasCommonHeaders
       (IntNum.sheet_to_rows (firstSheet IntNum.titledSheet))
     = [[]; []].
Proof. vm_compute. split; reflexivity. Qed.

End ExcelRuns.

(** ** Further properties of the matcher *)

Section MatcherMore.
Import Matcher MatcherViews.
Context {num : Type}.
Variable zero : num.
Variable falsy : num -> bool.
Variable parseFloat : jsval num -> num.
Variable less : num -> num -> bool.

Local Abbreviation index := (@Matcher.index num).
Local Abbreviation resolve := (Matcher.resolve zero).
Local Abbreviation resolved := (Matcher.resolved zero).
Local Abbreviation entryFor := (Matcher.entryFor zero).
Local Abbreviation matchEntry := (Matcher.matchEntry zero).
Local Abbreviation matchAll := (Matcher.matchAll zero).
Local Abbreviation extract := (Matcher.extract zero falsy parseFloat).
Local Abbreviation writes := (Matcher.writes zero falsy parseFloat).
Local Abbreviation generatePayload :=
  (Matcher.generatePayload zero falsy parseFloat).
Local Abbreviation generateExcelPayload :=
  (Matcher.generateExcelPayload zero falsy parseFloat less).
Local Abbreviation excelIndex := (Matcher.excelIndex zero falsy parseFloat less).
Local Abbreviation justified := (justified zero).

Lemma keys_get (m : index) key :
  In key (keys m) -> exists v, get m key = Some v.
Proof.
  induction m as [|[k w] m IH]; simpl; [intros []|].
  intros [<-|Hin].
  - rewrite String.eqb_refl. eauto.
  - destruct (String.eqb k key); eauto.
Qed.

Lemma truthy_nonempty k : Js.truthy k = true <-> k <> "".
Proof.
  unfold Js.truthy. rewrite negb_true_iff.
  destruct (String.eqb_spec k ""); split; congruence.
Qed.

Lemma take_found (m : index) k v mt count (a : attempt) :
  Js.truthy k = true -> get m k = Some v ->
  take m (Some k) mt count a = (Some v, mt, count (snd a)).
Proof. intros Ht Hg. unfold take. now rewrite Ht, Hg. Qed.

Lemma findFuzzyMatch_Some target candidates best :
  Fuzzy.findFuzzyMatch target candidates = Some best ->
  In best candidates /\
  (1 # 2 < Fuzzy.normalizedScore target best)%Q /\
  (forall c, In c candidates ->
     (Fuzzy.normalizedScore target c <= Fuzzy.normalizedScore target best)%Q).
Proof.
  intros H. pose proof (best_so_far_loop target candidates) as Hb.
  unfold Fuzzy.findFuzzyMatch in H. unfold Fuzzy.best_so_far in Hb.
  rewrite H in Hb. destruct Hb as (_ & Hhalf & i & Hnth & Hmax & _).
  split; [eapply nth_error_In; eassumption|]. split; assumption.
Qed.

(** the result of one iteration of the matching loop, with its reason *)
Lemma resolve_justified (m : index) key st :
  justified m key (fst (fst (resolve m key st))) (snd (fst (resolve m key st)))
  /\ snd (resolve m key st) = tallyOf (snd (fst (resolve m key st))) st.
Proof.
  unfold Matcher.resolve, strategy1, hasOwnProperty.
  destruct (get m key) as [v|] eqn:Hget.
  { simpl. split; [assumption|reflexivity]. }
  unfold strategy2. cbn [fst snd].
  destruct (find (fun k => String.eqb _ _) (keys m)) as [k2|] eqn:Hfind2.
  { apply find_some in Hfind2 as [Hin Heq%String.eqb_eq].
    destruct (keys_get m k2 Hin) as [v Hv].
    assert (Hne : k2 <> "").
    { intros ->. apply keys_get in Hin as [w Hw].
      destruct key; [congruence|discriminate]. }
    rewrite (take_found m k2 v) by (try apply truthy_nonempty; assumption).
    simpl. split; [|reflexivity]. split; [assumption|]. eauto. }
  cbn [take]. unfold strategy3. cbn [fst snd].
  destruct (find (fun k => Js.includes _ _ || Js.includes _ _) (keys m))
    as [k3|] eqn:Hfind3.
  { apply find_some in Hfind3 as [Hin Hinc%orb_true_iff].
    destruct (keys_get m k3 Hin) as [v Hv].
    unfold take. destruct (Js.truthy k3) eqn:Ht.
    - rewrite Hv. simpl. split; [|reflexivity]. split; [assumption|].
      exists k3. apply truthy_nonempty in Ht. auto.
    - unfold strategy4. cbn [fst snd].
      destruct (Fuzzy.findFuzzyMatch key (keys m)) as [k4|] eqn:Hf.
      + apply findFuzzyMatch_Some in Hf as (Hin4 & Hhalf & Hmax).
        destruct (keys_get m k4 Hin4) as [v4 Hv4].
        unfold take. destruct (Js.truthy k4) eqn:Ht4.
        * rewrite Hv4. simpl. split; [|reflexivity]. split; [assumption|].
          exists k4. apply truthy_nonempty in Ht4. auto.
        * simpl. auto.
      + simpl. auto. }
  cbn [take]. unfold strategy4. cbn [fst snd].
  destruct (Fuzzy.findFuzzyMatch key (keys m)) as [k4|] eqn:Hf.
  - apply findFuzzyMatch_Some in Hf as (Hin4 & Hhalf & Hmax).
    destruct (keys_get m k4 Hin4) as [v4 Hv4].
    unfold take. destruct (Js.truthy k4) eqn:Ht4.
    + rewrite Hv4. simpl. split; [|reflexivity]. split; [assumption|].
      exists k4. apply truthy_nonempty in Ht4. auto.
    + simpl. auto.
  - simpl. auto.
Qed.

Lemma resolved_justified (m : index) key :
  justified m key (fst (resolved m key)) (snd (resolved m key)).
Proof. apply resolve_justified. Qed.

Lemma entryFor_fields cfg (m : index) entry :
  originalIndicator (entryFor cfg m entry) = fst entry /\
  value (entryFor cfg m entry) = fst (resolved m (fst entry)) /\
  dv_matchType (entryFor cfg m entry) = snd (resolved m (fst entry)).
Proof. repeat split. Qed.

Lemma dataValues_justified cfg (m : index) dv :
  In dv (fst (matchAll cfg m)) ->
  justified m (originalIndicator dv) (value dv) (dv_matchType dv).
Proof.
  rewrite (matchAll_fst zero cfg m), in_map_iff.
  intros (entry & <- & _). apply resolved_justified.
Qed.

(** Every entry's match type is backed by the index: [exact] by the key
    itself, [exact_case_insensitive], [partial] and [fuzzy] by an observed
    key that stands in that relation to the vocabulary key and holds the
    value, [default] by the value 0; no entry keeps the initial type
    [none], and every type other than [exact] means that the key itself is
    absent from the index. *)
Theorem match_types_justified now input files cfg :
  (forall dv,
      In dv (dataValues (generatePayload now input cfg)) ->
      justified (fst (extract input)) (originalIndicator dv) (value dv)
        (dv_matchType dv)) /\
  (forall dv,
      In dv (dataValues (base (generateExcelPayload now files cfg))) ->
      justified (fst (excelIndex files)) (originalIndicator dv) (value dv)
        (dv_matchType dv)).
Proof.
  rewrite (dataValues_generatePayload zero falsy parseFloat),
    (dataValues_generateExcelPayload zero falsy parseFloat less).
  split; intros dv; apply dataValues_justified.
Qed.

(** *** The statistics *)

Lemma matchEntry_snd cfg (m : index) acc entry :
  snd (matchEntry cfg m acc entry)
  = tallyOf (snd (resolved m (fst entry))) (snd acc).
Proof.
  destruct entry as [key de]. unfold Matcher.matchEntry, Matcher.resolved.
  cbn [fst snd].
  rewrite (resolve_stats_indep zero m key (mkStats 0 0 0 0) (snd acc)).
  pose proof (resolve_justified m key (snd acc)) as [_ H].
  destruct (resolve m key (snd acc)) as [[v mt] st]. exact H.
Qed.

Lemma matchLoop_snd cfg (m : index) l acc :
  snd (fold_left (matchEntry cfg m) l acc)
  = tally (map (fun entry => snd (resolved m (fst entry))) l) (snd acc).
Proof.
  revert acc. induction l as [|e l IH]; intros acc; simpl; [reflexivity|].
  now rewrite IH, matchEntry_snd.
Qed.

Lemma tally_counts mts st :
  exactMatches (tally mts st)
  = (exactMatches st + length (List.filter is_exact mts))%nat /\
  partialMatches (tally mts st)
  = (partialMatches st + length (List.filter is_partial mts))%nat /\
  noMatches (tally mts st)
  = (noMatches st + length (List.filter is_default mts))%nat /\
  defaultValues (tally mts st) = defaultValues st.
Proof.
  revert st. induction mts as [|mt mts IH]; intros st; simpl.
  - repeat split; lia.
  - destruct (IH (tallyOf mt st)) as (H1 & H2 & H3 & H4).
    fold (tally mts (tallyOf mt st)). rewrite H1, H2, H3, H4.
    destruct mt; simpl; repeat split; lia.
Qed.

Lemma tags_partition mts :
  Forall (fun mt => mt <> none) mts ->
  (length (List.filter is_exact mts) + length (List.filter is_partial mts)
   + length (List.filter is_default mts) = length mts)%nat.
Proof.
  induction 1 as [|mt mts Hmt _ IH]; simpl; [reflexivity|].
  destruct mt; simpl; try lia. congruence.
Qed.

Lemma tagged_entries test cfg (m : index) l :
  tagged test (map (entryFor cfg m) l)
  = length (List.filter test
              (map (fun entry => snd (resolved m (fst entry))) l)).
Proof.
  unfold tagged. induction l as [|e l IH]; simpl; [reflexivity|].
  destruct (test (snd (resolved m (fst e)))); simpl; now rewrite IH.
Qed.

Lemma matchAll_tallied cfg (m : index) :
  tallied (length (hivStagesReportMapping cfg))
    (fst (matchAll cfg m)) (snd (matchAll cfg m)).
Proof.
  rewrite (matchAll_fst zero cfg m). unfold Matcher.matchAll.
  rewrite matchLoop_snd. cbn [snd]. unfold tallied. rewrite !tagged_entries.
  set (mts := map _ (hivStagesReportMapping cfg)).
  destruct (tally_counts mts (mkStats 0 0 0 0)) as (H1 & H2 & H3 & H4).
  rewrite H1, H2, H3, H4. simpl.
  repeat split.
  assert (Hlen : length mts = length (hivStagesReportMapping cfg))
    by apply length_map.
  rewrite <- Hlen. apply tags_partition.
  unfold mts. apply List.Forall_forall.
  intros mt (e & <- & _)%in_map_iff Hnone.
  pose proof (resolved_justified m (fst e)) as Hj.
  rewrite Hnone in Hj. exact Hj.
Qed.

(** The statistics of both payloads are the tally of the match types of
    the entries: [exactMatches] counts the types [exact] and
    [exact_case_insensitive], [partialMatches] the types [partial] and
    [fuzzy], [noMatches] the type [default]; [defaultValues] stays 0 and
    the three counters add up to the number of vocabulary entries. *)
Theorem matchingStats_tally now input files cfg :
  tallied (length (hivStagesReportMapping cfg))
    (dataValues (generatePayload now input cfg))
    (p_matchingStats (generatePayload now input cfg)) /\
  tallied (length (hivStagesReportMapping cfg))
    (dataValues (base (generateExcelPayload now files cfg)))
    (p_matchingStats (base (generateExcelPayload now files cfg))).
Proof.
  split.
  - unfold Matcher.generatePayload.
    destruct (extract input) as [m src].
    pose proof (matchAll_tallied cfg m) as H.
    destruct (matchAll cfg m) as [values stats]. exact H.
  - unfold Matcher.generateExcelPayload.
    destruct (excelIndex files) as [m total].
    pose proof (matchAll_tallied cfg m) as H.
    destruct (matchAll cfg m) as [values stats]. exact H.
Qed.

(** *** Values are numbers *)

Lemma get_In (m : index) key v : get m key = Some v -> In (key, v) m.
Proof.
  induction m as [|[k w] m IH]; simpl; [discriminate|].
  destruct (String.eqb_spec k key) as [->|]; [intros [= ->]; auto | auto].
Qed.

Lemma set_values (P : num -> Prop) (m : index) key v :
  List.Forall (fun kv => P (snd kv)) m -> P v ->
  List.Forall (fun kv => P (snd kv)) (set m key v).
Proof.
  intros Hm Hv. induction Hm as [|[k w] m Hk Hm IH]; simpl.
  - constructor; [assumption|constructor].
  - destruct (String.eqb k key); constructor; assumption.
Qed.

Lemma numericValue_clean v :
  falsy (numericValue zero falsy parseFloat v) = true ->
  numericValue zero falsy parseFloat v = zero.
Proof.
  unfold numericValue. destruct (falsy (parseFloat v)) eqn:E; congruence.
Qed.

Local Abbreviation clean :=
  (fun kv : string * num => falsy (snd kv) = true -> snd kv = zero).

Lemma sftpRow_clean m r :
  List.Forall clean m -> List.Forall clean (sftpRow zero falsy parseFloat m r).
Proof.
  intros Hm. unfold sftpRow.
  destruct (or_name (row_Indicator r) (row_indicator r)); [|assumption].
  destruct (Js.truthy s && has_value _); [|assumption].
  apply (set_values (fun v => falsy v = true -> v = zero));
    [assumption | apply numericValue_clean].
Qed.

Lemma googleRow_clean m r :
  List.Forall clean m ->
  List.Forall clean (googleRow zero falsy parseFloat m r).
Proof.
  intros Hm. unfold googleRow.
  destruct (or_name _ (row_indicator r)); [|assumption].
  destruct (Js.truthy s && has_value _); [|assumption].
  apply (set_values (fun v => falsy v = true -> v = zero));
    [assumption | apply numericValue_clean].
Qed.

Lemma fold_left_clean {A} (f : index -> A -> index) l :
  (forall m x, List.Forall clean m -> List.Forall clean (f m x)) ->
  forall m, List.Forall clean m -> List.Forall clean (fold_left f l m).
Proof.
  intros Hf. induction l as [|x l IH]; intros m Hm; simpl; auto.
Qed.

Lemma each_clean {A} (f : index -> A -> index) l m :
  (forall m x, List.Forall clean m -> List.Forall clean (f m x)) ->
  List.Forall clean m -> List.Forall clean (each f l m).
Proof.
  intros Hf Hm. destruct l as [xs|]; simpl; [|assumption].
  now apply fold_left_clean.
Qed.

Lemma rawFile_clean m file :
  List.Forall clean m ->
  List.Forall clean (rawFile zero falsy parseFloat m file).
Proof.
  intros Hm. unfold rawFile.
  assert (Hsite : forall m q, List.Forall clean m ->
                    List.Forall clean (rawSite zero falsy parseFloat m q)).
  { intros m' q Hm'. unfold rawSite.
    apply (set_values (fun v => falsy v = true -> v = zero));
      [assumption | apply numericValue_clean]. }
  apply each_clean; [exact Hsite|]. apply each_clean; [exact Hsite|].
  apply each_clean; [|assumption].
  intros m' i Hm'. unfold rawIndicator.
  apply (set_values (fun v => falsy v = true -> v = zero));
    [assumption | apply numericValue_clean].
Qed.

Lemma extract_clean input : List.Forall clean (fst (extract input)).
Proof.
  unfold Matcher.extract. destruct input as [d|]; [|constructor].
  destruct (bool_decide _); simpl.
  - destruct (sheets d) as [sh|]; [|constructor]. unfold sftpSheets.
    apply fold_left_clean; [|constructor].
    intros m entry Hm. apply fold_left_clean; [|assumption].
    apply sftpRow_clean.
  - destruct (processedData d) as [rows|]; simpl.
    + apply fold_left_clean; [apply googleRow_clean|constructor].
    + destruct (processedFiles d) as [files|]; simpl; [|constructor].
      apply fold_left_clean; [apply rawFile_clean|constructor].
Qed.

Lemma excelIndex_clean files : List.Forall clean (fst (excelIndex files)).
Proof.
  unfold Matcher.excelIndex.
  assert (Hloop : forall {A} (f : index * nat -> A -> index * nat) l,
             (forall acc x, List.Forall clean (fst acc) ->
                            List.Forall clean (fst (f acc x))) ->
             forall acc, List.Forall clean (fst acc) ->
                         List.Forall clean (fst (fold_left f l acc))).
  { intros A f l Hf. induction l as [|x l IH]; intros acc Hacc; simpl; auto. }
  apply Hloop; [|constructor].
  intros acc file Hacc. unfold excelFileStep, each_counted.
  assert (Hind : List.Forall clean
                   (fst match ed_indicators (ef_excelData file) with
                        | Some xs =>
                            fold_left
                              (excelIndicatorStep zero falsy parseFloat less)
                              xs acc
                        | None => acc
                        end)).
  { destruct (ed_indicators (ef_excelData file)) as [xs|]; [|assumption].
    apply Hloop; [|assumption].
    intros acc' i Hacc'. unfold excelIndicatorStep. cbn [fst].
    match goal with
    | |- context [get ?a ?b] => destruct (get a b) as [old|]
    end; cbn beta iota.
    - destruct (falsy old
                || less old (numericValue zero falsy parseFloat (ei_value i)));
        cbn beta iota; [|exact Hacc'].
      apply (set_values (fun v => falsy v = true -> v = zero));
        [assumption | apply numericValue_clean].
    - apply (set_values (fun v => falsy v = true -> v = zero));
        [assumption | apply numericValue_clean]. }
  destruct (ed_queries (ef_excelData file)) as [xs|]; [|assumption].
  apply Hloop; [|assumption].
  intros acc' q Hacc'. unfold excelQueryStep. cbn [fst].
  apply (set_values (fun v => falsy v = true -> v = zero));
    [assumption | apply numericValue_clean].
Qed.

Lemma justified_clean (m : index) key v mt :
  List.Forall clean m -> justified m key v mt ->
  falsy v = true -> v = zero.
Proof.
  intros Hm Hj. rewrite List.Forall_forall in Hm.
  destruct mt; simpl in Hj.
  - destruct Hj.
  - apply get_In in Hj. exact (Hm _ Hj).
  - destruct Hj as (_ & k & _ & _ & Hk%get_In). exact (Hm _ Hk).
  - destruct Hj as (_ & k & _ & _ & _ & Hk%get_In). exact (Hm _ Hk).
  - destruct Hj as (_ & k & _ & _ & _ & _ & Hk%get_In). exact (Hm _ Hk).
  - destruct Hj as [_ ->]. reflexivity.
Qed.

(** No payload carries a falsy number other than 0: a value that
    [parseFloat] cannot read ([NaN]) is sent as 0, in both workflows. *)
Theorem values_never_NaN now input files cfg :
  (forall dv,
      In dv (dataValues (generatePayload now input cfg)) ->
      falsy (value dv) = true -> value dv = zero) /\
  (forall dv,
      In dv (dataValues (base (generateExcelPayload now files cfg))) ->
      falsy (value dv) = true -> value dv = zero).
Proof.
  rewrite (dataValues_generatePayload zero falsy parseFloat),
    (dataValues_generateExcelPayload zero falsy parseFloat less).
  split; intros dv Hdv%dataValues_justified.
  - exact (justified_clean _ _ _ _ (extract_clean input) Hdv).
  - exact (justified_clean _ _ _ _ (excelIndex_clean files) Hdv).
Qed.

(** *** The keys of the index *)

Lemma keys_set_In (m : index) key v x :
  In x (keys (set m key v)) <-> In x (keys m) \/ x = key.
Proof.
  induction m as [|[k w] m IH]; simpl.
  - split; [intros [<-|[]]; right; reflexivity
           |intros [[]| ->]; left; reflexivity].
  - destruct (String.eqb_spec k key) as [->|Hne]; simpl.
    + split; [intros H; left; exact H|].
      intros [H| ->]; [exact H | left; reflexivity].
    + rewrite IH. split.
      * intros [H|[H|H]];
          [left; left; exact H | left; right; exact H | right; exact H].
      * intros [[H|H]|H];
          [left; exact H | right; left; exact H | right; right; exact H].
Qed.

Lemma set_NoDup (m : index) key v :
  List.NoDup (keys m) -> List.NoDup (keys (set m key v)).
Proof.
  induction m as [|[k w] m IH]; simpl; intros Hnd.
  - constructor; [intros []|constructor].
  - inversion Hnd as [|? ? Hk Hm]; subst.
    destruct (String.eqb_spec k key) as [->|Hne]; simpl.
    + constructor; assumption.
    + constructor; [|auto].
      intros [H| ->]%keys_set_In; [auto|congruence].
Qed.

Lemma set_length (m : index) key v :
  (length (keys (set m key v)) <= S (length (keys m)))%nat /\
  (1 <= length (keys (set m key v)))%nat.
Proof.
  induction m as [|[k w] m [IH1 IH2]]; simpl; [lia|].
  destruct (String.eqb k key); simpl; lia.
Qed.

Lemma get_replay_lastWrite ws (m : index) key :
  get (Matcher.replay ws m) key
  = match lastWrite ws key with
    | Some v => Some v
    | None => get m key
    end.
Proof.
  revert m. induction ws as [|[k v] ws IH]; intros m; simpl; [reflexivity|].
  change (fold_left _ ws (set m k v)) with (Matcher.replay ws (set m k v)).
  rewrite IH. destruct (lastWrite ws key); [reflexivity|].
  destruct (String.eqb_spec k key) as [->|Hne].
  - apply (get_set_same m key v).
  - now apply (get_set_other m k key v).
Qed.

Lemma replay_NoDup ws (m : index) :
  List.NoDup (keys m) -> List.NoDup (keys (Matcher.replay ws m)).
Proof.
  revert m. induction ws as [|[k v] ws IH]; intros m Hm; simpl; auto.
  apply IH. now apply set_NoDup.
Qed.

(** In the reports workflow the index holds, under each key, the value of
    the last record written under that key, whatever branch built it; a key
    that no record was written under is absent; and no key is listed
    twice. *)
Theorem index_last_write_wins input key :
  get (fst (extract input)) key = lastWrite (writes input) key /\
  List.NoDup (keys (fst (extract input))).
Proof.
  rewrite (extract_replay zero falsy parseFloat). split.
  - rewrite get_replay_lastWrite. destruct (lastWrite _ key); reflexivity.
  - apply replay_NoDup. constructor.
Qed.

Lemma counted_index_loop {A} (f : index * nat -> A -> index * nat) l acc :
  (forall acc x,
      counted_index acc ->
      counted_index (f acc x) /\ snd (f acc x) = S (snd acc)) ->
  counted_index acc ->
  counted_index (fold_left f l acc) /\
  snd (fold_left f l acc) = (snd acc + length l)%nat.
Proof.
  intros Hf. revert acc. induction l as [|x l IH]; intros acc Hacc; simpl.
  - split; [assumption|lia].
  - destruct (Hf acc x Hacc) as [H1 H2].
    destruct (IH _ H1) as [H3 H4]. split; [assumption|]. lia.
Qed.

Lemma counted_index_set (acc : index * nat) key v :
  counted_index acc -> counted_index (set (fst acc) key v, S (snd acc)).
Proof.
  intros (Hnd & Hlen & Hzero). unfold counted_index. cbn [fst snd].
  pose proof (set_length (fst acc) key v) as [H1 H2].
  split; [now apply set_NoDup|]. split; [lia|].
  split; [discriminate|].
  intros E. rewrite E in H2. simpl in H2. lia.
Qed.

Lemma excelIndicatorStep_counted acc i :
  counted_index acc ->
  counted_index (excelIndicatorStep zero falsy parseFloat less acc i) /\
  snd (excelIndicatorStep zero falsy parseFloat less acc i) = S (snd acc).
Proof.
  intros Hacc. split; [|reflexivity]. unfold excelIndicatorStep.
  destruct (get (fst acc) (Js.trim (ei_indicator i))) as [old|] eqn:Hget.
  - destruct (falsy old || less old _); [now apply counted_index_set|].
    destruct Hacc as (Hnd & Hlen & Hzero). unfold counted_index.
    cbn [fst snd]. split; [assumption|]. split; [lia|].
    split; [discriminate|]. intros E. rewrite E in Hget. discriminate.
  - now apply counted_index_set.
Qed.

Lemma excelQueryStep_counted acc q :
  counted_index acc ->
  counted_index (excelQueryStep zero falsy parseFloat acc q) /\
  snd (excelQueryStep zero falsy parseFloat acc q) = S (snd acc).
Proof.
  intros Hacc. split; [|reflexivity]. now apply counted_index_set.
Qed.

Lemma excelIndex_counted files :
  counted_index (excelIndex files) /\
  snd (excelIndex files) = recordsIn files.
Proof.
  unfold Matcher.excelIndex, recordsIn.
  assert (Hgen : forall acc,
             counted_index acc ->
             counted_index
               (fold_left (excelFileStep zero falsy parseFloat less) files acc)
             /\ snd (fold_left (excelFileStep zero falsy parseFloat less)
                       files acc)
                = (snd acc
                   + list_sum
                       (map (fun file =>
                          (match ed_indicators (ef_excelData file) with
                           | Some l => length l | None => 0 end
                           + match ed_queries (ef_excelData file) with
                             | Some l => length l | None => 0 end)%nat)
                          files))%nat).
  { induction files as [|file files IH]; intros acc Hacc; simpl.
    - split; [assumption|lia].
    - assert (Hstep :
        counted_index (excelFileStep zero falsy parseFloat less acc file) /\
        snd (excelFileStep zero falsy parseFloat less acc file)
        = (snd acc
           + (match ed_indicators (ef_excelData file) with
              | Some l => length l | None => 0 end
              + match ed_queries (ef_excelData file) with
                | Some l => length l | None => 0 end))%nat).
      { unfold excelFileStep, each_counted.
        destruct (ed_indicators (ef_excelData file)) as [inds|];
          destruct (ed_queries (ef_excelData file)) as [qs|].
        - destruct (counted_index_loop _ inds acc
                      excelIndicatorStep_counted Hacc) as [H1 H2].
          destruct (counted_index_loop _ qs _
                      excelQueryStep_counted H1) as [H3 H4].
          split; [assumption|]. lia.
        - destruct (counted_index_loop _ inds acc
                      excelIndicatorStep_counted Hacc) as [H1 H2].
          split; [assumption|]. lia.
        - destruct (counted_index_loop _ qs acc
                      excelQueryStep_counted Hacc) as [H3 H4].
          split; [assumption|]. lia.
        - split; [assumption|]. lia. }
      destruct Hstep as [H1 H2]. destruct (IH _ H1) as [H3 H4].
      split; [assumption|]. lia. }
  apply (Hgen ([], 0%nat)).
  repeat split; try constructor; simpl; lia.
Qed.

(** In the SFTP workflow [totalRecords] is the number of indicator and
    query records of the processed files; [uniqueIndicators], the number
    of keys of the index, which are pairwise distinct, never exceeds it,
    and is 0 only when there is no record at all. *)
Theorem excel_totals now files cfg :
  let p := generateExcelPayload now files cfg in
  totalRecords p = recordsIn files /\
  uniqueIndicators p = length (keys (fst (excelIndex files))) /\
  List.NoDup (keys (fst (excelIndex files))) /\
  (uniqueIndicators p <= totalRecords p)%nat /\
  (uniqueIndicators p = 0%nat <-> totalRecords p = 0%nat).
Proof.
  destruct (excelIndex_counted files) as [(Hnd & Hlen & Hzero) Htotal].
  unfold Matcher.generateExcelPayload.
  destruct (excelIndex files) as [m total]. cbn [fst snd] in *.
  destruct (matchAll cfg m) as [values stats]. cbn.
  repeat split; try assumption; try lia.
  intros E. apply Hzero. now destruct m.
Qed.

(** *** Branch precedence *)

Lemma resolved_empty key : resolved [] key = (zero, default).
Proof. apply (resolved_no_match zero). intros k []. Qed.

(** An input marked [source: 'sftp_excel'] is read from its [sheets]
    only: when it has no [sheets], no indicator value is extracted, even if
    it carries [processedData] or [processedFiles], and every vocabulary
    key gets the default entry. *)
Theorem sftp_excel_without_sheets_is_empty now cfg rows files :
  let input :=
    Some (mkInputData (Some "sftp_excel") None rows files) in
  fst (extract input) = [] /\
  dataSource (generatePayload now input cfg) = "SFTP Excel" /\
  dataValues (generatePayload now input cfg)
  = map (defaultEntry zero cfg) (hivStagesReportMapping cfg).
Proof.
  intros input. split; [reflexivity|]. split.
  { unfold Matcher.generatePayload.
    assert (E : extract input = ([], "SFTP Excel")) by reflexivity.
    rewrite E. destruct (matchAll cfg []) as [values stats]. reflexivity. }
  rewrite (dataValues_generatePayload zero falsy parseFloat).
  rewrite (matchAll_fst zero). apply map_ext. intros entry.
  unfold Matcher.entryFor, defaultEntry.
  change (fst (extract input)) with (@nil (string * num)).
  now rewrite resolved_empty.
Qed.

(** *** Completeness of the default *)

Lemma includes_empty s : Js.includes s "" = true.
Proof. destruct s; reflexivity. Qed.

Lemma find_Some_exists {A} (f : A -> bool) l x :
  In x l -> f x = true -> exists y, find f l = Some y.
Proof.
  intros Hin Hx. destruct (find f l) as [y|] eqn:E; [eauto|].
  now rewrite (find_none f l E x Hin) in Hx.
Qed.

Lemma resolved_matched (m : index) key k :
  (forall x, In x (keys m) -> x <> "") ->
  In k (keys m) -> matches key k = true ->
  snd (resolved m key) <> default.
Proof.
  intros Hne Hin Hmatch Hdef.
  pose proof (resolved_justified m key) as Hj. rewrite Hdef in Hj.
  destruct Hj as [Hget _].
  revert Hdef. unfold Matcher.resolved, Matcher.resolve, strategy1,
    hasOwnProperty.
  rewrite Hget. unfold strategy2. cbn [fst snd].
  destruct (find (fun x => String.eqb _ _) (keys m)) as [k2|] eqn:Hf2.
  { apply find_some in Hf2 as [Hin2 _].
    destruct (keys_get m k2 Hin2) as [v2 Hv2].
    rewrite (take_found m k2 v2)
      by (try apply truthy_nonempty; auto). discriminate. }
  cbn [take]. unfold strategy3. cbn [fst snd].
  destruct (find (fun x => Js.includes _ _ || Js.includes _ _) (keys m))
    as [k3|] eqn:Hf3.
  { apply find_some in Hf3 as [Hin3 _].
    destruct (keys_get m k3 Hin3) as [v3 Hv3].
    rewrite (take_found m k3 v3)
      by (try apply truthy_nonempty; auto). discriminate. }
  cbn [take]. unfold strategy4. cbn [fst snd].
  destruct (Fuzzy.findFuzzyMatch key (keys m)) as [k4|] eqn:Hf4.
  { apply findFuzzyMatch_Some in Hf4 as (Hin4 & _).
    destruct (keys_get m k4 Hin4) as [v4 Hv4].
    rewrite (take_found m k4 v4)
      by (try apply truthy_nonempty; auto). discriminate. }
  intros _.
  unfold matches in Hmatch.
  apply orb_true_iff in Hmatch as [Hmatch|Hfuzzy].
  - apply orb_true_iff in Hmatch as [Hmatch|Hinc2].
    + apply orb_true_iff in Hmatch as [Hmatch|Hinc1].
      * apply orb_true_iff in Hmatch as [Heq|Hci].
        -- apply String.eqb_eq in Heq. subst k.
           apply keys_get in Hin as [v Hv]. congruence.
        -- now rewrite (find_none _ _ Hf2 k Hin) in Hci.
      * pose proof (find_none _ _ Hf3 k Hin) as Hk. cbn beta in Hk.
        rewrite Hinc1 in Hk. discriminate.
    + pose proof (find_none _ _ Hf3 k Hin) as Hk. cbn beta in Hk.
      rewrite Hinc2, orb_true_r in Hk. discriminate.
  - pose proof (best_so_far_loop key (keys m)) as Hb.
    unfold Fuzzy.findFuzzyMatch in Hf4. unfold Fuzzy.best_so_far in Hb.
    rewrite Hf4 in Hb. destruct Hb as [_ Hlow].
    apply Qgtb_lt in Hfuzzy. apply (Qlt_irrefl (1 # 2)).
    eapply Qlt_le_trans; [exact Hfuzzy | now apply Hlow].
Qed.

(** When no observed key is empty, a vocabulary key is defaulted exactly
    when no observed key matches it: the entry has type [default] if and
    only if no key of the index is equal to the vocabulary key, equal up to
    case, in a containment relation with it up to case, or scores above one
    half against it. *)
Theorem default_iff_no_match now input cfg dv :
  (forall key, In key (keys (fst (extract input))) -> key <> "") ->
  In dv (dataValues (generatePayload now input cfg)) ->
  dv_matchType dv = default
  <-> forall key, In key (keys (fst (extract input))) ->
                  matches (originalIndicator dv) key = false.
Proof.
  intros Hne.
  rewrite (dataValues_generatePayload zero falsy parseFloat),
    (matchAll_fst zero), in_map_iff.
  intros (entry & <- & _). cbn [originalIndicator dv_matchType entryFor].
  split.
  - intros Hdef key Hin.
    destruct (matches (fst entry) key) eqn:E; [|reflexivity].
    exfalso. exact (resolved_matched _ _ _ Hne Hin E Hdef).
  - intros Hno. now rewrite (resolved_no_match zero _ _ Hno).
Qed.

(** When the first enumerated key of the index is the empty string (a
    record whose indicator name is white space only), the containment
    strategy finds that key first and discards it, so that no entry at all
    is resolved with type [partial]. *)
Theorem empty_first_key_disables_partial now input cfg rest dv :
  keys (fst (extract input)) = "" :: rest ->
  In dv (dataValues (generatePayload now input cfg)) ->
  dv_matchType dv <> partial.
Proof.
  intros Hkeys.
  rewrite (dataValues_generatePayload zero falsy parseFloat),
    (matchAll_fst zero), in_map_iff.
  intros (entry & <- & _). cbn [dv_matchType entryFor].
  set (m := fst (extract input)) in *. set (key := fst entry).
  unfold Matcher.resolved, Matcher.resolve, strategy1, hasOwnProperty.
  destruct (get m key) as [v|] eqn:Hget; [cbn; discriminate|].
  unfold strategy2. cbn [fst snd].
  destruct (find (fun x => String.eqb _ _) (keys m)) as [k2|] eqn:Hf2.
  { apply find_some in Hf2 as [Hin2 _].
    destruct (keys_get m k2 Hin2) as [v2 Hv2].
    unfold take. destruct (Js.truthy k2); [rewrite Hv2; cbn; discriminate|].
    unfold strategy3. cbn [fst snd]. rewrite Hkeys. cbn [find].
    rewrite includes_empty, orb_true_r. cbn [take Js.truthy String.eqb negb].
    unfold strategy4. cbn [fst snd].
    destruct (Fuzzy.findFuzzyMatch key (keys m)) as [k4|]; unfold take;
      [destruct (Js.truthy k4); [destruct (get m k4)|]|];
      cbn [orDefault fst snd]; discriminate. }
  cbn [take]. unfold strategy3. cbn [fst snd]. rewrite Hkeys. cbn [find].
  rewrite includes_empty, orb_true_r. cbn [take Js.truthy String.eqb negb].
  unfold strategy4. cbn [fst snd].
  destruct (Fuzzy.findFuzzyMatch key (keys m)) as [k4|]; unfold take;
    [destruct (Js.truthy k4); [destruct (get m k4)|]|];
    cbn [orDefault fst snd]; discriminate.
Qed.

End MatcherMore.

(** ** Determinism: the clock and the enumeration order *)

Section MatcherOrder.
Import Matcher MatcherViews.
Context {num : Type}.
Variable zero : num.
Variable falsy : num -> bool.
Variable parseFloat : jsval num -> num.

Local Abbreviation index := (@Matcher.index num).
Local Abbreviation resolve := (Matcher.resolve zero).
Local Abbreviation matchEntry := (Matcher.matchEntry zero).
Local Abbreviation matchAll := (Matcher.matchAll zero).
Local Abbreviation extract := (Matcher.extract zero falsy parseFloat).
Local Abbreviation generatePayload :=
  (Matcher.generatePayload zero falsy parseFloat).











Lemma set_fresh (m : index) key v :
  ~ In key (keys m) -> set m key v = (m ++ [(key, v)])%list.
Proof.
  induction m as [|[k w] m IH]; cbn [keys map fst set app]; intros Hfresh;
    [reflexivity|].
  destruct (String.eqb_spec k key) as [->|_]; [elim Hfresh; now left|].
  f_equal. apply IH. intros Hin. apply Hfresh. now right.
Qed.

Lemma replay_distinct ws :
  forall m : index,
    List.NoDup (map fst ws) ->
    (forall w, In w ws -> ~ In (fst w) (keys m)) ->
    Matcher.replay ws m = (m ++ ws)%list.
Proof.
  induction ws as [|[k v] ws IH]; intros m Hnd Hfresh.
  - cbn. now rewrite app_nil_r.
  - inversion Hnd as [|? ? Hk Hnd']; subst.
    change (Matcher.replay ((k, v) :: ws) m)
      with (Matcher.replay ws (set m k v)).
    rewrite set_fresh by (apply (Hfresh (k, v)); now left).
    rewrite IH; [now rewrite <- app_assoc|exact Hnd'|].
    intros w Hw Hin. unfold keys in Hin. rewrite map_app in Hin.
    apply in_app_or in Hin as [Hin|[Hin|[]]].
    + apply (Hfresh w); [now right|exact Hin].
    + cbn [fst] in Hin. apply Hk. rewrite Hin. now apply in_map.
Qed.

(** When the records are written under pairwise distinct keys, the index
    is the list of the writes: the same records in another order then
    give the same entries in another enumeration order. *)
Lemma permuted_records_permuted_index input1 input2 :
  List.NoDup (map fst (Matcher.writes zero falsy parseFloat input1)) ->
  Permutation (Matcher.writes zero falsy parseFloat input1)
              (Matcher.writes zero falsy parseFloat input2) ->
  Permutation (fst (extract input1)) (fst (extract input2)).
Proof.
  intros Hnd Hperm.
  assert (Hnd' : List.NoDup
                   (map fst (Matcher.writes zero falsy parseFloat input2))).
  { eapply Permutation_NoDup; [|exact Hnd]. now apply Permutation_map. }
  rewrite !(extract_replay zero falsy parseFloat).
  rewrite !replay_distinct by (assumption || intros w _ []).
  exact Hperm.
Qed.


End MatcherOrder.

Section MatcherOrderRuns.
Import IntNum.


(** Where two observed keys tie, the enumeration order decides: both
    names contain the vocabulary key, and the one met first gives the
    value. *)
Example tie_follows_enumeration_order :
  let a := simpleRow "TX_NEW_male" (VString "7") None in
  let b := simpleRow "TX_NEW_female" (VString "9") None in
  Matcher.tie_free ["TX_NEW_male"; "TX_NEW_female"] "TX_NEW" = false /\
  map (fun dv => (Matcher.dv_matchType dv, Matcher.value dv))
      (Matcher.dataValues
         (generatePayload "2025-06-30T00:00:00.000Z" (googleInput [a; b])
            txNewConfig))
  = [(partial, Some 7%Z)] /\
  map (fun dv => (Matcher.dv_matchType dv, Matcher.value dv))
      (Matcher.dataValues
         (generatePayload "2025-06-30T00:00:00.000Z" (googleInput [b; a])
            txNewConfig))
  = [(partial, Some 9%Z)].
Proof. vm_compute. repeat split; reflexivity. Qed.

End MatcherOrderRuns.

Section MatcherMoreRuns.
Import IntNum.

Lemma default_iff_no_match_witness :
  let input := googleInput [simpleRow "Tx New Patients" (VString "40") None] in
  let dv :=
    Matcher.mkDataValue "dwEq7wi6nXV" "202506" "rXoaHGAXWy9" "HllvX50cXC0"
      "HllvX50cXC0" (Some 40%Z) fuzzy "TX_NEW" in
  Matcher.dv_matchType dv = default
  <-> forall key,
        In key (Matcher.keys
                  (fst (Matcher.extract zero falsy parseFloat input))) ->
        Matcher.matches (Matcher.originalIndicator dv) key = false.
Proof.
  apply (default_iff_no_match zero falsy parseFloat
           "2025-06-30T00:00:00.000Z"
           (googleInput [simpleRow "Tx New Patients" (VString "40") None])
           txNewConfig).
  - intros key [<-|[]]. discriminate.
  - vm_compute. left. reflexivity.
Defined.

Lemma empty_first_key_disables_partial_witness :
  List.Forall (fun dv => Matcher.dv_matchType dv <> partial)
    (Matcher.dataValues
       (generatePayload "2025-06-30T00:00:00.000Z"
          (googleInput [simpleRow "  " (VString "5") None;
                        simpleRow "TX_NEW_total" (VString "7") None])
          txNewConfig)).
Proof.
  apply List.Forall_forall. intros dv Hdv.
  apply (empty_first_key_disables_partial zero falsy parseFloat
           "2025-06-30T00:00:00.000Z"
           (googleInput [simpleRow "  " (VString "5") None;
                         simpleRow "TX_NEW_total" (VString "7") None])
           txNewConfig ["TX_NEW_total"] dv); [reflexivity | exact Hdv].
Defined.

End MatcherMoreRuns.

(** ** Further properties of the fuzzy matcher *)

Section FuzzyMore.
Import Fuzzy.

Lemma spec_score_cons t ts cs :
  spec_score (t :: ts) cs
  = (list_sum (map (pair_points t) cs) + spec_score ts cs)%nat.
Proof.
  unfold spec_score. simpl. now rewrite map_app, list_sum_app, map_map.
Qed.

Lemma pair_points_le t c : (pair_points t c <= 2)%nat.
Proof.
  unfold pair_points. destruct (String.eqb t c); [lia|].
  destruct (Js.includes t c || Js.includes c t); lia.
Qed.

Lemma row_points_le t cs :
  (list_sum (map (pair_points t) cs) <= 2 * length cs)%nat.
Proof.
  induction cs as [|c cs IH]; simpl; [lia|].
  pose proof (pair_points_le t c). lia.
Qed.

Lemma row_points_ge t cs :
  In t cs -> (2 <= list_sum (map (pair_points t) cs))%nat.
Proof.
  induction cs as [|c cs IH]; simpl; [intros []|].
  intros [->|Hin].
  - unfold pair_points. rewrite String.eqb_refl. lia.
  - specialize (IH Hin). lia.
Qed.

Lemma spec_score_le ts cs :
  (spec_score ts cs <= 2 * (length ts * length cs))%nat.
Proof.
  induction ts as [|t ts IH]; [unfold spec_score; simpl; lia|].
  rewrite spec_score_cons. pose proof (row_points_le t cs). simpl. lia.
Qed.

Lemma spec_score_ge ts cs :
  (forall t, In t ts -> In t cs) ->
  (2 * length ts <= spec_score ts cs)%nat.
Proof.
  induction ts as [|t ts IH]; intros Hsub; [simpl; lia|].
  rewrite spec_score_cons.
  pose proof (row_points_ge t cs (Hsub t (or_introl eq_refl))).
  assert (2 * length ts <= spec_score ts cs)%nat
    by (apply IH; intros x Hx; apply Hsub; right; exact Hx).
  simpl. lia.
Qed.

Lemma Zpos_of_nat n : (1 <= n)%nat -> Z.pos (Pos.of_nat n) = Z.of_nat n.
Proof.
  intros H. destruct n as [|n]; [lia|].
  rewrite <- Pos.of_nat_succ. reflexivity.
Qed.

(** The normalized score lies between 0 and twice the smaller of the two
    token counts; it is not confined to the interval from 0 to 1. *)
Theorem normalizedScore_bounds target candidate :
  (0 <= normalizedScore target candidate)%Q /\
  (normalizedScore target candidate
   <= inject_Z (2 * Z.of_nat (Nat.min (length (words target))
                                      (length (words candidate)))))%Q.
Proof.
  split; [apply normalizedScore_nonneg|].
  unfold normalizedScore, Qle. cbn [Qnum Qden inject_Z].
  rewrite score_spec.
  pose proof (spec_score_le (words target) (words candidate)) as Hle.
  pose proof (words_nonempty target) as Ht.
  pose proof (words_nonempty candidate) as Hc.
  rewrite Zpos_of_nat by lia.
  set (a := length (words target)) in *.
  set (b := length (words candidate)) in *.
  assert (Hprod : (Nat.min a b * Nat.max a b = a * b)%nat)
    by (destruct (Nat.le_ge_cases a b);
        [rewrite Nat.min_l, Nat.max_r by assumption
        |rewrite Nat.min_r, Nat.max_l by assumption]; lia).
  nia.
Qed.

(** A candidate that equals the target up to case scores at least 2, so
    that [findFuzzyMatch] returns a candidate whenever the list holds
    one. *)
Theorem fuzzy_accepts_case_variant target candidates c :
  In c candidates ->
  Js.toLowerCase c = Js.toLowerCase target ->
  (2 <= normalizedScore target c)%Q /\
  exists best,
    findFuzzyMatch target candidates = Some best /\
    (normalizedScore target c <= normalizedScore target best)%Q.
Proof.
  intros Hin Hlower.
  assert (Hscore : (2 <= normalizedScore target c)%Q).
  { unfold normalizedScore, words, Qle. rewrite Hlower, Nat.max_id.
    cbn [Qnum Qden]. rewrite score_spec.
    pose proof (spec_score_ge (Js.split (Js.toLowerCase target))
                  (Js.split (Js.toLowerCase target)) (fun t H => H)) as Hge.
    pose proof (words_nonempty target) as Hn. unfold words in Hn.
    rewrite Zpos_of_nat by assumption. lia. }
  split; [assumption|].
  pose proof (best_so_far_loop target candidates) as Hb.
  unfold findFuzzyMatch, best_so_far in *.
  destruct (fst (fold_left (step target) candidates (None, 0%Q))) as [b|].
  - destruct Hb as (_ & _ & i & _ & Hmax & _). exists b. auto.
  - exfalso. destruct Hb as [_ Hlow]. specialize (Hlow c Hin).
    apply (Qlt_irrefl (1 # 2)).
    eapply Qlt_le_trans; [|exact Hlow].
    eapply Qlt_le_trans; [|exact Hscore]. reflexivity.
Qed.

End FuzzyMore.

(** ** Further properties of the file-change tracker *)

Section TrackerMore.
Import Tracker TrackerViews.

Local Abbreviation new_entry knownFiles :=
  (fun file =>
     eligible file
     && newOrChanged (knownFiles !! le_name file) (infoOf file)).

Lemma checkFile_flag previousFiles acc file :
  (snd (fst acc) = true <-> snd acc <> []) ->
  (snd (fst (checkFile previousFiles acc file)) = true
   <-> snd (checkFile previousFiles acc file) <> []).
Proof.
  destruct acc as [[cur found] new]. unfold checkFile. cbn [fst snd].
  intros Hacc.
  destruct (String.eqb (le_type file) "file"); [|exact Hacc].
  destruct (supported (extension (le_name file))); [|exact Hacc].
  destruct (newOrChanged _ _); cbn [fst snd]; [|exact Hacc].
  split; [|reflexivity]. intros _. now destruct new.
Qed.

Lemma classify_flag previousFiles listing :
  snd (fst (classify previousFiles listing)) = true
  <-> snd (classify previousFiles listing) <> [].
Proof.
  unfold classify.
  assert (Hgen : forall acc,
             (snd (fst acc) = true <-> snd acc <> []) ->
             (snd (fst (fold_left (checkFile previousFiles) listing acc))
              = true
              <-> snd (fold_left (checkFile previousFiles) listing acc)
                  <> [])).
  { induction listing as [|file listing IH]; intros acc Hacc; simpl;
      [exact Hacc|].
    apply IH. now apply checkFile_flag. }
  apply Hgen. cbn. split; [discriminate|congruence].
Qed.

Lemma newFilesFound_checkSftpFiles now st :
  newFilesFound (checkSftpFiles now st) = true
  <-> newFiles (checkSftpFiles now st) <> [].
Proof.
  unfold checkSftpFiles.
  pose proof (classify_flag (orEmpty (fileTracking st)) (data st)) as H.
  destruct (classify _ (data st)) as [[cur found] new]. exact H.
Qed.

Lemma filter_nil_iff {A} (f : A -> bool) l :
  List.filter f l = [] <-> forall x, In x l -> f x = false.
Proof.
  induction l as [|x l IH]; simpl.
  - split; [intros _ x []|reflexivity].
  - destruct (f x) eqn:E.
    + split; [discriminate|]. intros H.
      specialize (H x (or_introl eq_refl)). congruence.
    + rewrite IH. split.
      * intros H y [<-|Hy]; [assumption|now apply H].
      * intros H y Hy. apply H. now right.
Qed.

(** The workflow is stopped after the check (the step sets
    [workflowComplete]) exactly when no listed entry of type [file] with
    an Excel name is absent from the tracking map or differs from its
    record in size or modification time. *)
Theorem workflow_stops_iff_nothing_new now st :
  snd (stopIfNoNewFiles (checkSftpFiles now st)) = true
  <-> forall file,
        In file (data st) -> le_type file = "file" ->
        excel_name (le_name file) = true ->
        ~ absent_or_differs (orEmpty (fileTracking st)) file.
Proof.
  assert (Hnew : newFiles (checkSftpFiles now st) = []
                 <-> forall file,
                       In file (data st) -> le_type file = "file" ->
                       excel_name (le_name file) = true ->
                       ~ absent_or_differs (orEmpty (fileTracking st)) file).
  { rewrite newFiles_checkSftpFiles. split.
    - intros Hnil%map_eq_nil file Hin Htype Hname Habs.
      rewrite filter_nil_iff in Hnil. specialize (Hnil file Hin).
      apply newOrChanged_spec in Habs.
      assert (Hel : eligible file = true) by (apply eligible_spec; auto).
      cbn beta in Hnil. rewrite Hel, Habs in Hnil. discriminate.
    - intros Hnone.
      assert (Hnil : List.filter (new_entry (orEmpty (fileTracking st)))
                       (data st) = []); [|now rewrite Hnil].
      apply filter_nil_iff. intros file Hin. cbn beta.
      destruct (eligible file) eqn:Hel; [|reflexivity].
      destruct (newOrChanged _ (infoOf file)) eqn:Hchanged; [|reflexivity].
      exfalso. apply eligible_spec in Hel as [Htype Hname].
      apply (Hnone file Hin Htype Hname). now apply newOrChanged_spec. }
  rewrite <- Hnew. unfold stopIfNoNewFiles.
  pose proof (newFilesFound_checkSftpFiles now st) as Hflag.
  destruct (newFilesFound (checkSftpFiles now st)); cbn [negb snd].
  - split; [discriminate|]. intros Hnil. exfalso.
    now apply (proj1 Hflag eq_refl).
  - split; [|reflexivity]. intros _.
    destruct (newFiles (checkSftpFiles now st)) as [|info l]; [reflexivity|].
    exfalso. assert (H : false = true) by (apply Hflag; discriminate).
    discriminate.
Qed.

(** *** The current-file map *)

Lemma checkFile_current_other previousFiles acc file key :
  eligible file = false \/ le_name file <> key ->
  fst (fst (checkFile previousFiles acc file)) !! key = fst (fst acc) !! key.
Proof.
  destruct acc as [[cur found] new]. unfold checkFile, eligible.
  intros Hother.
  destruct (String.eqb (le_type file) "file"); [|reflexivity].
  destruct (supported (extension (le_name file))); [|reflexivity].
  destruct Hother as [Hel|Hne]; [discriminate|].
  destruct (newOrChanged _ _); cbn [fst];
    now rewrite lookup_insert_ne by assumption.
Qed.

Lemma checkFile_current_same previousFiles acc file :
  eligible file = true ->
  fst (fst (checkFile previousFiles acc file)) !! le_name file
  = Some (infoOf file).
Proof.
  destruct acc as [[cur found] new]. unfold checkFile, eligible.
  intros [-> ->]%andb_true_iff.
  destruct (newOrChanged _ _); cbn [fst]; apply lookup_insert_eq.
Qed.

Lemma classify_loop_other previousFiles listing acc key :
  (forall file, In file listing ->
                eligible file = false \/ le_name file <> key) ->
  fst (fst (fold_left (checkFile previousFiles) listing acc)) !! key
  = fst (fst acc) !! key.
Proof.
  revert acc. induction listing as [|file listing IH]; intros acc H; simpl.
  - reflexivity.
  - rewrite IH by (intros g Hg; apply H; right; exact Hg).
    apply checkFile_current_other. apply H. left. reflexivity.
Qed.

(** Every listed Excel file is recorded in the current-file map under its
    name, with the size and time of its last listing entry, whether it is
    new or not; a name with no such entry is not a key of the map. *)
Theorem currentFileList_complete now st :
  (forall pre file post,
      data st = (pre ++ file :: post)%list ->
      eligible file = true ->
      (forall later, In later post ->
                     eligible later = false \/ le_name later <> le_name file) ->
      orEmpty (currentFileList (checkSftpFiles now st)) !! le_name file
      = Some (infoOf file)) /\
  (forall key,
      (forall file, In file (data st) ->
                    eligible file = false \/ le_name file <> key) ->
      orEmpty (currentFileList (checkSftpFiles now st)) !! key = None).
Proof.
  assert (Hcur : orEmpty (currentFileList (checkSftpFiles now st))
                 = fst (fst (classify (orEmpty (fileTracking st)) (data st)))).
  { unfold checkSftpFiles.
    destruct (classify _ (data st)) as [[cur found] new]. reflexivity. }
  rewrite Hcur. unfold classify. split.
  - intros pre file post -> Hel Hlater.
    rewrite fold_left_app. simpl.
    rewrite classify_loop_other by assumption.
    now apply checkFile_current_same.
  - intros key Hnone. rewrite classify_loop_other by assumption.
    apply lookup_empty.
Qed.

Lemma checkSftpFiles_fields now st :
  data (checkSftpFiles now st) = data st /\
  fileTracking (checkSftpFiles now st) = fileTracking st /\
  newFilesFound (checkSftpFiles now st)
  = snd (fst (classify (orEmpty (fileTracking st)) (data st))) /\
  newFiles (checkSftpFiles now st)
  = snd (classify (orEmpty (fileTracking st)) (data st)) /\
  currentFileList (checkSftpFiles now st)
  = Some (fst (fst (classify (orEmpty (fileTracking st)) (data st)))).
Proof.
  unfold checkSftpFiles.
  destruct (classify _ (data st)) as [[cur found] new]. repeat split.
Qed.

(** The check does not touch the tracking map, so that a second check of
    the same listing without an intervening tracking update finds the same
    new files, the same flag and the same current-file map. *)
Theorem classification_idempotent now later st :
  let once := checkSftpFiles now st in
  let twice := checkSftpFiles later once in
  fileTracking once = fileTracking st /\
  newFiles twice = newFiles once /\
  newFilesFound twice = newFilesFound once /\
  currentFileList twice = currentFileList once.
Proof.
  cbv zeta.
  destruct (checkSftpFiles_fields now st)
    as (Hdata & Htracking & Hfound & Hnew & Hcurrent).
  destruct (checkSftpFiles_fields later (checkSftpFiles now st))
    as (_ & _ & Hfound' & Hnew' & Hcurrent').
  rewrite Htracking, Hdata in Hfound', Hnew', Hcurrent'.
  rewrite Hfound', Hnew', Hcurrent', Hfound, Hnew, Hcurrent.
  split; [exact Htracking|]. repeat split.
Qed.

(** *** The tracking map after an update *)

Lemma lastProcessed_name files key f :
  lastProcessed files key = Some f -> pf_name f = key /\ In f files.
Proof.
  induction files as [|g files IH]; simpl; [discriminate|].
  destruct (lastProcessed files key) as [later|].
  - intros [= ->]. destruct (IH eq_refl). auto.
  - destruct (String.eqb_spec (pf_name g) key); [|discriminate].
    intros [= ->]. auto.
Qed.

Lemma lastProcessed_None files key :
  lastProcessed files key = None <-> ~ In key (map pf_name files).
Proof.
  induction files as [|g files IH]; simpl.
  - split; [intros _ []|reflexivity].
  - destruct (lastProcessed files key) as [later|].
    + split; [discriminate|]. intros H.
      apply IH. intros Hin. apply H. now right.
    + destruct (String.eqb_spec (pf_name g) key) as [Heq|Hne].
      * split; [discriminate|]. intros H. exfalso. apply H. now left.
      * split; [|reflexivity]. intros _ [H|H]; [congruence|].
        now apply IH in H.
Qed.

Lemma trackProcessed_loop_lookup now st files
    (m : gmap string trackingInfo) key :
  fold_left (trackProcessed now st) files m !! key
  = match lastProcessed files key with
    | Some f => Some (trackingInfoOf now st f)
    | None => m !! key
    end.
Proof.
  revert m. induction files as [|f files IH]; intros m; simpl; [reflexivity|].
  rewrite IH. destruct (lastProcessed files key); [reflexivity|].
  unfold trackProcessed.
  destruct (String.eqb_spec (pf_name f) key) as [->|Hne].
  - apply lookup_insert_eq.
  - now apply lookup_insert_ne.
Qed.

Lemma markChecked_loop_lookup now (current : gmap string fileInfo)
    (m : gmap string trackingInfo) key :
  map_fold (markChecked now) m current !! key
  = match m !! key with
    | Some info => Some info
    | None => option_map (checkedInfo now) (current !! key)
    end.
Proof.
  revert key.
  apply (map_fold_weak_ind
           (fun (r : gmap string trackingInfo) (cur : gmap string fileInfo) =>
              forall key,
                r !! key
                = match m !! key with
                  | Some info => Some info
                  | None => option_map (checkedInfo now) (cur !! key)
                  end)).
  - intros key. rewrite lookup_empty. now destruct (m !! key).
  - intros k x cur r Hfresh IH key. unfold markChecked.
    pose proof (IH k) as Hk. rewrite Hfresh in Hk.
    destruct (decide (k = key)) as [->|Hne].
    + rewrite lookup_insert_eq.
      destruct (m !! key) as [info|]; cbn in Hk; rewrite Hk; [exact Hk|].
      simpl. apply lookup_insert_eq.
    + rewrite (lookup_insert_ne cur) by assumption.
      destruct (r !! k); [apply IH|].
      rewrite lookup_insert_ne by assumption. apply IH.
Qed.

Lemma cleanUp_lookup cutoff (m : gmap string trackingInfo) key :
  cleanUp cutoff m !! key
  = match m !! key with
    | Some info =>
        if bool_decide (fileDate info < cutoff)%Z then None else Some info
    | None => None
    end.
Proof.
  unfold cleanUp. destruct (m !! key) as [info|] eqn:Hm.
  - case_bool_decide as Hold.
    + apply map_lookup_filter_None. right.
      intros x Hx. rewrite Hm in Hx. injection Hx as <-. simpl. auto.
    + apply map_lookup_filter_Some. split; [assumption|]. exact Hold.
  - apply map_lookup_filter_None. now left.
Qed.

Lemma processed_loop_lookup now st (m : gmap string trackingInfo) key :
  match processedFiles st with
  | Some files =>
      if (0 <? length files)%nat
      then fold_left (trackProcessed now st) files m
      else m
  | None => m
  end !! key
  = match lastProcessed (processedOf st) key with
    | Some f => Some (trackingInfoOf now st f)
    | None => m !! key
    end.
Proof.
  unfold processedOf.
  destruct (processedFiles st) as [files|]; [|reflexivity].
  destruct files as [|f files]; [reflexivity|].
  cbn [length Nat.ltb Nat.leb]. apply trackProcessed_loop_lookup.
Qed.

Lemma tracking_after_update_at thirtyDaysAgo now st key :
  uploadCompleted st = true ->
  orEmpty (fileTracking (updateFileTrackingAt thirtyDaysAgo now st)) !! key
  = match candidateEntry now st key with
    | Some info =>
        if bool_decide (fileDate info < thirtyDaysAgo)%Z then None
        else Some info
    | None => None
    end.
Proof.
  intros Hup. unfold updateFileTrackingAt. rewrite Hup. cbn.
  rewrite cleanUp_lookup. unfold candidateEntry.
  destruct (currentFileList st) as [current|]; cbn [orEmpty].
  - rewrite markChecked_loop_lookup, processed_loop_lookup.
    destruct (lastProcessed _ key); reflexivity.
  - rewrite processed_loop_lookup, lookup_empty.
    destruct (lastProcessed _ key); [reflexivity|].
    destruct (orEmpty (fileTracking st) !! key); reflexivity.
Qed.

Lemma tracking_after_update now st key :
  uploadCompleted st = true ->
  orEmpty (fileTracking (updateFileTracking now st)) !! key
  = match candidateEntry now st key with
    | Some info =>
        if bool_decide (fileDate info < now - thirtyDays)%Z then None
        else Some info
    | None => None
    end.
Proof. apply tracking_after_update_at. Qed.

(** After a tracking update that follows a completed upload, the entry of
    a file name is: the record of the last processed file of that name;
    else the entry tracked before; else, for a name of the current-file
    map, that file marked as checked; in each case provided its date
    ([processedAt], else [lastChecked], else the epoch) is not before
    [thirtyDaysAgo], the date thirty calendar days before the update as
    the local calendar gives it, since older entries are removed. *)
Theorem updateFileTracking_lookup thirtyDaysAgo now st key :
  uploadCompleted st = true ->
  orEmpty (fileTracking (updateFileTrackingAt thirtyDaysAgo now st)) !! key
  = match candidateEntry now st key with
    | Some info =>
        if bool_decide (fileDate info < thirtyDaysAgo)%Z then None
        else Some info
    | None => None
    end.
Proof.
  intros Hup. unfold updateFileTrackingAt. rewrite Hup.
  cbn [negb fileTracking orEmpty].
  rewrite cleanUp_lookup. unfold candidateEntry.
  destruct (currentFileList st) as [current|] eqn:Hcurrent; cbn [orEmpty].
  - (* the loop over the current files only fills the gaps *)
    rewrite markChecked_loop_lookup, processed_loop_lookup.
    destruct (lastProcessed (processedOf st) key) as [f|]; reflexivity.
  - (* no current-file map: the processed files and the old entries *)
    rewrite processed_loop_lookup, lookup_empty.
    destruct (lastProcessed (processedOf st) key) as [f|]; [reflexivity|].
    destruct (orEmpty (fileTracking st) !! key) as [info|]; reflexivity.
Qed.

Lemma unprocessed_marked_checked now st key info :
  uploadCompleted st = true ->
  ~ In key (map pf_name (processedOf st)) ->
  orEmpty (fileTracking st) !! key = None ->
  orEmpty (currentFileList st) !! key = Some info ->
  orEmpty (fileTracking (updateFileTracking now st)) !! key
  = Some (checkedInfo now info).
Proof.
  intros Hup Hnot Hnew Hlisted.
  rewrite tracking_after_update by assumption.
  unfold candidateEntry.
  apply lastProcessed_None in Hnot. rewrite Hnot, Hnew, Hlisted. simpl.
  case_bool_decide as Hold; [|reflexivity].
  unfold fileDate, thirtyDays in Hold. simpl in Hold. lia.
Qed.

Lemma same_as_tracked_not_new later st key known listing :
  orEmpty (fileTracking st) !! key = Some known ->
  (forall entry,
      In entry listing -> le_name entry = key ->
      le_size entry = ti_size known /\
      le_modifiedTime entry = ti_modifiedTime known) ->
  List.Forall (fun found => name found <> key)
    (newFiles (checkSftpFiles later (withListing listing st))).
Proof.
  intros Htracked Hsame.
  apply List.Forall_forall. intros found.
  rewrite newFiles_checkSftpFiles, in_map_iff.
  intros (entry & <- & [Hin Hcond]%filter_In) Hname.
  apply andb_true_iff in Hcond as [_ Hcond].
  simpl in Hin, Hname, Hcond. rewrite Hname, Htracked in Hcond.
  destruct (Hsame entry Hin Hname) as [Hsize Htime].
  simpl in Hcond. apply orb_true_iff in Hcond as [H|H];
    apply strict_ne_true in H; congruence.
Qed.

(** A listed file that was new at the check but is not among the processed
    files is nevertheless tracked, as checked, by a tracking update that
    follows a completed upload; the next check of a listing that shows it
    with the same size and time does not put it in the new-files set. *)
Theorem unprocessed_listed_file_is_tracked now later st key info listing :
  uploadCompleted st = true ->
  ~ In key (map pf_name (processedOf st)) ->
  orEmpty (fileTracking st) !! key = None ->
  orEmpty (currentFileList st) !! key = Some info ->
  (forall entry,
      In entry listing -> le_name entry = key ->
      le_size entry = size info /\
      le_modifiedTime entry = modifiedTime info) ->
  orEmpty (fileTracking (updateFileTracking now st)) !! key
  = Some (checkedInfo now info) /\
  List.Forall (fun found => name found <> key)
    (newFiles
       (checkSftpFiles later
          (withListing listing (updateFileTracking now st)))).
Proof.
  intros Hup Hnot Hnew Hlisted Hsame.
  pose proof (unprocessed_marked_checked now st key info Hup Hnot Hnew
                Hlisted) as Htracked.
  split; [exact Htracked|].
  exact (same_as_tracked_not_new later _ key _ listing Htracked Hsame).
Qed.

(** A tracked file that the listing shows with another size or time, and
    that is not among the processed files, stays in the new-files set: a
    tracking update that follows a completed upload leaves its old record
    as it is, or removes it as older than 30 days, and the next check of
    the same listing reports the file again. *)
Theorem unprocessed_changed_file_is_retried now later st key old listing
    entry :
  uploadCompleted st = true ->
  ~ In key (map pf_name (processedOf st)) ->
  orEmpty (fileTracking st) !! key = Some old ->
  In entry listing ->
  eligible entry = true ->
  le_name entry = key ->
  ti_size old <> le_size entry
  \/ ti_modifiedTime old <> le_modifiedTime entry ->
  In (infoOf entry)
     (newFiles
        (checkSftpFiles later
           (withListing listing (updateFileTracking now st)))).
Proof.
  intros Hup Hnot Hold Hin Hel Hname Hdiff.
  rewrite newFiles_checkSftpFiles. apply in_map. apply filter_In.
  split; [exact Hin|]. rewrite Hel. cbn [andb].
  change (fileTracking (withListing listing (updateFileTracking now st)))
    with (fileTracking (updateFileTracking now st)).
  rewrite Hname, tracking_after_update by assumption.
  unfold candidateEntry.
  apply lastProcessed_None in Hnot. rewrite Hnot, Hold.
  case_bool_decide; [reflexivity|].
  cbn [newOrChanged]. apply orb_true_iff.
  destruct Hdiff as [Hsize|Htime]; [right|left]; apply strict_ne_true;
    cbn [infoOf size modifiedTime]; assumption.
Qed.

End TrackerMore.

Section TrackerMoreRuns.
Import Tracker TrackerViews.

(** an update made an hour after clocks went back: the thirtieth
    calendar day before it is 30 times 24 hours and one hour away *)
Lemma updateFileTracking_lookup_witness :
  let st :=
    afterPipeline
      (checkSftpFiles 1748768400000 (startOfRun None [aXlsx 100]))
      [aXlsxProcessed] true in
  orEmpty
    (fileTracking
       (updateFileTrackingAt (1748768460000 - thirtyDays - 3600000)
          1748768460000 st))
  !! "a.xlsx"
  = match candidateEntry 1748768460000 st "a.xlsx" with
    | Some info =>
        if bool_decide
             (fileDate info < 1748768460000 - thirtyDays - 3600000)%Z
        then None
        else Some info
    | None => None
    end.
Proof.
  apply (updateFileTracking_lookup
           (1748768460000 - thirtyDays - 3600000) 1748768460000
           (afterPipeline
              (checkSftpFiles 1748768400000 (startOfRun None [aXlsx 100]))
              [aXlsxProcessed] true)
           "a.xlsx").
  reflexivity.
Defined.

Lemma unprocessed_listed_file_is_tracked_witness :
  let late :=
    mkEntry "file" "b.xlsx" (PNumber 7) (PText "2025-06-01T09:00:00Z") in
  let st :=
    afterPipeline
      (checkSftpFiles 1748768400000 (startOfRun None [aXlsx 100; late]))
      [aXlsxProcessed] true in
  orEmpty (fileTracking (updateFileTracking 1748768460000 st)) !! "b.xlsx"
  = Some (checkedInfo 1748768460000 (infoOf late)) /\
  List.Forall (fun found => name found <> "b.xlsx")
    (newFiles
       (checkSftpFiles 1748854800000
          (withListing [aXlsx 100; late]
             (updateFileTracking 1748768460000 st)))).
Proof.
  apply (unprocessed_listed_file_is_tracked 1748768460000 1748854800000
           (afterPipeline
              (checkSftpFiles 1748768400000
                 (startOfRun None
                    [aXlsx 100;
                     mkEntry "file" "b.xlsx" (PNumber 7)
                       (PText "2025-06-01T09:00:00Z")]))
              [aXlsxProcessed] true)
           "b.xlsx"
           (infoOf (mkEntry "file" "b.xlsx" (PNumber 7)
                      (PText "2025-06-01T09:00:00Z")))).
  - reflexivity.
  - simpl. intros [H|[]]. discriminate.
  - reflexivity.
  - vm_compute. reflexivity.
  - intros entry [<-|[<-|[]]] Hname; [discriminate|].
    split; reflexivity.
Defined.

Lemma unprocessed_changed_file_is_retried_witness :
  let st :=
    afterPipeline
      (checkSftpFiles 1748768400000
         (startOfRun (Some aXlsxKnown) [aXlsx 150]))
      [] true in
  In (infoOf (aXlsx 150))
     (newFiles
        (checkSftpFiles 1748854800000
           (withListing [aXlsx 150]
              (updateFileTracking 1748768460000 st)))).
Proof.
  apply (unprocessed_changed_file_is_retried 1748768460000 1748854800000
           (afterPipeline
              (checkSftpFiles 1748768400000
                 (startOfRun (Some aXlsxKnown) [aXlsx 150]))
              [] true)
           "a.xlsx"
           (mkTrackingInfo "a.xlsx" (PNumber 100)
              (PText "2025-06-01T08:00:00Z")
              "/uploads/hiv-indicators/a.xlsx" (Some 1748764800000%Z) None
              "processed" (Some "SUCCESS") (Some (mkDhis2Summary 12 0 0)))
           [aXlsx 150] (aXlsx 150)).
  - reflexivity.
  - simpl. intros [].
  - vm_compute. reflexivity.
  - left. reflexivity.
  - reflexivity.
  - reflexivity.
  - left. discriminate.
Defined.

End TrackerMoreRuns.

Section FuzzyMoreRuns.
Import Fuzzy.

Lemma fuzzy_accepts_case_variant_witness :
  (2 <= normalizedScore "TX New" "tx new")%Q /\
  exists best,
    findFuzzyMatch "TX New" ["TX_CURR"; "tx new"] = Some best /\
    (normalizedScore "TX New" "tx new" <= normalizedScore "TX New" best)%Q.
Proof.
  apply (fuzzy_accepts_case_variant "TX New" ["TX_CURR"; "tx new"] "tx new").
  - simpl. auto.
  - reflexivity.
Defined.

End FuzzyMoreRuns.

(** ** Further properties of the spreadsheet normalizer *)

Section ExcelMore.
Import Excel.
Context {num : Type}.
Context {worksheet jsonRow record : Type}.
Variable sheet_to_json : option worksheet -> list jsonRow.
Variable sheet_to_rows : option worksheet -> list (@rawRow num).
Variable existsSync : string -> bool.
Variable readFile : string -> outcome (@workbook worksheet).
Variable indicatorOfRow : jsonRow -> nat -> option record.
Variables queryOfRow siteOfRow :
  @rawRow num -> @rawRow num -> nat -> option record.
Variable itemWarnings : schema -> record -> nat -> list string.

Local Abbreviation parseExcelData :=
  (parseExcelData sheet_to_json sheet_to_rows existsSync readFile
     indicatorOfRow queryOfRow siteOfRow itemWarnings).
Local Abbreviation parserOf :=
  (parserOf sheet_to_json sheet_to_rows indicatorOfRow queryOfRow siteOfRow).
Local Abbreviation validateExcelData := (validateExcelData itemWarnings).

Lemma parserOf_type fileName wb :
  (dataTypeOf fileName = "unknown"
   /\ pd_type (parserOf fileName wb) = Some "generic")
  \/
  (In (dataTypeOf fileName) ["hiv_indicators"; "direct_queries"; "dq_sites"]
   /\ pd_type (parserOf fileName wb) = None).
Proof.
  unfold dataTypeOf, Excel.parserOf.
  destruct (Js.includes fileName "DHIS2_HIV Indicators").
  { right. split; [simpl; auto|reflexivity]. }
  destruct (Js.includes fileName "Direct Queries").
  { right. split; [simpl; auto|].
    unfold parseDirectQueries. now destruct (length _ =? 0)%nat. }
  destruct (Js.includes fileName "Q2FY25_DQ").
  { right. split; [simpl; auto|].
    unfold parseDQSites. now destruct (length _ =? 0)%nat. }
  left. split; reflexivity.
Qed.

(** [parseExcelData] throws exactly when the file does not exist or the
    reader throws, and the message names the file and the cause.  A
    returned result carries the file name and the sheet names of the
    workbook, and its type is one of the three known types or [generic]:
    the type [unknown], against which a file of no known name pattern is
    validated, is never returned. *)
Theorem parseExcelData_outcome filePath fileName :
  match parseExcelData filePath fileName with
  | Thrown message =>
      exists cause,
        message = "Failed to parse Excel file " ++ fileName ++ ": " ++ cause
        /\ ((existsSync filePath = false
             /\ cause = "File not found: " ++ filePath)
            \/ (existsSync filePath = true
                /\ readFile filePath = Thrown cause))
  | Returned parsed =>
      existsSync filePath = true /\
      (exists wb, readFile filePath = Returned wb
                  /\ pf_sheetNames parsed = SheetNames wb) /\
      pf_fileName parsed = fileName /\
      In (pf_type parsed)
         ["hiv_indicators"; "direct_queries"; "dq_sites"; "generic"] /\
      (pf_type parsed = "generic" <-> dataTypeOf fileName = "unknown")
  end.
Proof.
  unfold Excel.parseExcelData.
  destruct (existsSync filePath); cbn [negb].
  2: { eexists. split; [reflexivity|]. left. split; reflexivity. }
  destruct (readFile filePath) as [wb|cause].
  2: { exists cause. split; [reflexivity|]. right. split; reflexivity. }
  cbn [pf_type pf_fileName pf_sheetNames].
  split; [reflexivity|]. split; [exists wb; split; reflexivity|].
  split; [reflexivity|].
  destruct (parserOf_type fileName wb) as [[Htype ->]|[Htype ->]].
  - split; [simpl; auto|]. split; [intros _; exact Htype|reflexivity].
  - split.
    + simpl in Htype |- *. destruct Htype as [H|[H|[H|[]]]]; auto.
    + split; [|intros E; rewrite E in Htype; simpl in Htype].
      * intros E. rewrite E in Htype. simpl in Htype.
        destruct Htype as [H|[H|[H|[]]]]; discriminate.
      * destruct Htype as [H|[H|[H|[]]]]; discriminate.
Qed.

Lemma parserOf_array fileName wb :
  dataTypeOf fileName = "unknown" ->
  dataArrayOf (parserOf fileName wb) = [].
Proof.
  unfold dataTypeOf, Excel.parserOf.
  destruct (Js.includes fileName "DHIS2_HIV Indicators"); [discriminate|].
  destruct (Js.includes fileName "Direct Queries"); [discriminate|].
  destruct (Js.includes fileName "Q2FY25_DQ"); [discriminate|].
  reflexivity.
Qed.

(** A returned file is marked invalid exactly when its name selects one
    of the three known types and no record was parsed; then, and only
    then, the error list is not empty.  The warnings have no part in it,
    and a file of no known name pattern is valid whatever it holds, with
    the single warning that no schema exists. *)
Theorem invalid_iff_known_type_without_records filePath fileName parsed :
  parseExcelData filePath fileName = Returned parsed ->
  (isValid (pf_validation parsed) = false
   <-> pf_type parsed <> "generic" /\ dataArrayOf (pf_data parsed) = []) /\
  (isValid (pf_validation parsed) = false
   <-> errors (pf_validation parsed) = ["No data found in Excel file"]) /\
  (isValid (pf_validation parsed) = true
   <-> errors (pf_validation parsed) = []) /\
  (pf_type parsed = "generic" ->
   warnings (pf_validation parsed)
   = ["No validation schema for data type: unknown"]).
Proof.
  unfold Excel.parseExcelData.
  destruct (existsSync filePath); cbn [negb]; [|discriminate].
  destruct (readFile filePath) as [wb|cause]; [|discriminate].
  intros [= <-]. cbn [pf_type pf_data pf_validation].
  destruct (parserOf_type fileName wb) as [[Htype Hgeneric]|[Htype Hnone]].
  - rewrite Hgeneric, Htype. cbn.
    repeat split; try discriminate; try reflexivity.
    intros [H _]. now elim H.
  - rewrite Hnone. unfold Excel.validateExcelData.
    assert (Hschema : exists sc,
               schemaOf validationSchemas (dataTypeOf fileName) = Some sc).
    { simpl in Htype. destruct Htype as [<-|[<-|[<-|[]]]]; eexists;
        reflexivity. }
    destruct Hschema as [sc ->].
    assert (Hne : dataTypeOf fileName <> "generic").
    { simpl in Htype. destruct Htype as [<-|[<-|[<-|[]]]]; discriminate. }
    destruct (dataArrayOf (parserOf fileName wb)) as [|item items];
      cbn [length Nat.eqb negb isValid errors warnings].
    + repeat split; try discriminate; try reflexivity; try assumption.
      intros E. now elim Hne.
    + repeat split; try discriminate; try reflexivity.
      * intros [_ H]. discriminate.
      * intros E. now elim Hne.
Qed.

Lemma findIndex_spec {A} (test : A -> bool) l :
  match findIndex test l with
  | Some i =>
      (exists x, nth_error l i = Some x /\ test x = true) /\
      (forall j x, (j < i)%nat -> nth_error l j = Some x -> test x = false)
  | None => forall x, In x l -> test x = false
  end.
Proof.
  induction l as [|y l IH]; simpl.
  - intros x [].
  - destruct (test y) eqn:Hy.
    + split; [exists y; auto|]. intros j x Hj. lia.
    + destruct (findIndex test l) as [i|].
      * destruct IH as [(x & Hx & Htest) Hbefore]. split.
        -- exists x. auto.
        -- intros [|j] z Hj; simpl; [intros [= <-]; exact Hy|].
           apply Hbefore. lia.
      * intros x [<-|Hx]; [exact Hy|now apply IH].
Qed.

(** The header row of a queries or sites sheet is the first of the first
    ten rows that passes the header test, and row 0 when none of them
    does; its index is below 10 and, in a sheet with a row, below the
    number of rows. *)
Theorem headerRowIndex_first (test : @rawRow num -> bool) rawData :
  let h := headerRowIndex test rawData in
  (h < 10)%nat /\
  (rawData <> [] -> (h < length rawData)%nat) /\
  (forall j row, (j < h)%nat -> nth_error rawData j = Some row ->
                 test row = false) /\
  ((exists j row, (j < 10)%nat /\ nth_error rawData j = Some row
                  /\ test row = true)
   -> exists row, nth_error rawData h = Some row /\ test row = true) /\
  ((forall j row, (j < 10)%nat -> nth_error rawData j = Some row ->
                  test row = false)
   -> h = 0%nat).
Proof.
  cbv zeta. unfold headerRowIndex.
  pose proof (findIndex_spec test (firstn 10 rawData)) as Hspec.
  assert (Hfirst : forall j, (j < 10)%nat ->
                     nth_error (firstn 10 rawData) j = nth_error rawData j).
  { intros j Hj. rewrite nth_error_firstn.
    destruct (Nat.ltb_spec j 10); [reflexivity|lia]. }
  destruct (findIndex test (firstn 10 rawData)) as [i|].
  - destruct Hspec as [(x & Hx & Htest) Hbefore].
    assert (Hi : (i < length (firstn 10 rawData))%nat).
    { apply nth_error_Some. congruence. }
    rewrite length_firstn in Hi.
    assert (Hi10 : (i < 10)%nat) by lia.
    split; [exact Hi10|]. split; [intros _; lia|]. split.
    + intros j row Hj Hrow. apply (Hbefore j); [exact Hj|].
      rewrite Hfirst by lia. exact Hrow.
    + split.
      * intros _. exists x. rewrite <- Hfirst by exact Hi10. auto.
      * intros Hnone. rewrite Hfirst in Hx by exact Hi10.
        rewrite (Hnone i x Hi10 Hx) in Htest. discriminate.
  - split; [lia|]. split.
    + intros Hne. destruct rawData; [now elim Hne|simpl; lia].
    + split; [intros j row Hj; lia|]. split; [|reflexivity].
      intros (j & row & Hj & Hrow & Htest).
      rewrite <- Hfirst in Hrow by exact Hj.
      apply nth_error_In in Hrow. rewrite (Hspec row Hrow) in Htest.
      discriminate.
Qed.

Lemma mapFilter_length {A B} (f : A -> nat -> option B) index l :
  (length (mapFilter f index l) <= length l)%nat.
Proof.
  revert index. induction l as [|x l IH]; intros index; simpl; [lia|].
  destruct (f x index); simpl; specialize (IH (S index)); lia.
Qed.

(** Only rows below the header row become records: a queries or sites
    sheet yields at most as many records as it has rows below the header
    row, so that its first row is never a record, whether a header was
    recognised or not. *)
Theorem records_only_below_header (test : @rawRow num -> bool)
    (ofRow : @rawRow num -> @rawRow num -> nat -> option record) rawData :
  (length (recordsBelowHeader test ofRow rawData)
   <= length rawData - (headerRowIndex test rawData + 1))%nat
  /\ (length (recordsBelowHeader test ofRow rawData)
      <= length rawData - 1)%nat.
Proof.
  unfold recordsBelowHeader, dataRowsOf.
  pose proof (mapFilter_length
                (fun (row : @rawRow num) index =>
                   match row with
                   | [] => None
                   | _ => ofRow (nth (headerRowIndex test rawData) rawData [])
                            row index
                   end)
                0 (skipn (headerRowIndex test rawData + 1) rawData)) as H.
  rewrite length_skipn in H. split; [exact H|].
  eapply Nat.le_trans; [exact H|]. lia.
Qed.

End ExcelMore.

Section ExcelMoreRuns.
Import Excel.

Lemma invalid_iff_known_type_without_records_witness :
  exists parsed,
    IntNum.parseExcelData "/tmp/Direct Queries - Q2 FY25.xlsx"
      "Direct Queries - Q2 FY25.xlsx"
    = Returned parsed /\
    (isValid (pf_validation parsed) = false
     <-> pf_type parsed <> "generic"
         /\ dataArrayOf (pf_data parsed) = []) /\
    (isValid (pf_validation parsed) = false
     <-> errors (pf_validation parsed) = ["No data found in Excel file"]) /\
    (isValid (pf_validation parsed) = true
     <-> errors (pf_validation parsed) = []) /\
    (pf_type parsed = "generic" ->
     warnings (pf_validation parsed)
     = ["No validation schema for data type: unknown"]).
Proof.
  eexists. split; [vm_compute; reflexivity|].
  apply (invalid_iff_known_type_without_records
           IntNum.sheet_to_json IntNum.sheet_to_rows
           (fun _ => true) (fun _ => Returned IntNum.headerOnly)
           (fun row _ => Some row)
           (fun header row _ =>
              Some (combine (map IntNum.columnName header) row))
           (fun header row _ =>
              Some (combine (map IntNum.columnName header) row))
           (fun _ _ _ => [])
           "/tmp/Direct Queries - Q2 FY25.xlsx"
           "Direct Queries - Q2 FY25.xlsx").
  vm_compute. reflexivity.
Defined.

End ExcelMoreRuns.

(** ** Organisation-unit ids *)

Section OrgUnitFacts.
Import ExcelJob.

Lemma clean_char_is_id_char c :
  is_id_char (upper_ascii (if is_alphanumeric c then c else "_"%char)) = true.
Proof.
  destruct c as [[] [] [] [] [] [] [] []]; vm_compute; reflexivity.
Qed.

Lemma cleanName_id_chars s :
  List.Forall (fun c => is_id_char c = true)
    (list_ascii_of_string (toUpperCase (replaceNonAlphanumeric s))).
Proof.
  induction s as [|c s IH]; simpl; constructor;
    [apply clean_char_is_id_char|exact IH].
Qed.

Lemma substring_to_id_chars n s :
  List.Forall (fun c => is_id_char c = true) (list_ascii_of_string s) ->
  List.Forall (fun c => is_id_char c = true)
    (list_ascii_of_string (substring_to n s)).
Proof.
  revert s. induction n as [|n IH]; intros [|c s] H; simpl;
    try constructor.
  - now inversion H.
  - apply IH. now inversion H.
Qed.

Lemma substring_to_length n s : (String.length (substring_to n s) <= n)%nat.
Proof.
  revert s. induction n as [|n IH]; intros [|c s]; simpl; try lia.
  specialize (IH s). lia.
Qed.

Lemma cleanName_length s :
  String.length (toUpperCase (replaceNonAlphanumeric s)) = String.length s.
Proof. induction s as [|c s IH]; simpl; congruence. Qed.

Lemma cleanName_app s t :
  toUpperCase (replaceNonAlphanumeric (s ++ t))
  = toUpperCase (replaceNonAlphanumeric s)
    ++ toUpperCase (replaceNonAlphanumeric t).
Proof.
  induction s as [|c s IH]; [reflexivity|].
  change (String c s ++ t) with (String c (s ++ t)).
  cbn [replaceNonAlphanumeric toUpperCase]. rewrite IH. reflexivity.
Qed.

Lemma substring_to_app n s t :
  (n <= String.length s)%nat ->
  substring_to n (s ++ t) = substring_to n s.
Proof.
  revert s. induction n as [|n IH]; intros [|c s] Hlen; simpl in Hlen;
    try lia.
  - now destruct t.
  - reflexivity.
  - change (String c s ++ t) with (String c (s ++ t)).
    cbn [substring_to]. rewrite IH by lia. reflexivity.
Qed.

(** An organisation-unit id begins with [MW_], has between 3 and 13
    characters, and holds only capital letters, digits and underscores,
    whatever the site name is. *)
Theorem generateOrgUnit_format siteName :
  let id := generateOrgUnit siteName in
  Js.startsWith id "MW_" = true /\
  (3 <= String.length id <= 13)%nat /\
  List.Forall (fun c => is_id_char c = true) (list_ascii_of_string id).
Proof.
  cbv zeta. unfold generateOrgUnit.
  destruct siteName as [s|]; [|vm_compute; repeat constructor; lia].
  destruct (Js.truthy s); cbn [negb];
    [|vm_compute; repeat constructor; lia].
  change ("MW_" ++ ?x) with (String "M" (String "W" (String "_" x))).
  split; [now destruct (substring_to 10 _)|]. split.
  - cbn [String.length].
    pose proof (substring_to_length 10
                  (toUpperCase (replaceNonAlphanumeric s))). lia.
  - cbn [list_ascii_of_string]. repeat constructor.
    apply substring_to_id_chars, cleanName_id_chars.
Qed.

(** Only the first ten characters of a site name reach the id: two site
    names that agree on them get the same organisation unit. *)
Theorem generateOrgUnit_first_ten_characters s t :
  (10 <= String.length s)%nat ->
  generateOrgUnit (Some (s ++ t)) = generateOrgUnit (Some s).
Proof.
  intros Hlen. unfold generateOrgUnit.
  assert (Hs : Js.truthy s = true) by (destruct s; [simpl in Hlen; lia|easy]).
  assert (Hst : Js.truthy (s ++ t) = true)
    by (destruct s; [simpl in Hlen; lia|easy]).
  rewrite Hs, Hst. cbn [negb]. cbv zeta.
  rewrite cleanName_app, substring_to_app; [reflexivity|].
  now rewrite cleanName_length.
Qed.

Lemma generateOrgUnit_first_ten_characters_witness :
  generateOrgUnit (Some ("Lilongwe Central Hospital" ++ " (annex)"))
  = generateOrgUnit (Some "Lilongwe Central Hospital").
Proof.
  apply (generateOrgUnit_first_ten_characters
           "Lilongwe Central Hospital" " (annex)").
  simpl. lia.
Defined.

End OrgUnitFacts.

(** ** The job that parses the downloaded files *)

Section ExcelJobFacts.
Import Excel ExcelJob.
Context {num worksheet jsonRow record world sheetRow : Type}.
Variable next : world -> world.
Variable clock : world -> Z.
Variable sheet_to_json : option worksheet -> list jsonRow.
Variable sheet_to_rows : option worksheet -> list (@rawRow num).
Variable existsSync : world -> string -> bool.
Variable readFile : world -> string -> outcome (@workbook worksheet).
Variable indicatorOfRow : jsonRow -> nat -> option record.
Variables queryOfRow siteOfRow :
  @rawRow num -> @rawRow num -> nat -> option record.
Variable itemWarnings : schema -> record -> nat -> list string.
Variables indicatorSheetRow querySheetRow siteSheetRow : record -> sheetRow.

Local Abbreviation parseIn :=
  (parseIn sheet_to_json sheet_to_rows existsSync readFile indicatorOfRow
     queryOfRow siteOfRow itemWarnings).
Local Abbreviation transformToGoogleSheetsFormat :=
  (transformToGoogleSheetsFormat indicatorSheetRow querySheetRow
     siteSheetRow).
Local Abbreviation attempt :=
  (attempt next clock sheet_to_json sheet_to_rows existsSync readFile
     indicatorOfRow queryOfRow siteOfRow itemWarnings indicatorSheetRow
     querySheetRow siteSheetRow).
Local Abbreviation processFile :=
  (processFile next clock sheet_to_json sheet_to_rows existsSync readFile
     indicatorOfRow queryOfRow siteOfRow itemWarnings indicatorSheetRow
     querySheetRow siteSheetRow).
Local Abbreviation processFiles :=
  (processFiles next clock sheet_to_json sheet_to_rows existsSync readFile
     indicatorOfRow queryOfRow siteOfRow itemWarnings indicatorSheetRow
     querySheetRow siteSheetRow).

Lemma startsWith_app p t : Js.startsWith (p ++ t) p = true.
Proof.
  induction p as [|c p IH]; [now destruct t|].
  change (String c p ++ t) with (String c (p ++ t)).
  cbn [Js.startsWith]. now rewrite Ascii.eqb_refl, IH.
Qed.

Lemma string_app_assoc (a b c : string) : (a ++ b) ++ c = a ++ (b ++ c).
Proof.
  induction a as [|x a IH]; [reflexivity|].
  change (String x a ++ b) with (String x (a ++ b)).
  change (String x (a ++ b) ++ c) with (String x ((a ++ b) ++ c)).
  change (String x a ++ (b ++ c)) with (String x (a ++ (b ++ c))).
  now rewrite IH.
Qed.

Lemma parseIn_thrown w filePath fileName message :
  parseIn w filePath fileName = Thrown message ->
  Js.startsWith message ("Failed to parse Excel file " ++ fileName ++ ": ")
  = true.
Proof.
  unfold ExcelJob.parseIn, parseExcelData.
  assert (Hprefix : forall cause,
            Js.startsWith
              ("Failed to parse Excel file " ++ fileName ++ ": " ++ cause)
              ("Failed to parse Excel file " ++ fileName ++ ": ") = true).
  { intros cause.
    replace ("Failed to parse Excel file " ++ fileName ++ ": " ++ cause)
      with (("Failed to parse Excel file " ++ fileName ++ ": ") ++ cause).
    - apply startsWith_app.
    - now rewrite !string_app_assoc. }
  destruct (existsSync w filePath); cbn [negb].
  - destruct (readFile w filePath) as [wb|cause]; [discriminate|].
    intros [= <-]. apply Hprefix.
  - intros [= <-]. apply Hprefix.
Qed.

(** what the loop for one file has done to the two arrays *)
Lemma processFile_outcome file
    (acc : @progress jsonRow record world sheetRow) :
  (exists parsedData at_,
      fst (fst (processFile acc file))
      = (fst (fst acc)
         ++ [mkProcessedEntry "sftp" (df_name file) (df_localPath file)
               parsedData (transformToGoogleSheetsFormat parsedData) at_])
        %list
      /\ snd (fst (processFile acc file)) = snd (fst acc))
  \/
  (exists message,
      fst (fst (processFile acc file)) = fst (fst acc)
      /\ snd (fst (processFile acc file))
         = (snd (fst acc)
            ++ [mkErrorEntry (df_name file) message maxRetries])%list
      /\ Js.startsWith message
           ("Failed to parse Excel file " ++ df_name file ++ ": ") = true).
Proof.
  destruct acc as [[ps es] w]. unfold ExcelJob.processFile, maxRetries.
  cbn [ExcelJob.attempt Nat.ltb Nat.leb maxRetries].
  destruct (parseIn w (df_localPath file) (df_name file))
    as [p1|m1] eqn:E1.
  { left. eexists _, _. split; reflexivity. }
  cbn [Nat.ltb Nat.leb].
  destruct (parseIn (next w) (df_localPath file) (df_name file))
    as [p2|m2] eqn:E2.
  { left. eexists _, _. split; reflexivity. }
  cbn [Nat.ltb Nat.leb].
  destruct (parseIn (next (next w)) (df_localPath file) (df_name file))
    as [p3|m3] eqn:E3.
  { left. eexists _, _. split; reflexivity. }
  cbn [Nat.ltb Nat.leb].
  right. exists m3. split; [reflexivity|]. split; [reflexivity|].
  exact (parseIn_thrown _ _ _ _ E3).
Qed.

(** More fuel than [maxRetries] changes nothing: the loop has ended by
    then. *)
Lemma attempt_fuel extra file acc :
  attempt (maxRetries + extra) 0 file acc = attempt maxRetries 0 file acc.
Proof.
  destruct acc as [[ps es] w]. unfold maxRetries.
  cbn [ExcelJob.attempt Nat.add Nat.ltb Nat.leb maxRetries].
  destruct (parseIn w _ _); [reflexivity|]. cbn [Nat.ltb Nat.leb].
  destruct (parseIn (next w) _ _); [reflexivity|]. cbn [Nat.ltb Nat.leb].
  destruct (parseIn (next (next w)) _ _); [reflexivity|].
  cbn [Nat.ltb Nat.leb]. destruct extra; reflexivity.
Qed.

Lemma processFiles_loop files :
  forall (acc : @progress jsonRow record world sheetRow) seen,
    length (fst (fst acc)) + length (snd (fst acc)) = length seen ->
    Permutation (map pe_fileName (fst (fst acc))
                 ++ map ee_fileName (snd (fst acc)))
                (map df_name seen) ->
    List.Forall
      (fun e => attempts e = maxRetries
                /\ Js.startsWith (ee_error e)
                     ("Failed to parse Excel file " ++ ee_fileName e ++ ": ")
                   = true)
      (snd (fst acc)) ->
    List.Forall
      (fun p => pe_source p = "sftp"
                /\ googleSheetsFormat p
                   = transformToGoogleSheetsFormat (pe_parsed p))
      (fst (fst acc)) ->
    let result := fold_left processFile files acc in
    length (fst (fst result)) + length (snd (fst result))
    = length (seen ++ files) /\
    Permutation (map pe_fileName (fst (fst result))
                 ++ map ee_fileName (snd (fst result)))
                (map df_name (seen ++ files)) /\
    List.Forall
      (fun e => attempts e = maxRetries
                /\ Js.startsWith (ee_error e)
                     ("Failed to parse Excel file " ++ ee_fileName e ++ ": ")
                   = true)
      (snd (fst result)) /\
    List.Forall
      (fun p => pe_source p = "sftp"
                /\ googleSheetsFormat p
                   = transformToGoogleSheetsFormat (pe_parsed p))
      (fst (fst result)).
Proof.
  induction files as [|file files IH]; intros acc seen Hlen Hperm Herr Hok.
  - cbn [fold_left]. cbv zeta. rewrite app_nil_r. auto.
  - cbn [fold_left]. cbv zeta.
    replace (seen ++ file :: files)%list
      with ((seen ++ [file]) ++ files)%list
      by (now rewrite <- app_assoc).
    apply IH; destruct (processFile_outcome file acc)
      as [(parsedData & at_ & Hp & He)|(message & Hp & He & Hmessage)];
      rewrite ?Hp, ?He, ?length_app, ?map_app; cbn [length map];
      try (rewrite ?length_app; cbn [length]; lia).
    + cbn [pe_fileName].
      rewrite <- app_assoc. cbn [app].
      etransitivity; [symmetry; apply Permutation_middle|].
      etransitivity; [|apply Permutation_cons_append].
      now apply Permutation_cons.
    + cbn [ee_fileName]. rewrite app_assoc.
      etransitivity; [symmetry; apply Permutation_cons_append|].
      etransitivity; [|apply Permutation_cons_append].
      now apply Permutation_cons.
    + exact Herr.
    + apply Forall_app. split; [exact Herr|].
      constructor; [|constructor]. split; [reflexivity|exact Hmessage].
    + apply Forall_app. split; [exact Hok|].
      constructor; [|constructor]. split; reflexivity.
    + exact Hok.
Qed.

(** Every downloaded file ends in exactly one of the two arrays: it is
    processed, with its Google Sheets format, or it is recorded as an
    error once three attempts have thrown, with the message of
    [parseExcelData].  The arrays hold nothing else. *)
Theorem every_file_processed_or_failed w files :
  let result := processFiles w files in
  let processedData := fst (fst result) in
  let errors := snd (fst result) in
  length processedData + length errors = length files /\
  Permutation (map pe_fileName processedData ++ map ee_fileName errors)
              (map df_name files) /\
  List.Forall
    (fun e => attempts e = maxRetries
              /\ Js.startsWith (ee_error e)
                   ("Failed to parse Excel file " ++ ee_fileName e ++ ": ")
                 = true)
    errors /\
  List.Forall
    (fun p => pe_source p = "sftp"
              /\ googleSheetsFormat p
                 = transformToGoogleSheetsFormat (pe_parsed p))
    processedData.
Proof.
  cbv zeta. unfold ExcelJob.processFiles.
  apply (processFiles_loop files ([], [], w) []).
  - reflexivity.
  - constructor.
  - constructor.
  - constructor.
Qed.

(** A file is recorded as an error only if [parseExcelData] threw at
    three successive calls, and it is processed as soon as one of at most
    three calls returns. *)
Theorem file_fails_after_three_throws file acc :
  let result := processFile acc file in
  (snd (fst result) <> snd (fst acc)
   <-> forall k, (k < maxRetries)%nat ->
                 exists m,
                   parseIn (Nat.iter k next (snd acc))
                     (df_localPath file) (df_name file) = Thrown m) /\
  (snd (fst result) = snd (fst acc)
   <-> exists k parsedData,
         (k < maxRetries)%nat /\
         parseIn (Nat.iter k next (snd acc))
           (df_localPath file) (df_name file) = Returned parsedData /\
         fst (fst result)
         = (fst (fst acc)
            ++ [mkProcessedEntry "sftp" (df_name file) (df_localPath file)
                  parsedData (transformToGoogleSheetsFormat parsedData)
                  (clock (Nat.iter (S k) next (snd acc)))])%list /\
         forall j, (j < k)%nat ->
                   exists m,
                     parseIn (Nat.iter j next (snd acc))
                       (df_localPath file) (df_name file) = Thrown m).
Proof.
  cbv zeta. destruct acc as [[ps es] w].
  unfold ExcelJob.processFile, maxRetries.
  cbn [ExcelJob.attempt Nat.ltb Nat.leb maxRetries fst snd].
  assert (Hgrew : forall e : errorEntry, (es ++ [e])%list <> es).
  { intros e E. apply (f_equal (@length _)) in E.
    rewrite length_app in E. simpl in E. lia. }
  assert (Hcases :
    forall P : nat -> Prop,
      (forall k, (k < 3)%nat -> P k) <-> P 0%nat /\ P 1%nat /\ P 2%nat).
  { intros P. split.
    - intros H. repeat split; apply H; lia.
    - intros (H0 & H1 & H2) [|[|[|k]]] Hk; [assumption..|lia]. }
  destruct (parseIn w (df_localPath file) (df_name file))
    as [p1|m1] eqn:E1; cbn [fst snd Nat.ltb Nat.leb].
  { split.
    - split; [intros H; now elim H|].
      intros H. destruct (H 0%nat ltac:(lia)) as [m Hm].
      cbv [Nat.iter nat_rect] in Hm. congruence.
    - split; [intros _|reflexivity].
      exists 0%nat, p1. cbv [Nat.iter nat_rect]. repeat split; [lia|assumption|].
      intros j Hj. lia. }
  destruct (parseIn (next w) (df_localPath file) (df_name file))
    as [p2|m2] eqn:E2; cbn [fst snd Nat.ltb Nat.leb].
  { split.
    - split; [intros H; now elim H|].
      intros H. destruct (H 1%nat ltac:(lia)) as [m Hm].
      cbv [Nat.iter nat_rect] in Hm. congruence.
    - split; [intros _|reflexivity].
      exists 1%nat, p2. cbv [Nat.iter nat_rect]. repeat split; [lia|assumption|].
      intros [|j] Hj; [cbv [Nat.iter nat_rect]; eauto|lia]. }
  destruct (parseIn (next (next w)) (df_localPath file) (df_name file))
    as [p3|m3] eqn:E3; cbn [fst snd Nat.ltb Nat.leb].
  { split.
    - split; [intros H; now elim H|].
      intros H. destruct (H 2%nat ltac:(lia)) as [m Hm].
      cbv [Nat.iter nat_rect] in Hm. congruence.
    - split; [intros _|reflexivity].
      exists 2%nat, p3. cbv [Nat.iter nat_rect].
      repeat split; [lia|assumption|].
      intros [|[|j]] Hj; [cbv [Nat.iter nat_rect]; eauto..|lia]. }
  split.
  - split; [|intros _; apply Hgrew].
    intros _. apply Hcases. cbv [Nat.iter nat_rect].
    repeat split; eexists; eassumption.
  - split; [intros H; now apply Hgrew in H|].
    intros (k & parsedData & Hk & Hparsed & _). exfalso.
    destruct k as [|[|[|k]]]; cbv [Nat.iter nat_rect] in Hparsed, Hk;
      [congruence..|lia].
Qed.

End ExcelJobFacts.

(** ** The SFTP workflow between the check and the tracking update *)

Section PipelineFacts.
Import Tracker TrackerViews Pipeline.
Variable get : nat -> string -> string -> option string.
Variable clock : nat -> Z.
Context {excelData : Type}.
Variable parseExcelData :
  nat -> option string -> string -> Excel.outcome excelData.
Variable processingClock : nat -> Z.

Local Abbreviation downloadFile := (downloadFile get clock).
Local Abbreviation download := (download get clock).
Local Abbreviation processOne :=
  (processOne parseExcelData processingClock).
Local Abbreviation processDownloaded :=
  (processDownloaded parseExcelData processingClock).

Local Abbreviation is_downloaded :=
  (fun f => String.eqb (dr_status f) "downloaded").
Local Abbreviation is_failed :=
  (fun f => String.eqb (dr_status f) "failed").

(** the download of [file] was asked for and succeeded *)
Local Abbreviation fetched files :=
  (fun r =>
     In (dr_file r) files /\
     dr_status r = "downloaded" /\
     dr_localPath r = Some (LOCAL_DOWNLOAD_PATH ++ name (dr_file r)) /\
     dr_error r = None /\
     exists index,
       get index (path (dr_file r))
         (LOCAL_DOWNLOAD_PATH ++ name (dr_file r)) = None).

(** the download of [file] was asked for and failed *)
Local Abbreviation missed files :=
  (fun r =>
     In (dr_file r) files /\
     dr_status r = "failed" /\
     dr_localPath r = None /\
     exists index message,
       get index (path (dr_file r))
         (LOCAL_DOWNLOAD_PATH ++ name (dr_file r)) = Some message
       /\ dr_error r = Some message).

Lemma downloadFile_cases index file :
  (get index (path file) (LOCAL_DOWNLOAD_PATH ++ name file) = None
   /\ downloadFile index file
      = mkDownloadResult file (Some (LOCAL_DOWNLOAD_PATH ++ name file))
          (Some (clock index)) "downloaded" None)
  \/
  (exists message,
      get index (path file) (LOCAL_DOWNLOAD_PATH ++ name file)
      = Some message
      /\ downloadFile index file
         = mkDownloadResult file None None "failed" (Some message)).
Proof.
  unfold Pipeline.downloadFile.
  destruct (get index (path file) (LOCAL_DOWNLOAD_PATH ++ name file))
    as [message|]; [right; exists message|left]; split; reflexivity.
Qed.

Lemma download_loop files :
  forall index,
    let results := mapIndexed downloadFile index files in
    Permutation
      (map dr_file (List.filter is_downloaded results)
       ++ map dr_file (List.filter is_failed results))
      files /\
    List.Forall (fetched files) (List.filter is_downloaded results) /\
    List.Forall (missed files) (List.filter is_failed results).
Proof.
  induction files as [|file files IH]; intros index; cbv zeta.
  - cbn. repeat constructor.
  - cbn [mapIndexed].
    destruct (IH (S index)) as (Hperm & Hok & Hfailed).
    assert (Hok' : List.Forall (fetched (file :: files))
                     (List.filter is_downloaded
                        (mapIndexed downloadFile (S index) files))).
    { eapply List.Forall_impl; [|exact Hok]. cbn beta.
      intros r (Hin & Hrest). split; [right; exact Hin|exact Hrest]. }
    assert (Hfailed' : List.Forall (missed (file :: files))
                         (List.filter is_failed
                            (mapIndexed downloadFile (S index) files))).
    { eapply List.Forall_impl; [|exact Hfailed]. cbn beta.
      intros r (Hin & Hrest). split; [right; exact Hin|exact Hrest]. }
    destruct (downloadFile_cases index file)
      as [[Hget ->]|(message & Hget & ->)];
      cbn [List.filter dr_status String.eqb Ascii.eqb Bool.eqb andb map
           app dr_file].
    + split; [now apply Permutation_cons|]. split; [|exact Hfailed'].
      constructor; [|exact Hok']. cbn.
      split; [now left|]. repeat split. exists index. exact Hget.
    + split.
      * etransitivity; [symmetry; apply Permutation_middle|].
        now apply Permutation_cons.
      * split; [exact Hok'|]. constructor; [|exact Hfailed']. cbn.
        split; [now left|]. repeat split. exists index, message. auto.
Qed.

(** No file is lost by the download job: every file it was asked for is
    in exactly one of [downloadedFiles] and [failedDownloads]; a
    downloaded file has the local path [/tmp/openfn-downloads/] followed
    by its name and no error, a failed one has no local path and the
    message of the error. *)
Theorem download_partition filesToDownload :
  let downloadedFiles := fst (download filesToDownload) in
  let failedDownloads := snd (download filesToDownload) in
  Permutation (map dr_file downloadedFiles ++ map dr_file failedDownloads)
              filesToDownload /\
  length downloadedFiles + length failedDownloads = length filesToDownload
  /\
  List.Forall (fetched filesToDownload) downloadedFiles /\
  List.Forall (missed filesToDownload) failedDownloads.
Proof.
  cbv zeta. unfold Pipeline.download. cbn [fst snd].
  destruct (download_loop filesToDownload 0) as (Hperm & Hok & Hfailed).
  split; [exact Hperm|]. split; [|split; assumption].
  apply Permutation_length in Hperm.
  rewrite length_app, !length_map in Hperm. exact Hperm.
Qed.

(** [p] is the result of a call of [parseExcelData] on a file of [files] *)
Local Abbreviation parsed_from files :=
  (fun p =>
     In (pr_file p) files /\
     exists index,
       parseExcelData index (dr_localPath (pr_file p))
         (name (dr_file (pr_file p)))
       = Excel.Returned (pr_excelData p)).

Lemma process_loop files :
  forall (acc : list (@processedResult excelData)
                * list processingError * nat) seen,
    Permutation
      (map (fun p => name (dr_file (pr_file p))) (fst (fst acc))
       ++ map pe_fileName (snd (fst acc)))
      (map (fun r => name (dr_file r)) seen) ->
    List.Forall (parsed_from seen) (fst (fst acc)) ->
    let result := fold_left processOne files acc in
    Permutation
      (map (fun p => name (dr_file (pr_file p))) (fst (fst result))
       ++ map pe_fileName (snd (fst result)))
      (map (fun r => name (dr_file r)) (seen ++ files)) /\
    List.Forall (parsed_from (seen ++ files)) (fst (fst result)).
Proof.
  induction files as [|file files IH]; intros acc seen Hperm Hin.
  - cbn [fold_left]. cbv zeta. rewrite app_nil_r. auto.
  - cbn [fold_left]. cbv zeta.
    replace (seen ++ file :: files)%list
      with ((seen ++ [file]) ++ files)%list
      by (now rewrite <- app_assoc).
    destruct acc as [[processedFiles processingErrors] index].
    cbn [fst snd] in Hperm, Hin.
    assert (Hin' : List.Forall (parsed_from (seen ++ [file]))
                     processedFiles).
    { eapply List.Forall_impl; [|exact Hin]. cbn beta.
      intros p [Hp Hparsed]. split; [|exact Hparsed].
      apply in_or_app. now left. }
    apply IH; unfold Pipeline.processOne;
      destruct (parseExcelData index (dr_localPath file)
                  (name (dr_file file))) as [parsed|message] eqn:Hcall;
      cbn [fst snd]; rewrite ?map_app; cbn [map pr_file pe_fileName].
    + rewrite <- app_assoc. cbn [app].
      etransitivity; [symmetry; apply Permutation_middle|].
      etransitivity; [|apply Permutation_cons_append].
      now apply Permutation_cons.
    + rewrite app_assoc.
      etransitivity; [symmetry; apply Permutation_cons_append|].
      etransitivity; [|apply Permutation_cons_append].
      now apply Permutation_cons.
    + apply Forall_app. split; [exact Hin'|].
      constructor; [|constructor]. cbn. split.
      * apply in_or_app. right. now left.
      * exists index. exact Hcall.
    + exact Hin'.
Qed.

Lemma processDownloaded_spec files :
  let result := processDownloaded (Some files) in
  Permutation
    (map (fun p => name (dr_file (pr_file p))) (ps_processedFiles result)
     ++ map pe_fileName
          (match ps_processingErrors result with
           | Some processingErrors => processingErrors
           | None => []
           end))
    (map (fun r => name (dr_file r)) files) /\
  List.Forall (parsed_from files) (ps_processedFiles result).
Proof.
  cbv zeta. unfold Pipeline.processDownloaded.
  destruct files as [|file files]; [cbn; auto|].
  cbn [length Nat.eqb].
  pose proof (process_loop (file :: files) ([], [], 0%nat) []
                (Permutation_refl _) (List.Forall_nil _)) as H.
  cbv zeta in H. cbn [app] in H.
  destruct (fold_left processOne (file :: files) ([], [], 0%nat))
    as [[processedFiles processingErrors] index].
  exact H.
Qed.

(** Every file that the download job was asked for ends in exactly one
    of three places: the failed downloads, the processing errors, or the
    processed files.  A processed file is a downloaded file on which
    [parseExcelData] has returned. *)
Theorem sftp_files_accounted_for filesToDownload :
  let downloadedFiles := fst (download filesToDownload) in
  let failedDownloads := snd (download filesToDownload) in
  let result := processDownloaded (Some downloadedFiles) in
  Permutation
    (map (fun r => name (dr_file r)) failedDownloads
     ++ map pe_fileName
          (match ps_processingErrors result with
           | Some processingErrors => processingErrors
           | None => []
           end)
     ++ map (fun p => name (dr_file (pr_file p)))
          (ps_processedFiles result))
    (map name filesToDownload) /\
  List.Forall (fun p => parsed_from downloadedFiles p
                        /\ fetched filesToDownload (pr_file p))
    (ps_processedFiles result).
Proof.
  cbv zeta. unfold Pipeline.download. cbn [fst snd].
  destruct (download_loop filesToDownload 0) as (Hperm & Hok & _).
  cbv zeta in Hperm, Hok.
  destruct (processDownloaded_spec
              (List.filter is_downloaded
                 (mapIndexed downloadFile 0 filesToDownload)))
    as (Hprocessed & Hin).
  cbv zeta in Hprocessed, Hin. split.
  - apply (Permutation_map name) in Hperm.
    rewrite map_app, !map_map in Hperm.
    etransitivity; [|exact Hperm].
    etransitivity; [apply Permutation_app_comm|].
    apply Permutation_app_tail.
    etransitivity; [apply Permutation_app_comm|]. exact Hprocessed.
  - apply List.Forall_forall. intros p Hp.
    pose proof (proj1 (List.Forall_forall _ _) Hin p Hp) as Hdownloaded.
    split; [exact Hdownloaded|].
    exact (proj1 (List.Forall_forall _ _) Hok _ (proj1 Hdownloaded)).
Qed.

Lemma sftp_files_accounted_for_aux filesToDownload p :
  In p (ps_processedFiles
          (processDownloaded (Some (fst (download filesToDownload))))) ->
  parsed_from (fst (download filesToDownload)) p
  /\ fetched filesToDownload (pr_file p).
Proof.
  unfold Pipeline.download. cbn [fst snd]. intros Hp.
  destruct (download_loop filesToDownload 0) as (_ & Hok & _).
  cbv zeta in Hok.
  destruct (processDownloaded_spec
              (List.filter is_downloaded
                 (mapIndexed downloadFile 0 filesToDownload)))
    as (_ & Hin).
  cbv zeta in Hin.
  pose proof (proj1 (List.Forall_forall _ _) Hin p Hp) as Hdownloaded.
  split; [exact Hdownloaded|].
  exact (proj1 (List.Forall_forall _ _) Hok _ (proj1 Hdownloaded)).
Qed.

Lemma current_entry_of_listed t0 st pre file post :
  data st = (pre ++ file :: post)%list ->
  eligible file = true ->
  (forall other, In other post -> le_name other <> le_name file) ->
  orEmpty (currentFileList (checkSftpFiles t0 st)) !! le_name file
  = Some (infoOf file).
Proof.
  intros Hdata Hel Hother.
  destruct (checkSftpFiles_fields t0 st) as (_ & _ & _ & _ & ->).
  cbn [orEmpty]. unfold classify. rewrite Hdata, fold_left_app. simpl.
  rewrite classify_loop_other
    by (intros other Hin; right; now apply Hother).
  now apply checkFile_current_same.
Qed.

(** A new file whose download fails, or on which [parseExcelData]
    throws, at every attempt is reported as new by the check, is not
    among the processed files, and is tracked as checked by the tracking
    update once the upload of the other files has completed: the next
    check of the same listing no longer reports it. *)
Theorem new_file_lost_when_download_fails t0 t1 t2 st pre file post :
  data st = (pre ++ file :: post)%list ->
  eligible file = true ->
  (forall other, In other (pre ++ post)%list ->
                 le_name other <> le_name file) ->
  orEmpty (fileTracking st) !! le_name file = None ->
  (forall index,
      get index (SFTP_DIRECTORY ++ le_name file)
        (LOCAL_DOWNLOAD_PATH ++ le_name file) <> None)
  \/ (forall index,
        exists message,
          parseExcelData index
            (Some (LOCAL_DOWNLOAD_PATH ++ le_name file)) (le_name file)
          = Excel.Thrown message) ->
  let checked := checkSftpFiles t0 st in
  let processed :=
    ps_processedFiles
      (processDownloaded
         (Some (fst (download (filesToDownload checked))))) in
  let updated :=
    updateFileTracking t1
      (afterPipeline checked (map tracked processed) true) in
  In (infoOf file) (newFiles checked) /\
  ~ In (le_name file) (map pf_name (map tracked processed)) /\
  orEmpty (fileTracking updated) !! le_name file
  = Some (checkedInfo t1 (infoOf file)) /\
  List.Forall (fun found => name found <> le_name file)
    (newFiles (checkSftpFiles t2 (withListing (data st) updated))).
Proof.
  intros Hdata Hel Hother Hnew Hfails. cbv zeta.
  assert (Hreported : In (infoOf file) (newFiles (checkSftpFiles t0 st))).
  { rewrite newFiles_checkSftpFiles. apply in_map. apply filter_In.
    split; [rewrite Hdata; apply in_or_app; right; now left|].
    now rewrite Hel, Hnew. }
  assert (Hnot :
    ~ In (le_name file)
        (map pf_name
           (map tracked
              (ps_processedFiles
                 (processDownloaded
                    (Some (fst (download
                                  (filesToDownload
                                     (checkSftpFiles t0 st)))))))))).
  { rewrite map_map. intros (p & Hname & Hp)%in_map_iff.
    cbn [tracked pf_name] in Hname.
    destruct (sftp_files_accounted_for_aux
                (filesToDownload (checkSftpFiles t0 st)) p Hp)
      as ((_ & index & Hcall)
          & Hasked & _ & Hpath & _ & index' & Hget).
    assert (Hfile : path (dr_file (pr_file p))
                    = SFTP_DIRECTORY ++ name (dr_file (pr_file p))).
    { unfold filesToDownload in Hasked.
      destruct (0 <? length (newFiles (checkSftpFiles t0 st)))%nat;
        [|now destruct Hasked].
      rewrite newFiles_checkSftpFiles in Hasked.
      apply in_map_iff in Hasked as (entry & <- & _). reflexivity. }
    rewrite Hfile, Hname in Hget. rewrite Hpath, Hname in Hcall.
    destruct Hfails as [Hdown|Hparse].
    - exact (Hdown index' Hget).
    - destruct (Hparse index) as [message Hthrown]. congruence. }
  split; [exact Hreported|]. split; [exact Hnot|].
  set (processed := ps_processedFiles _) in *.
  assert (Htracked :
    orEmpty
      (fileTracking
         (updateFileTracking t1
            (afterPipeline (checkSftpFiles t0 st) (map tracked processed)
               true)))
    !! le_name file
    = Some (checkedInfo t1 (infoOf file))).
  { apply unprocessed_marked_checked.
    - reflexivity.
    - exact Hnot.
    - cbn [afterPipeline fileTracking].
      destruct (checkSftpFiles_fields t0 st) as (_ & -> & _). exact Hnew.
    - cbn [afterPipeline currentFileList].
      apply (current_entry_of_listed t0 st pre file post Hdata Hel).
      intros other Hin. apply Hother. apply in_or_app. now right. }
  split; [exact Htracked|].
  apply (same_as_tracked_not_new t2 _ (le_name file) _ (data st) Htracked).
  intros entry Hin Hname. rewrite Hdata in Hin.
  apply in_app_or in Hin as [Hin|[<-|Hin]].
  - exfalso. apply (Hother entry); [apply in_or_app; now left|exact Hname].
  - split; reflexivity.
  - exfalso. apply (Hother entry); [apply in_or_app; now right|exact Hname].
Qed.

End PipelineFacts.

Section PipelineRuns.
Import Tracker TrackerViews Pipeline.

Lemma new_file_lost_when_download_fails_witness :
  let get := fun (_ : nat) (remote : string) (_ : string) =>
               if String.eqb remote "/uploads/hiv-indicators/b.xlsx"
               then Some "No such file" else None in
  let clock := fun _ : nat => 1748768410000%Z in
  let parseExcelData :=
    fun (_ : nat) (_ : option string) (_ : string) => Excel.Returned tt in
  let late :=
    mkEntry "file" "b.xlsx" (PNumber 7) (PText "2025-06-01T09:00:00Z") in
  let st := startOfRun None [aXlsx 100; late] in
  let checked := checkSftpFiles 1748768400000 st in
  let processed :=
    ps_processedFiles
      (processDownloaded parseExcelData clock
         (Some (fst (download get clock (filesToDownload checked))))) in
  let updated :=
    updateFileTracking 1748768460000
      (afterPipeline checked (map tracked processed) true) in
  In (infoOf late) (newFiles checked) /\
  ~ In (le_name late) (map pf_name (map tracked processed)) /\
  orEmpty (fileTracking updated) !! le_name late
  = Some (checkedInfo 1748768460000 (infoOf late)) /\
  List.Forall (fun found => name found <> le_name late)
    (newFiles (checkSftpFiles 1748854800000 (withListing (data st) updated))).
Proof.
  apply (new_file_lost_when_download_fails
           (fun (_ : nat) (remote : string) (_ : string) =>
              if String.eqb remote "/uploads/hiv-indicators/b.xlsx"
              then Some "No such file" else None)
           (fun _ : nat => 1748768410000%Z)
           (fun (_ : nat) (_ : option string) (_ : string) =>
              Excel.Returned tt)
           (fun _ : nat => 1748768410000%Z)
           1748768400000 1748768460000 1748854800000
           (startOfRun None
              [aXlsx 100;
               mkEntry "file" "b.xlsx" (PNumber 7)
                 (PText "2025-06-01T09:00:00Z")])
           [aXlsx 100]
           (mkEntry "file" "b.xlsx" (PNumber 7)
              (PText "2025-06-01T09:00:00Z"))
           []).
  - reflexivity.
  - reflexivity.
  - intros other [<-|[]]. discriminate.
  - reflexivity.
  - left. intros index. discriminate.
Defined.

End PipelineRuns.

(** ** The shared utilities *)

Section SharedFacts.
Import Excel Shared.
Context {value : Type}.

Lemma checkColumn_length (sampleRows : list (@row value)) column :
  (length (checkColumn sampleRows column) <= 1)%nat.
Proof. unfold checkColumn. destruct (negb _); simpl; lia. Qed.

(** The shared validator reads the first five rows only: rows after the
    fifth change neither the verdict nor the warnings. *)
Theorem shared_validator_samples_five_rows (data data' : @parsed value)
    dataType more :
  dataArrayFor data' dataType = (dataArrayFor data dataType ++ more)%list ->
  (5 <= length (dataArrayFor data dataType))%nat ->
  validateExcelData data' dataType = validateExcelData data dataType.
Proof.
  unfold validateExcelData. intros -> Hlen.
  destruct (schemaOf validationSchemas dataType) as [sc|]; [|reflexivity].
  cbv zeta.
  assert (Hsample : firstn 5 (dataArrayFor data dataType ++ more)
                    = firstn 5 (dataArrayFor data dataType)).
  { rewrite firstn_app.
    replace (5 - length (dataArrayFor data dataType))%nat with 0%nat by lia.
    cbn [firstn]. apply app_nil_r. }
  rewrite Hsample.
  assert (Hempty : (length (dataArrayFor data dataType ++ more) =? 0)%nat
                   = (length (dataArrayFor data dataType) =? 0)%nat).
  { rewrite length_app.
    destruct (Nat.eqb_spec (length (dataArrayFor data dataType)) 0);
      [lia|]. apply Nat.eqb_neq. lia. }
  now rewrite Hempty.
Qed.

(** For one of the three known types the verdict is invalid exactly when
    the property that belongs to the type holds no row (data under
    another property does not count); an invalid verdict carries five
    warnings, a valid one at most four, so that a missing required column
    alone never invalidates a file. *)
Theorem shared_validator_verdict (data : @parsed value) dataType :
  In dataType ["hiv_indicators"; "direct_queries"; "dq_sites"] ->
  let v := validateExcelData data dataType in
  (sv_isValid v = false <-> dataArrayFor data dataType = []) /\
  (sv_isValid v = false -> length (sv_warnings v) = 5%nat) /\
  (sv_isValid v = true -> (length (sv_warnings v) <= 4)%nat).
Proof.
  intros Hin. cbv zeta. unfold validateExcelData.
  assert (Hschema : exists c1 c2 c3 c4 optional,
            schemaOf validationSchemas dataType
            = Some (mkSchema [c1; c2; c3; c4] optional)).
  { simpl in Hin. destruct Hin as [<-|[<-|[<-|[]]]];
      do 5 eexists; reflexivity. }
  destruct Hschema as (c1 & c2 & c3 & c4 & optional & ->).
  cbv zeta. cbn [requiredColumns flat_map].
  destruct (dataArrayFor data dataType) as [|r rows].
  - cbn. repeat split; try reflexivity; discriminate.
  - cbn [length Nat.eqb negb sv_isValid sv_warnings app].
    split; [split; discriminate|]. split; [discriminate|]. intros _.
    rewrite !length_app. cbn [length].
    pose proof (checkColumn_length (firstn 5 (r :: rows)) c1).
    pose proof (checkColumn_length (firstn 5 (r :: rows)) c2).
    pose proof (checkColumn_length (firstn 5 (r :: rows)) c3).
    pose proof (checkColumn_length (firstn 5 (r :: rows)) c4).
    lia.
Qed.

Lemma checkDataValues_complete (l : list (@dataValue value)) :
  forall index,
    List.Forall (fun dv => complete dv = true) l ->
    List.Forall
      (fun e => exists i,
                  (index <= i < index + length l)%nat /\
                  (e = missing i "period" \/ e = missing i "orgUnit"))
      (checkDataValues index l)
    /\ (checkDataValues index l = []
        <-> List.Forall
              (fun dv => truthy (dv_period dv) = true
                         /\ truthy (dv_orgUnit dv) = true) l).
Proof.
  induction l as [|dv l IH]; intros index Hall.
  - cbn. split; [constructor|]. split; [constructor|reflexivity].
  - inversion Hall as [|? ? Hdv Hrest]; subst.
    destruct (IH (S index) Hrest) as [Herrors Hnone].
    unfold complete in Hdv. apply andb_true_iff in Hdv as [Helement Hvalue].
    cbn [checkDataValues]. unfold checkDataValue.
    rewrite Helement. destruct (dv_value dv) as [v|]; [|discriminate].
    cbn [negb app]. split.
    + apply Forall_app. split.
      * destruct (truthy (dv_period dv)), (truthy (dv_orgUnit dv));
          cbn [negb app]; repeat constructor;
          exists index; (split; [cbn [length]; lia|auto]).
      * eapply List.Forall_impl; [|exact Herrors]. cbn beta.
        intros e (i & Hi & He). exists i. split; [cbn [length]; lia|].
        exact He.
    + split.
      * intros Hnil. apply app_eq_nil in Hnil as [Hhere Hthere].
        constructor; [|now apply Hnone].
        destruct (truthy (dv_period dv)), (truthy (dv_orgUnit dv));
          cbn [negb app] in Hhere; try discriminate. auto.
      * intros Hok. inversion Hok as [|? ? [Hperiod HorgUnit] Hok'];
          subst. rewrite Hperiod, HorgUnit. cbn [negb app].
        now apply Hnone.
Qed.

(** A data value set made by [generateDataValueSets] is never found to
    miss a data element or a value: the validator can only find it empty,
    or find data values without a period or an organisation unit.  It is
    valid exactly when an indicator with a name and a value was given and
    every such indicator has, or is given, a period and an organisation
    unit. *)
Theorem generated_set_validation now (indicators : list (@indicator value))
    orgUnit period :
  let set := generateDataValueSets now indicators orgUnit period in
  let v := validateDataValueSet (Some (dataValues set)) in
  List.Forall
    (fun e => e = "dataValues array cannot be empty"
              \/ exists i,
                   (i < length (dataValues set))%nat /\
                   (e = missing i "period" \/ e = missing i "orgUnit"))
    (vs_errors v) /\
  (vs_isValid v = true
   <-> dataValues set <> [] /\
       List.Forall
         (fun dv => truthy (dv_period dv) = true
                    /\ truthy (dv_orgUnit dv) = true)
         (dataValues set)) /\
  (truthy orgUnit = true -> truthy period = true ->
   (vs_isValid v = true
    <-> exists i, In i indicators
                  /\ truthy (or_ (i_dataElement i) (i_indicator i)) = true
                  /\ i_value i <> None)).
Proof.
  cbv zeta. unfold generateDataValueSets. cbn [dataValues].
  set (kept := List.filter complete
                 (map (toDataValue orgUnit period) indicators)).
  assert (Hcomplete : List.Forall (fun dv => complete dv = true) kept).
  { apply List.Forall_forall. intros dv Hdv.
    now apply filter_In in Hdv as [_ Hdv]. }
  destruct (checkDataValues_complete kept 0 Hcomplete) as [Herrors Hnone].
  assert (Hkept : kept <> []
                  <-> exists i, In i indicators
                        /\ truthy (or_ (i_dataElement i) (i_indicator i))
                           = true
                        /\ i_value i <> None).
  { split.
    - intros Hne. destruct kept as [|dv rest] eqn:E; [now elim Hne|].
      assert (Hdv : In dv kept) by (rewrite E; now left).
      apply filter_In in Hdv as [Hdv Hc].
      apply in_map_iff in Hdv as (i & <- & Hi).
      unfold complete in Hc. cbn in Hc.
      apply andb_true_iff in Hc as [Helement Hvalue].
      exists i. split; [exact Hi|]. split; [exact Helement|].
      now destruct (i_value i).
    - intros (i & Hi & Helement & Hvalue) Hnil.
      assert (Hdv : In (toDataValue orgUnit period i) kept).
      { apply filter_In. split; [now apply in_map|].
        unfold complete. cbn. rewrite Helement.
        now destruct (i_value i). }
      rewrite Hnil in Hdv. destruct Hdv. }
  unfold validateDataValueSet.
  destruct kept as [|dv rest] eqn:E.
  - cbn. split; [repeat constructor; now left|]. split.
    + split; [discriminate|]. intros [H _]. now elim H.
    + intros _ _. split; [discriminate|]. intros H.
      apply Hkept in H. now elim H.
  - cbn [length Nat.eqb vs_errors vs_isValid].
    assert (Hvalid : (length (checkDataValues 0 (dv :: rest)) =? 0)%nat
                     = true
                     <-> checkDataValues 0 (dv :: rest) = []).
    { rewrite Nat.eqb_eq. split; [|intros ->; reflexivity].
      now destruct (checkDataValues 0 (dv :: rest)). }
    split.
    + eapply List.Forall_impl; [|exact Herrors]. cbn beta.
      intros e (i & Hi & He). right. exists i.
      split; [exact (proj2 Hi)|exact He].
    + split.
      * rewrite Hvalid, Hnone. split; [intros H; split; [discriminate|
          exact H]|intros [_ H]; exact H].
      * intros HorgUnit Hperiod. rewrite Hvalid, Hnone.
        split; [intros _; apply Hkept; discriminate|]. intros _.
        apply List.Forall_forall. intros dv' Hdv'.
        rewrite <- E in Hdv'. subst kept.
        apply filter_In in Hdv' as [Hdv' _].
        apply in_map_iff in Hdv' as (i & <- & _).
        cbn. unfold or_. now rewrite HorgUnit, Hperiod.
Qed.

End SharedFacts.

Section SharedRuns.
Import Excel Shared.

Lemma shared_validator_samples_five_rows_witness :
  let r : @row unit := {[ "indicator" := Some tt ]} in
  validateExcelData (mkParsed (Some [r; r; r; r; r; ∅]) None None)
    "hiv_indicators"
  = validateExcelData (mkParsed (Some [r; r; r; r; r]) None None)
      "hiv_indicators".
Proof.
  apply (shared_validator_samples_five_rows
           (mkParsed
              (Some [ {[ "indicator" := Some tt ]};
                      {[ "indicator" := Some tt ]};
                      {[ "indicator" := Some tt ]};
                      {[ "indicator" := Some tt ]};
                      {[ "indicator" := Some tt ]} ]) None None)
           (mkParsed
              (Some [ {[ "indicator" := Some tt ]};
                      {[ "indicator" := Some tt ]};
                      {[ "indicator" := Some tt ]};
                      {[ "indicator" := Some tt ]};
                      {[ "indicator" := Some tt ]}; ∅ ]) None None)
           "hiv_indicators" [∅]).
  - reflexivity.
  - simpl. lia.
Defined.

Lemma shared_validator_verdict_witness :
  let v := @validateExcelData unit (mkParsed None (Some [∅]) None)
             "hiv_indicators" in
  (sv_isValid v = false
   <-> @dataArrayFor unit (mkParsed None (Some [∅]) None) "hiv_indicators"
       = []) /\
  (sv_isValid v = false -> length (sv_warnings v) = 5%nat) /\
  (sv_isValid v = true -> (length (sv_warnings v) <= 4)%nat).
Proof.
  apply (shared_validator_verdict (mkParsed None (Some [∅]) None)
           "hiv_indicators").
  simpl. auto.
Defined.

End SharedRuns.
